(** * CourtBooking: the price engine and the admission controller

    A shallow embedding of [backend/pricing.py] ([rule_applies],
    [compute_price]) and of the booking and cancellation handlers of
    [backend/main.py] ([create_booking], [cancel_booking]), over the tables
    of [backend/models.py].

    Conventions.
    - Python [float] is IEEE binary64: Rocq's primitive [float], same
      rounding.  Python [int] is [Z].
    - A naive [datetime] is the number of microseconds since
      1970-01-01T00:00:00; a [timedelta] is a difference of two of them and a
      [datetime.time] is the number of microseconds since midnight.
      Requests carry naive timestamps.
    - A JSON object is a record.  A key the code only tests for truth
      ([if not match], [if days], [if start_t and end_t], [if applies_to])
      or compares with [None] is an [option] field or a list: there a missing
      key, [null] and an empty value are alike.  A key read with
      [d.get(key, default)] and then used is a [json_key] field: missing (the
      default is taken), [null] (Python's [None] comes back, not the
      default) or a value of the key's type.
    - The columns of the tables hold values of their declared types; the
      bodies sent to the rule administration hold, under the keys they
      give, values of the column's type.
    - An exception that is no [HTTPException] ([TypeError] and the like)
      is caught by no handler: the request fails, and what was committed
      before stays.
    - The SQLAlchemy session is a state-and-exception monad over the
      tables; a raised exception keeps what was committed before.
      One session runs at a time: the advisory lock [create_booking] takes
      orders concurrent sessions and is not part of the model.
    - The database engine is chosen in [backend/db.py], outside the code
      modelled here.  Two things depend on it and are left open: the order in
      which a query without [order_by] returns its rows (a table is the
      list of its rows in that order), and what the integer column
      [booking_allocations.resource_id] makes of the SKU text the confirm
      step writes into it (the store carries that as [resource_id_column]). *)

From Stdlib Require Import ZArith List String Ascii Bool Lia Floats.
From Stdlib Require Import DecimalString Sorted Permutation.
Import ListNotations.

Local Open Scope string_scope.
Local Open Scope list_scope.
Local Open Scope Z_scope.

(* ================================================================== *)
(** ** Exceptions no handler catches *)
(* ================================================================== *)

Inductive exn : Type :=
| TypeError        (* an operand is [None] *)
| AttributeError   (* [None.get(...)] *)
| OverflowError    (* int too large to convert to float *)
| DBAPIError.      (* the engine refuses a row *)

(** A computation that returns or raises. *)
Inductive result (A : Type) : Type :=
| Ok (a : A)
| Err (x : exn).
Arguments Ok {A} a.
Arguments Err {A} x.

Definition rbind {A B : Type} (c : result A) (k : A -> result B) : result B :=
  match c with
  | Ok a => k a
  | Err x => Err x
  end.

Declare Scope result_scope.
Delimit Scope result_scope with result.
Notation "x <- c ;; k" := (rbind c (fun x => k))
  (at level 61, c at next level, right associativity) : result_scope.

(** A loop that carries a value through the elements of a list and stops at
    the first raise. *)
Fixpoint fold_result {A B : Type} (f : A -> B -> result A) (l : list B) (a : A)
  : result A :=
  match l with
  | [] => Ok a
  | x :: rest => rbind (f a x) (fold_result f rest)
  end.

(** A key read with [d.get(key, default)]. *)
Inductive json_key (A : Type) : Type :=
| Missing
| Null
| Val (a : A).
Arguments Missing {A}.
Arguments Null {A}.
Arguments Val {A} a.

(** [d.get(key, default)]: [None] stands for Python's [None]. *)
Definition get_default {A : Type} (k : json_key A) (default : A) : option A :=
  match k with
  | Missing => Some default
  | Null => None
  | Val a => Some a
  end.

(* ================================================================== *)
(** ** Python numbers *)
(* ================================================================== *)

Module PyNum.

(** A JSON / Python number: [int] or [float]. *)
Inductive num : Type :=
| PInt (z : Z)
| PFloat (f : float).

(** The integer rounded to the nearest binary64, ties to even; infinite
    from [float_limit] on. *)
Definition float_of_Z (z : Z) : float :=
  SF2Prim (binary_normalize prec emax z 0 false).

(** Half way between the largest binary64, [2^1024 - 2^971], and
    [2^1024]. *)
Definition float_limit : Z := 2 ^ 1024 - 2 ^ 970.

(** The conversion of an int operand in mixed arithmetic: OverflowError
    when the nearest binary64 is not finite. *)
Definition float_of_int (z : Z) : result float :=
  if Z.abs z <? float_limit then Ok (float_of_Z z) else Err OverflowError.

Definition to_float (x : num) : result float :=
  match x with
  | PInt z => float_of_int z
  | PFloat f => Ok f
  end.

Local Open Scope result_scope.

(** [x * y]: exact on two ints, binary64 as soon as a float is involved. *)
Definition mul (x y : num) : result num :=
  match x, y with
  | PInt a, PInt b => Ok (PInt (a * b))
  | _, _ => a <- to_float x ;; b <- to_float y ;; Ok (PFloat (a * b))
  end.

Definition add (x y : num) : result num :=
  match x, y with
  | PInt a, PInt b => Ok (PInt (a + b))
  | _, _ => a <- to_float x ;; b <- to_float y ;; Ok (PFloat (a + b))
  end.

Local Close Scope result_scope.

(** [a / b] on two ints, [b > 0]: the quotient rounded once to the nearest
    binary64.  The quotient is cut after 64 bits or more and the rest is
    kept as one sticky bit, which rounds as the exact quotient does. *)
Definition true_div (a b : Z) : float :=
  let k := 64 + Z.log2 b in
  let n := Z.abs a * 2 ^ k in
  let m := 2 * (n / b) + (if n mod b =? 0 then 0 else 1) in
  SF2Prim (binary_normalize prec emax (if a <? 0 then - m else m) (- (k + 1)) false).

(** Truth value of a number: non-zero ([0.0] and [-0.0] are false, NaN is
    true). *)
Definition truthy (x : num) : bool :=
  match x with
  | PInt z => negb (z =? 0)
  | PFloat f => negb (PrimFloat.eqb f 0)
  end.

(** [max(a, b)] on two floats: Python keeps the first argument unless the
    second is strictly greater. *)
Definition max2 (a b : float) : float :=
  if PrimFloat.ltb a b then b else a.

(** [x or 0] on a nullable integer column.  An integer column holds 64
    bits: [float_of_Z] of it is finite. *)
Definition or_zero (x : option Z) : Z :=
  match x with
  | Some z => z
  | None => 0
  end.

(** [str(z)]. *)
Definition str_of_Z (z : Z) : string :=
  NilZero.string_of_int (Z.to_int z).

End PyNum.
Import PyNum.

(* ================================================================== *)
(** ** Strings *)
(* ================================================================== *)

Module PyStr.

Definition lower_ascii (c : ascii) : ascii :=
  let n := N_of_ascii c in
  if ((65 <=? n) && (n <=? 90))%N then ascii_of_N (n + 32) else c.

(** [s.lower()] on ASCII text. *)
Fixpoint lower (s : string) : string :=
  match s with
  | EmptyString => EmptyString
  | String c r => String (lower_ascii c) (lower r)
  end.

(** [s[:3]]. *)
Definition take3 (s : string) : string := substring 0 3 s.

(** [x in l] on a list of strings. *)
Definition mem (x : string) (l : list string) : bool :=
  existsb (String.eqb x) l.

(** [s.split(sep)[0]]: the text before the first [sep], all of [s] when
    there is none. *)
Fixpoint before (sep : ascii) (s : string) : string :=
  match s with
  | EmptyString => EmptyString
  | String c r => if Ascii.eqb c sep then EmptyString else String c (before sep r)
  end.

(** Equality of two optional strings, [None] standing for Python's
    [None]. *)
Definition opt_eqb (a b : option string) : bool :=
  match a, b with
  | Some x, Some y => String.eqb x y
  | None, None => true
  | _, _ => false
  end.

End PyStr.

(* ================================================================== *)
(** ** Dates and times *)
(* ================================================================== *)

Module PyTime.

Definition datetime := Z.
Definition time := Z.

Definition us_per_second : Z := 1000000.
Definition us_per_minute : Z := 60 * us_per_second.
Definition us_per_hour : Z := 60 * us_per_minute.
Definition us_per_day : Z := 24 * us_per_hour.

(** [datetime(...)] from a day count since 1970-01-01 and a wall clock. *)
Definition mk_datetime (day h m s : Z) : datetime :=
  day * us_per_day + h * us_per_hour + m * us_per_minute + s * us_per_second.

(** [time(h, m)]. *)
Definition mk_time (h m : Z) : time := h * us_per_hour + m * us_per_minute.

(** [dt.time()]. *)
Definition time_of (dt : datetime) : time := dt mod us_per_day.

(** [dt.weekday()], Monday is 0; 1970-01-01 was a Thursday. *)
Definition weekday (dt : datetime) : Z := (dt / us_per_day + 3) mod 7.

Definition day_names : list string :=
  ["Monday"; "Tuesday"; "Wednesday"; "Thursday"; "Friday"; "Saturday"; "Sunday"].

(** [dt.strftime('%A')] in the C locale. *)
Definition strftime_A (dt : datetime) : string :=
  nth (Z.to_nat (weekday dt)) day_names "".

(** [dt.strftime('%a')] in the C locale. *)
Definition strftime_a (dt : datetime) : string :=
  substring 0 3 (strftime_A dt).

Definition digit (n : Z) : ascii := ascii_of_N (48 + Z.to_N n).

Definition two_digits (n : Z) : string :=
  String (digit (n / 10)) (String (digit (n mod 10)) EmptyString).

(** [dt.strftime('%H:%M')]. *)
Definition strftime_HM (dt : datetime) : string :=
  (two_digits (time_of dt / us_per_hour) ++ ":" ++
   two_digits (time_of dt mod us_per_hour / us_per_minute))%string.

(** [(b - a).total_seconds()]: the microsecond count divided by 10**6 as
    int by int, rounded once. *)
Definition total_seconds (td : Z) : float :=
  true_div td us_per_second.

End PyTime.
Import PyTime.

(* ================================================================== *)
(** ** The tables of [models.py] *)
(* ================================================================== *)

Inductive CourtType : Type := indoor | outdoor.

(** [CourtType.value]. *)
Definition CourtType_value (t : CourtType) : string :=
  match t with
  | indoor => "indoor"
  | outdoor => "outdoor"
  end.

(** Columns the booking path reads or writes; the others keep their
    defaults. *)
Record User : Type := mkUser {
  u_id : Z;
  u_name : string;
  u_email : string
}.

Record Court : Type := mkCourt {
  c_id : Z;
  c_name : string;
  c_type : CourtType;
  c_enabled : bool;
  c_base_hourly : option Z
}.

Record EquipmentItem : Type := mkEquipmentItem {
  ei_id : Z;
  ei_sku : string;
  ei_total_quantity : Z;
  ei_active : bool
}.

Record Coach : Type := mkCoach {
  co_id : Z;
  co_name : string;
  co_hourly_rate : option Z;
  co_active : bool
}.

Record CoachAvailability : Type := mkCoachAvailability {
  ca_id : Z;
  ca_coach_id : Z;
  ca_day_of_week : string;
  ca_start_time : string;
  ca_end_time : string
}.

(** What [resource_id] holds when read back: an int, a text or NULL.  The
    handlers write a court or coach id (an int) or an equipment SKU (a
    text) into this integer column. *)
Inductive resource_ref : Type :=
| RInt (z : Z)
| RStr (s : string)
| RNull.

(** [alloc.resource_id == v]; an int never equals a string. *)
Definition resource_ref_eqb (a b : resource_ref) : bool :=
  match a, b with
  | RInt x, RInt y => x =? y
  | RStr x, RStr y => String.eqb x y
  | RNull, RNull => true
  | _, _ => false
  end.

(** How an f-string renders a [resource_id]. *)
Definition resource_ref_str (r : resource_ref) : string :=
  match r with
  | RInt z => str_of_Z z
  | RStr s => s
  | RNull => "None"
  end.

Record BookingAllocation : Type := mkBookingAllocation {
  a_id : Z;
  a_booking_id : Z;
  a_resource_type : string;
  a_resource_id : resource_ref;
  a_quantity : Z
}.

(** ** Rule documents ([PricingRule.rule_json]) *)

Record MatchClause : Type := mkMatch {
  (** ['days']; [[]] when absent, null or empty. *)
  mc_days : list string;
  (** ['start'] and ['end'], as the [datetime.time] that
      [time.fromisoformat] reads from the stored text. *)
  mc_start : option time;
  mc_end : option time
}.

Record Modifier : Type := mkModifier {
  (** ['type'], compared with two texts. *)
  m_type : option string;
  (** ['value'], read with [mod.get('value', 0)]. *)
  m_value : json_key num
}.

Record RuleJson : Type := mkRuleJson {
  (** [None]: no ['match'] key, a [null] or an empty one. *)
  rj_match : option MatchClause;
  rj_applies_to : option string;
  (** Read with [rule_json.get('modifier', {})]. *)
  rj_modifier : json_key Modifier;
  (** Read with [rule_json.get('stack_behavior', 'additive')]. *)
  rj_stack_behavior : json_key string
}.

Record PricingRule : Type := mkPricingRule {
  pr_id : Z;
  pr_name : string;
  pr_enabled : bool;
  pr_priority : Z;
  pr_rule_json : RuleJson
}.

(** ** Price results *)

Inductive modifier_text : Type :=
| Percent (v : num)   (* f"{val}%" *)
| Plain (v : num)     (* f"{val}"  *)
| PercentNone.        (* f"{val}%" when [val] is [None] *)

Record BreakdownEntry : Type := mkBreakdown {
  bd_name : string;
  bd_modifier : modifier_text;
  bd_after : float
}.

Record LineItem : Type := mkLineItem {
  li_name : string;
  li_amount : num
}.

Record PriceResult : Type := mkPriceResult {
  base : float;
  rule_breakdown : list BreakdownEntry;
  line_items : list LineItem;
  total : float
}.

Record Booking : Type := mkBooking {
  b_id : Z;
  b_user_id : Z;
  b_start_ts : datetime;
  b_end_ts : datetime;
  b_status : string;
  b_total_price : float;
  b_pricing_snapshot : PriceResult;
  b_created_at : datetime
}.

(** The slot fingerprint
    [f"{start.isoformat()}_{end.isoformat()}_{resource}"].  An ISO
    timestamp has no underscore, so the text determines its three parts;
    the two timestamps are kept as they are and the resource as the text
    the f-string prints. *)
Definition slot_hash_t : Type := (datetime * datetime * string)%type.

Definition slot_hash_eqb (x y : slot_hash_t) : bool :=
  let '(s1, e1, r1) := x in
  let '(s2, e2, r2) := y in
  (s1 =? s2) && (e1 =? e2) && String.eqb r1 r2.

Record WaitlistEntry : Type := mkWaitlistEntry {
  w_id : Z;
  w_slot_hash : slot_hash_t;
  w_user_id : Z;
  w_created_at : datetime
}.

Inductive audit_payload : Type :=
| PayloadUserEmail (email : string)          (* {'user_email': ...} *)
| PayloadNextWaitlistUser (user_id : Z).     (* {'next_waitlist_user_id': ...} *)

Record AuditEvent : Type := mkAuditEvent {
  ae_id : Z;
  ae_booking_id : Z;
  ae_event_type : string;
  ae_payload : audit_payload
}.

(** The persistent store: every table as the list of its rows, in the order
    a query without [order_by] returns them, and what the engine makes of a
    text written into [booking_allocations.resource_id]: the value read
    back, or [None] when it refuses the row. *)
Record DB : Type := mkDB {
  users : list User;
  courts : list Court;
  equipment_items : list EquipmentItem;
  coaches : list Coach;
  coach_availability : list CoachAvailability;
  bookings : list Booking;
  booking_allocations : list BookingAllocation;
  pricing_rules : list PricingRule;
  waitlist_entries : list WaitlistEntry;
  audit_events : list AuditEvent;
  resource_id_column : string -> option resource_ref
}.

Definition set_users (f : list User -> list User) (d : DB) : DB :=
  mkDB (f (users d)) (courts d) (equipment_items d) (coaches d)
       (coach_availability d) (bookings d) (booking_allocations d)
       (pricing_rules d) (waitlist_entries d) (audit_events d)
       (resource_id_column d).

Definition set_bookings (f : list Booking -> list Booking) (d : DB) : DB :=
  mkDB (users d) (courts d) (equipment_items d) (coaches d)
       (coach_availability d) (f (bookings d)) (booking_allocations d)
       (pricing_rules d) (waitlist_entries d) (audit_events d)
       (resource_id_column d).

Definition set_booking_allocations
  (f : list BookingAllocation -> list BookingAllocation) (d : DB) : DB :=
  mkDB (users d) (courts d) (equipment_items d) (coaches d)
       (coach_availability d) (bookings d) (f (booking_allocations d))
       (pricing_rules d) (waitlist_entries d) (audit_events d)
       (resource_id_column d).

Definition set_waitlist_entries
  (f : list WaitlistEntry -> list WaitlistEntry) (d : DB) : DB :=
  mkDB (users d) (courts d) (equipment_items d) (coaches d)
       (coach_availability d) (bookings d) (booking_allocations d)
       (pricing_rules d) (f (waitlist_entries d)) (audit_events d)
       (resource_id_column d).

Definition set_audit_events (f : list AuditEvent -> list AuditEvent) (d : DB) : DB :=
  mkDB (users d) (courts d) (equipment_items d) (coaches d)
       (coach_availability d) (bookings d) (booking_allocations d)
       (pricing_rules d) (waitlist_entries d) (f (audit_events d))
       (resource_id_column d).

(** The next value of an autoincrement primary key. *)
Definition next_id {A : Type} (key : A -> Z) (rows : list A) : Z :=
  1 + fold_right (fun r m => Z.max (key r) m) 0 rows.

(* ================================================================== *)
(** ** The session monad *)
(* ================================================================== *)

Record HTTPException : Type := mkHTTPException {
  status_code : Z;
  detail : string
}.

(** How a handler ends: it returns, raises an [HTTPException], or an
    exception nothing catches leaves it. *)
Inductive outcome (A : Type) : Type :=
| Returned (a : A)
| Raised (e : HTTPException)
| Uncaught (x : exn).
Arguments Returned {A} a.
Arguments Raised {A} e.
Arguments Uncaught {A} x.

(** A handler step: reads and writes the store, returns or raises. *)
Definition Session (A : Type) : Type := DB -> outcome A * DB.

Definition ret {A : Type} (a : A) : Session A := fun d => (Returned a, d).

Definition bind {A B : Type} (c : Session A) (k : A -> Session B) : Session B :=
  fun d =>
    match c d with
    | (Returned a, d') => k a d'
    | (Raised e, d') => (Raised e, d')
    | (Uncaught x, d') => (Uncaught x, d')
    end.

(** [raise HTTPException(...)]. *)
Definition raise {A : Type} (code : Z) (msg : string) : Session A :=
  fun d => (Raised (mkHTTPException code msg), d).

(** A computation on values, inside a handler. *)
Definition lift {A : Type} (r : result A) : Session A :=
  fun d =>
    match r with
    | Ok a => (Returned a, d)
    | Err x => (Uncaught x, d)
    end.

(** A read-only query. *)
Definition query {A : Type} (q : DB -> A) : Session A :=
  fun d => (Returned (q d), d).

(** [db.add(row); db.commit()]. *)
Definition commit (w : DB -> DB) : Session unit :=
  fun d => (Returned tt, w d).

Declare Scope session_scope.
Delimit Scope session_scope with session.
Notation "x <- c ;; k" := (bind c (fun x => k))
  (at level 61, c at next level, right associativity) : session_scope.
Notation "c ;;; k" := (bind c (fun _ => k))
  (at level 61, right associativity) : session_scope.

(** [for x in xs: body(x)], stopping at the first raise. *)
Fixpoint for_each {A : Type} (body : A -> Session unit) (xs : list A) : Session unit :=
  match xs with
  | [] => ret tt
  | x :: rest => bind (body x) (fun _ => for_each body rest)
  end.

(* ================================================================== *)
(** ** pricing.py *)
(* ================================================================== *)

(** The target of a rule: [{'type': ...}]. *)
Record Target : Type := mkTarget {
  tg_type : option string
}.

(** A request's equipment line: [{'sku', 'quantity', 'fee', 'meta'}]. *)
Record EquipmentLine : Type := mkEquipmentLine {
  (** [e.get('sku')]. *)
  el_sku : option string;
  (** Read with [e.get('quantity', 1)]. *)
  el_quantity : json_key Z;
  (** [e.get('fee')], then tested with [is None]. *)
  el_fee : option num;
  (** Read with [e.get('meta', {})], and its ['fee'] with
      [.get('fee', 0)]. *)
  el_meta : json_key (json_key num)
}.

(** Truth value of an optional string: present and not empty. *)
Definition truthy_str (s : option string) : bool :=
  match s with
  | Some EmptyString => false
  | Some _ => true
  | None => false
  end.

(** [rule_applies(rule_json, target, start_ts, end_ts)]. *)
Definition rule_applies (rule_json : RuleJson) (target : Target)
  (start_ts end_ts : datetime) : bool :=
  match rj_match rule_json with
  | None => true
  | Some m =>
      (* check days *)
      if match mc_days m with
         | [] => false
         | days =>
             let weekday := PyStr.lower (strftime_a start_ts) in
             let days_lower := map (fun d => PyStr.lower (PyStr.take3 d)) days in
             negb (PyStr.mem (PyStr.lower (PyStr.take3 weekday)) days_lower)
         end
      then false
      (* time window *)
      else if match mc_start m, mc_end m with
              | Some st, Some et =>
                  negb ((st <=? time_of start_ts) && (time_of start_ts <? et))
              | _, _ => false
              end
      then false
      (* court type *)
      else
        let applies_to := rj_applies_to rule_json in
        if truthy_str applies_to && truthy_str (tg_type target)
           && negb (PyStr.opt_eqb applies_to (Some "all"))
        then
          if negb (PyStr.opt_eqb applies_to (tg_type target)) then false else true
        else true
  end.

(** [(end_ts - start_ts).total_seconds() / 3600.0]. *)
Definition duration_hours (start_ts end_ts : datetime) : float :=
  (total_seconds (end_ts - start_ts) / 3600)%float.

Local Open Scope result_scope.

(** [mod = rule_json.get('modifier', {})] followed by [mod.get('type')]:
    the type ([None] when the key is missing or null), and the
    AttributeError of a [null] modifier. *)
Definition modifier_type (rj : RuleJson) : result (option string) :=
  match rj_modifier rj with
  | Missing => Ok None
  | Null => Err AttributeError
  | Val m => Ok (m_type m)
  end.

(** [mod.get('value', 0)]; [None] is Python's [None]. *)
Definition modifier_value (rj : RuleJson) : option num :=
  match rj_modifier rj with
  | Val m => get_default (m_value m) (PInt 0)
  | _ => Some (PInt 0)
  end.

(** [rule_json.get('stack_behavior', 'additive')]. *)
Definition stack_behavior (rj : RuleJson) : option string :=
  get_default (rj_stack_behavior rj) "additive".

(** [val/100.0]. *)
Definition percent (val : option num) : result float :=
  match val with
  | Some v => f <- to_float v ;; Ok (f / 100)%float
  | None => Err TypeError
  end.

(** [f"{val}%"]. *)
Definition percent_text (val : option num) : modifier_text :=
  match val with
  | Some v => Percent v
  | None => PercentNone
  end.

(** The total after a rule of type "percentage". *)
Definition percentage_total (total : float) (stack : option string) (val : option num)
  : result float :=
  if PyStr.opt_eqb stack (Some "additive") then
    p <- percent val ;;
    let delta := (total * p)%float in
    Ok (total + delta)%float
  else if PyStr.opt_eqb stack (Some "multiplicative") then
    p <- percent val ;;
    Ok (total * (1 + p))%float
  else if PyStr.opt_eqb stack (Some "max") then
    p <- percent val ;;
    Ok (max2 total (total * (1 + p))%float)
  else Ok total.

(** One turn of the loop over the applicable rules: the running total and
    the breakdown written so far. *)
Definition apply_rule (acc : float * list BreakdownEntry) (r : PricingRule)
  : result (float * list BreakdownEntry) :=
  let '(total, breakdown_rules) := acc in
  typ <- modifier_type (pr_rule_json r) ;;
  let val := modifier_value (pr_rule_json r) in
  let stack := stack_behavior (pr_rule_json r) in
  if PyStr.opt_eqb typ (Some "percentage") then
    total' <- percentage_total total stack val ;;
    Ok (total', breakdown_rules ++ [mkBreakdown (pr_name r) (percent_text val) total'])
  else if PyStr.opt_eqb typ (Some "absolute") then
    match val with
    | None => Err TypeError
    | Some x =>
        v <- to_float x ;;
        let total' := (total + v)%float in
        Ok (total', breakdown_rules ++ [mkBreakdown (pr_name r) (Plain x) total'])
    end
  else Ok (total, breakdown_rules).

Local Close Scope result_scope.

(** [applicable.sort(key=priority, reverse=True)]: descending, and stable
    (rules of equal priority keep their order). *)
Fixpoint insert_desc (x : PricingRule) (l : list PricingRule) : list PricingRule :=
  match l with
  | [] => [x]
  | y :: l' =>
      if pr_priority x <? pr_priority y then y :: insert_desc x l' else x :: l
  end.

Definition sort_desc (l : list PricingRule) : list PricingRule :=
  fold_right insert_desc [] l.

Local Open Scope result_scope.

(** [qty = e.get('quantity', 1)]; [None] is Python's [None]. *)
Definition line_quantity (e : EquipmentLine) : option Z :=
  get_default (el_quantity e) 1.

(** [fee = e.get('fee')], and when that is [None],
    [fee = e.get('meta', {}).get('fee', 0)]: AttributeError when ['meta']
    is null. *)
Definition line_fee (e : EquipmentLine) : result (option num) :=
  match el_fee e with
  | Some f => Ok (Some f)
  | None =>
      match el_meta e with
      | Missing => Ok (Some (PInt 0))
      | Null => Err AttributeError
      | Val meta => Ok (get_default meta (PInt 0))
      end
  end.

(** [amount = fee * qty]: TypeError when either is [None]. *)
Definition equipment_amount (e : EquipmentLine) : result num :=
  let qty := line_quantity e in
  fee <- line_fee e ;;
  match fee, qty with
  | Some f, Some q => mul f (PInt q)
  | _, _ => Err TypeError
  end.

(** The name of the line item, [f"Equipment {e.get('sku')}"]. *)
Definition equipment_item_name (e : EquipmentLine) : string :=
  ("Equipment " ++ match el_sku e with Some s => s | None => "None" end)%string.

(** One turn of the equipment loop: the line items and [eq_total]. *)
Definition add_equipment (acc : list LineItem * num) (e : EquipmentLine)
  : result (list LineItem * num) :=
  let '(items, eq_total) := acc in
  amount <- equipment_amount e ;;
  let items' :=
    if truthy amount then items ++ [mkLineItem (equipment_item_name e) amount]
    else items in
  eq_total' <- add eq_total amount ;;
  Ok (items', eq_total').

(** The body of [compute_price] once the enabled rules are read. *)
Definition price_with_rules (rules : list PricingRule) (court : Court)
  (start_ts end_ts : datetime) (equipment : list EquipmentLine)
  (coach : option Coach) : result PriceResult :=
  let hours := duration_hours start_ts end_ts in
  let base_v := (float_of_Z (or_zero (c_base_hourly court)) * hours)%float in
  let items0 :=
    [mkLineItem ("Court " ++ c_name court ++ " base")%string (PFloat base_v)] in
  let target := mkTarget (Some (CourtType_value (c_type court))) in
  let applicable :=
    sort_desc (filter (fun r => rule_applies (pr_rule_json r) target start_ts end_ts) rules) in
  after_rules <- fold_result apply_rule applicable (base_v, []) ;;
  let '(total1, breakdown_rules) := after_rules in
  after_equipment <- fold_result add_equipment equipment (items0, PInt 0) ;;
  let '(items1, eq_total) := after_equipment in
  eq_f <- to_float eq_total ;;
  let total2 := (total1 + eq_f)%float in
  match coach with
  | Some c =>
      let coach_total := (float_of_Z (or_zero (co_hourly_rate c)) * hours)%float in
      Ok (mkPriceResult base_v breakdown_rules
            (items1 ++ [mkLineItem ("Coach " ++ co_name c)%string (PFloat coach_total)])
            (total2 + coach_total)%float)
  | None => Ok (mkPriceResult base_v breakdown_rules items1 total2)
  end.

Local Close Scope result_scope.

(** [compute_price(db, court, start_ts, end_ts, equipment, coach)]: one
    query on the rule table, then arithmetic. *)
Definition compute_price (court : Court) (start_ts end_ts : datetime)
  (equipment : list EquipmentLine) (coach : option Coach) : Session PriceResult :=
  bind (query (fun d => filter pr_enabled (pricing_rules d)))
       (fun rules => lift (price_with_rules rules court start_ts end_ts equipment coach)).

(** ** The seeded catalogue ([seed.py]) *)

Definition all_days : list string := ["mon"; "tue"; "wed"; "thu"; "fri"; "sat"; "sun"].

Definition pct (v : Z) : json_key Modifier :=
  Val (mkModifier (Some "percentage") (Val (PInt v))).

Definition rule_peak : PricingRule :=
  mkPricingRule 1 "Peak 18-21" true 10
    (mkRuleJson (Some (mkMatch all_days (Some (mk_time 18 0)) (Some (mk_time 21 0))))
                None (pct 20) (Val "additive")).

Definition rule_weekend : PricingRule :=
  mkPricingRule 2 "Weekend +15" true 5
    (mkRuleJson (Some (mkMatch ["sat"; "sun"] None None))
                None (pct 15) (Val "additive")).

Definition rule_indoor : PricingRule :=
  mkPricingRule 3 "Indoor +25" true 8
    (mkRuleJson None (Some "indoor") (pct 25) (Val "additive")).

Definition court_1 : Court := mkCourt 1 "court_1" indoor true (Some 600).
Definition court_2 : Court := mkCourt 2 "court_2" indoor true (Some 600).
Definition court_3 : Court := mkCourt 3 "court_3" outdoor true (Some 400).
Definition court_4 : Court := mkCourt 4 "court_4" outdoor true (Some 400).

Definition seed_days : list string :=
  ["monday"; "tuesday"; "wednesday"; "thursday"; "friday"; "saturday"].

Definition seed_availability : list CoachAvailability :=
  flat_map (fun c =>
    map (fun p => mkCoachAvailability (6 * (c - 1) + fst p) c (snd p) "08:00" "20:00")
        (combine [1; 2; 3; 4; 5; 6] seed_days))
    [1; 2; 3].

(** The integer column of the example stores.  SQLite gives
    [resource_id] INTEGER affinity: a text that reads as an integer comes
    back as that integer, a text that is no numeric literal comes back as
    it is.  The column is only ever given SKUs of the catalogue (a line
    with any other SKU is refused before a row is written), and the
    catalogues of the examples hold "racket", "shoes" and "42". *)
Definition example_column (s : string) : option resource_ref :=
  if String.eqb s "42" then Some (RInt 42) else Some (RStr s).

Definition seed_db : DB :=
  mkDB [mkUser 1 "Admin User" "admin@courtbook.com";
        mkUser 2 "Demo User" "demo@courtbook.com"]
       [court_1; court_2; court_3; court_4]
       [mkEquipmentItem 1 "racket" 10 true; mkEquipmentItem 2 "shoes" 8 true]
       [mkCoach 1 "Coach A" (Some 300) true; mkCoach 2 "Coach B" (Some 250) true;
        mkCoach 3 "Coach C" (Some 200) true]
       seed_availability
       [] []
       [rule_peak; rule_weekend; rule_indoor]
       [] []
       example_column.

(** 2025-12-15 (a Monday) is day 20437 of the epoch. *)
Definition monday : Z := 20437.

(* ================================================================== *)
(** ** main.py: booking and cancellation *)
(* ================================================================== *)

Record BookingRequest : Type := mkBookingRequest {
  req_user_email : string;
  req_start_ts : datetime;
  req_end_ts : datetime;
  req_court_id : Z;
  req_equipment : list EquipmentLine;
  req_coach_id : option Z;
  req_idempotency_key : option string
}.

(** The JSON bodies the two handlers return. *)
Inductive Response : Type :=
| Confirmed (booking_id : Z) (total_price : float) (pricing : PriceResult)
| Waitlisted (waitlist_id : Z)
| Cancelled (next_waitlist_user_id : option Z).

(** [db.get(Model, id)]. *)
Definition get_court (id : Z) (d : DB) : option Court :=
  find (fun c => c_id c =? id) (courts d).

Definition get_coach (id : Z) (d : DB) : option Coach :=
  find (fun c => co_id c =? id) (coaches d).

Definition get_booking (id : Z) (d : DB) : option Booking :=
  find (fun b => b_id b =? id) (bookings d).

(** [booking.allocations]. *)
Definition allocations_of (b : Booking) (d : DB) : list BookingAllocation :=
  filter (fun a => a_booking_id a =? b_id b) (booking_allocations d).

(** Truth value of [req.coach_id]: present and not 0. *)
Definition truthy_id (x : option Z) : option Z :=
  match x with
  | Some z => if z =? 0 then None else Some z
  | None => None
  end.

(** The confirmed bookings whose interval overlaps [[start_ts, end_ts)]. *)
Definition overlapping_bookings (start_ts end_ts : datetime) (d : DB) : list Booking :=
  filter (fun b => (b_start_ts b <? end_ts) && (start_ts <? b_end_ts b)
                   && String.eqb (b_status b) "confirmed")
         (bookings d).

(** The allocations the loops [for b in overlapping: for alloc in
    b.allocations] visit, in order. *)
Definition overlapping_allocations (start_ts end_ts : datetime) (d : DB)
  : list BookingAllocation :=
  flat_map (fun b => allocations_of b d) (overlapping_bookings start_ts end_ts d).

Definition is_alloc (kind : string) (res : resource_ref) (a : BookingAllocation) : bool :=
  String.eqb (a_resource_type a) kind && resource_ref_eqb (a_resource_id a) res.

Definition sku_ref (sku : option string) : resource_ref :=
  match sku with
  | Some s => RStr s
  | None => RNull
  end.

(** [quantity=e.get('quantity', 1)] of the allocation written for a line:
    the quantity given, 1 when the key is missing.  A line whose quantity is
    null never gets to the confirm step ([compute_price] has raised on it),
    and the column's default is 1. *)
Definition requested_quantity (e : EquipmentLine) : Z :=
  match el_quantity e with
  | Val q => q
  | _ => 1
  end.

(** [booked_qty] of the equipment loop. *)
Definition booked_quantity (sku : option string) (allocs : list BookingAllocation) : Z :=
  fold_left (fun acc a => if is_alloc "equipment" (sku_ref sku) a then acc + a_quantity a else acc)
            allocs 0.

Definition find_equipment (sku : option string) (d : DB) : option EquipmentItem :=
  find (fun i => PyStr.opt_eqb (Some (ei_sku i)) sku) (equipment_items d).

Definition insufficient_detail (sku : option string) (requested available : Z) : string :=
  ("Insufficient " ++ resource_ref_str (sku_ref sku) ++ " availability. Requested: "
   ++ str_of_Z requested ++ ", Available: " ++ str_of_Z available)%string.

(** The body of the equipment validation loop.  [requested_qty] is [None]
    for a null quantity, and the comparison then raises TypeError. *)
Definition check_equipment (allocs : list BookingAllocation) (e : EquipmentLine)
  : Session unit :=
  let sku := el_sku e in
  let requested_qty := line_quantity e in
  bind (query (find_equipment sku)) (fun equipment_item =>
  match equipment_item with
  | None =>
      raise 400 ("Equipment " ++ resource_ref_str (sku_ref sku) ++ " not available")%string
  | Some item =>
      if negb (ei_active item) then
        raise 400 ("Equipment " ++ resource_ref_str (sku_ref sku) ++ " not available")%string
      else
        let booked_qty := booked_quantity sku allocs in
        let available_qty := ei_total_quantity item - booked_qty in
        match requested_qty with
        | None => lift (Err TypeError)
        | Some requested_qty =>
            if requested_qty >? available_qty then
              raise 400 (insufficient_detail sku requested_qty available_qty)
            else ret tt
        end
  end).

Definition find_availability (coach_id : Z) (day : string) (d : DB)
  : option CoachAvailability :=
  find (fun a => (ca_coach_id a =? coach_id) && String.eqb (ca_day_of_week a) day)
       (coach_availability d).

Definition window_detail (a : CoachAvailability) (day : string) : string :=
  ("Coach availability is " ++ ca_start_time a ++ "-" ++ ca_end_time a
   ++ " on " ++ day)%string.

(** The coach validation block. *)
Definition check_coach (allocs : list BookingAllocation) (req : BookingRequest)
  : Session unit :=
  match truthy_id (req_coach_id req) with
  | None => ret tt
  | Some coach_id =>
      bind (query (get_coach coach_id)) (fun coach =>
      if match coach with Some c => negb (co_active c) | None => true end then
        raise 400 "Coach not available"
      else if existsb (is_alloc "coach" (RInt coach_id)) allocs then
        raise 400 "Coach already booked for this time slot"
      else
        let booking_day := PyStr.lower (strftime_A (req_start_ts req)) in
        let booking_start_time := strftime_HM (req_start_ts req) in
        let booking_end_time := strftime_HM (req_end_ts req) in
        bind (query (find_availability coach_id booking_day)) (fun coach_availability =>
        match coach_availability with
        | None => raise 400 ("Coach not available on " ++ booking_day)%string
        | Some ca =>
            if String.ltb booking_start_time (ca_start_time ca)
               || String.ltb (ca_end_time ca) booking_end_time
            then raise 400 (window_detail ca booking_day)
            else ret tt
        end))
  end.

(** What a store with the given column holds in [resource_id] for
    [resource_id=e.get('sku')]: NULL for [None], and for a text what the
    column makes of it; [None] when the engine refuses the row. *)
Definition stored_sku (column : string -> option resource_ref) (sku : option string)
  : option resource_ref :=
  match sku with
  | Some s => column s
  | None => Some RNull
  end.

(** The equipment rows of the confirm step, one per line, with consecutive
    ids from [next] on. *)
Fixpoint equipment_rows (column : string -> option resource_ref) (booking_id next : Z)
  (equipment : list EquipmentLine) : option (list BookingAllocation) :=
  match equipment with
  | [] => Some []
  | e :: rest =>
      match stored_sku column (el_sku e),
            equipment_rows column booking_id (next + 1) rest with
      | Some r, Some rows =>
          Some (mkBookingAllocation next booking_id "equipment" r (requested_quantity e)
                :: rows)
      | _, _ => None
      end
  end.

(** The rows the confirm step writes after the booking itself, as they are
    read back; [None] when the engine refuses one of them. *)
Definition new_allocations (column : string -> option resource_ref)
  (first_id booking_id : Z) (req : BookingRequest) : option (list BookingAllocation) :=
  let court_alloc := mkBookingAllocation first_id booking_id "court" (RInt (req_court_id req)) 1 in
  let coach_alloc :=
    match truthy_id (req_coach_id req) with
    | Some cid =>
        [mkBookingAllocation (first_id + 1 + Z.of_nat (List.length (req_equipment req)))
                             booking_id "coach" (RInt cid) 1]
    | None => []
    end in
  match equipment_rows column booking_id (first_id + 1) (req_equipment req) with
  | Some eq_allocs => Some (court_alloc :: eq_allocs ++ coach_alloc)
  | None => None
  end.

(** [db.flush()] of rows the engine may refuse: DBAPIError then, and the
    session ends with nothing of the open transaction kept. *)
Definition flush {A : Type} (rows : DB -> option A) : Session A :=
  fun d =>
    match rows d with
    | Some a => (Returned a, d)
    | None => (Uncaught DBAPIError, d)
    end.

Local Open Scope session_scope.

(** [query(User).filter(User.email == email).first()]. *)
Definition find_user (email : string) (d : DB) : option User :=
  find (fun u => String.eqb (u_email u) email) (users d).

(** [User(name=email.split('@')[0], email=email)] with its fresh id. *)
Definition new_user (email : string) (d : DB) : User :=
  mkUser (next_id u_id (users d)) (PyStr.before "@" email) email.

(** The first lines of [create_booking]: the caller's [User] row, created
    and committed when the e-mail has none. *)
Definition ensure_user (email : string) : Session User :=
  found <- query (find_user email) ;;
  match found with
  | Some u => ret u
  | None =>
      u <- query (new_user email) ;;
      commit (set_users (fun l => l ++ [u])) ;;;
      ret u
  end.

(** [create_booking(req, db_s)].  [now] is what the server puts in
    [created_at] during this request. *)
Definition create_booking (now : datetime) (req : BookingRequest) : Session Response :=
  user <- ensure_user (req_user_email req) ;;
  court <- query (get_court (req_court_id req)) ;;
  match court with
  | None => raise 400 "court unavailable"
  | Some court =>
  if negb (c_enabled court) then raise 400 "court unavailable" else
  (* Get coach if specified *)
  coach <- query (fun d =>
             match truthy_id (req_coach_id req) with
             | Some cid => get_coach cid d
             | None => None
             end) ;;
  price <- compute_price court (req_start_ts req) (req_end_ts req)
                         (req_equipment req) coach ;;
  let slot_hash := (req_start_ts req, req_end_ts req, str_of_Z (req_court_id req)) in
  allocs <- query (overlapping_allocations (req_start_ts req) (req_end_ts req)) ;;
  if existsb (is_alloc "court" (RInt (req_court_id req))) allocs then
    w <- query (fun d =>
           mkWaitlistEntry (next_id w_id (waitlist_entries d)) slot_hash (u_id user) now) ;;
    commit (set_waitlist_entries (fun l => l ++ [w])) ;;;
    ret (Waitlisted (w_id w))
  else
  (* Equipment availability validation *)
  for_each (check_equipment allocs) (req_equipment req) ;;;
  (* Coach availability validation *)
  check_coach allocs req ;;;
  booking <- query (fun d =>
               mkBooking (next_id b_id (bookings d)) (u_id user)
                         (req_start_ts req) (req_end_ts req) "confirmed"
                         (total price) price now) ;;
  first_alloc <- query (fun d => next_id a_id (booking_allocations d)) ;;
  allocations <- flush (fun d => new_allocations (resource_id_column d) first_alloc
                                                 (b_id booking) req) ;;
  commit (fun d =>
    set_booking_allocations (fun l => l ++ allocations)
      (set_bookings (fun l => l ++ [booking]) d)) ;;;
  audit <- query (fun d =>
             mkAuditEvent (next_id ae_id (audit_events d)) (b_id booking) "confirmed"
                          (PayloadUserEmail (req_user_email req))) ;;
  commit (set_audit_events (fun l => l ++ [audit])) ;;;
  ret (Confirmed (b_id booking) (total price) price)
  end.

(** [query(...).order_by(created_at).first()]: the least [created_at]; among
    equal ones the row met first. *)
Fixpoint earliest (l : list WaitlistEntry) : option WaitlistEntry :=
  match l with
  | [] => None
  | w :: rest =>
      match earliest rest with
      | Some w' => if w_created_at w' <? w_created_at w then Some w' else Some w
      | None => Some w
      end
  end.

Definition set_status (id : Z) (status : string) (b : Booking) : Booking :=
  if b_id b =? id then
    mkBooking (b_id b) (b_user_id b) (b_start_ts b) (b_end_ts b) status
              (b_total_price b) (b_pricing_snapshot b) (b_created_at b)
  else b.

(** The fingerprint [cancel_booking] rebuilds from the stored booking. *)
Definition cancel_slot_hash (b : Booking) (d : DB) : slot_hash_t :=
  (b_start_ts b, b_end_ts b,
   match allocations_of b d with
   | a :: _ => resource_ref_str (a_resource_id a)
   | [] => "unknown"
   end).

(** [cancel_booking(booking_id, db_s)]. *)
Definition cancel_booking (booking_id : Z) : Session Response :=
  booking <- query (get_booking booking_id) ;;
  match booking with
  | None => raise 404 "booking not found"
  | Some booking =>
      commit (set_bookings (map (set_status (b_id booking) "cancelled"))) ;;;
      slot_hash <- query (cancel_slot_hash booking) ;;
      next_user <- query (fun d =>
                     earliest (filter (fun w => slot_hash_eqb (w_slot_hash w) slot_hash)
                                      (waitlist_entries d))) ;;
      match next_user with
      | Some w =>
          audit <- query (fun d =>
                     mkAuditEvent (next_id ae_id (audit_events d)) (b_id booking) "cancelled"
                                  (PayloadNextWaitlistUser (w_user_id w))) ;;
          commit (set_audit_events (fun l => l ++ [audit])) ;;;
          ret (Cancelled (Some (w_user_id w)))
      | None => ret (Cancelled None)
      end
  end.

Local Close Scope session_scope.

(** The running total after one rule, whatever the breakdown holds. *)
Definition rule_total (t : float) (r : PricingRule) : result float :=
  rbind (apply_rule (t, []) r) (fun acc => Ok (fst acc)).

(** [eq_total] for a list of equipment lines. *)
Definition equipment_total (equipment : list EquipmentLine) : result num :=
  fold_result (fun acc e => rbind (equipment_amount e) (add acc)) equipment (PInt 0).

(** The coach [create_booking] loads and the price it works out before it
    looks for conflicts. *)
Definition request_coach (req : BookingRequest) (d : DB) : option Coach :=
  match truthy_id (req_coach_id req) with
  | Some cid => get_coach cid d
  | None => None
  end.

Definition request_price (req : BookingRequest) (court : Court) (d : DB)
  : result PriceResult :=
  price_with_rules (filter pr_enabled (pricing_rules d)) court
    (req_start_ts req) (req_end_ts req) (req_equipment req) (request_coach req d).

(** A modifier value that arithmetic accepts: a float, or an int that
    converts to one. *)
Definition number_ok (val : option num) : bool :=
  match val with
  | Some (PInt z) => Z.abs z <? float_limit
  | Some (PFloat _) => true
  | None => false
  end.

(** The rule can be applied: its modifier is not null and, where its value
    enters the arithmetic, it is a number that [number_ok] accepts. *)
Definition rule_prices (r : PricingRule) : bool :=
  let val := modifier_value (pr_rule_json r) in
  let stack := stack_behavior (pr_rule_json r) in
  match modifier_type (pr_rule_json r) with
  | Err _ => false
  | Ok typ =>
      if PyStr.opt_eqb typ (Some "percentage") then
        if PyStr.opt_eqb stack (Some "additive")
           || PyStr.opt_eqb stack (Some "multiplicative")
           || PyStr.opt_eqb stack (Some "max")
        then number_ok val else true
      else if PyStr.opt_eqb typ (Some "absolute") then number_ok val
      else true
  end.

(** A line priced in whole numbers: a quantity that is not null and a fee
    that is an int, given on the line or in its ['meta'], or left out. *)
Definition plain_amount (e : EquipmentLine) : option Z :=
  match line_quantity e, line_fee e with
  | Some q, Ok (Some (PInt f)) => Some (f * q)
  | _, _ => None
  end.

(** The parts of a price: the court's base, the rules applied in their
    order, the first line item, the coach's fee. *)
Definition court_base (court : Court) (s e : datetime) : float :=
  (float_of_Z (or_zero (c_base_hourly court)) * duration_hours s e)%float.

Definition applied_rules (rules : list PricingRule) (court : Court) (s e : datetime)
  : list PricingRule :=
  sort_desc (filter (fun x => rule_applies (pr_rule_json x)
                                (mkTarget (Some (CourtType_value (c_type court)))) s e)
                    rules).

Definition base_items (court : Court) (s e : datetime) : list LineItem :=
  [mkLineItem ("Court " ++ c_name court ++ " base")%string (PFloat (court_base court s e))].

Definition coach_fee (c : Coach) (s e : datetime) : float :=
  (float_of_Z (or_zero (co_hourly_rate c)) * duration_hours s e)%float.

(** [eq_total] when every line is priced in whole numbers. *)
Definition plain_sum (equipment : list EquipmentLine) : Z :=
  fold_right (fun e acc => match plain_amount e with
                           | Some a => a + acc
                           | None => acc
                           end) 0 equipment.

(** [a] is evaluated no later than [b]. *)
Definition priority_ge (a b : PricingRule) : Prop := pr_priority a >= pr_priority b.

(* ================================================================== *)
(** ** Scenarios used by the examples below *)
(* ================================================================== *)

Definition at_ (day h m : Z) : datetime := mk_datetime day h m 0.

(** A rule whose only clause is the window 18:00-21:00. *)
Definition window_rule : RuleJson :=
  mkRuleJson (Some (mkMatch [] (Some (mk_time 18 0)) (Some (mk_time 21 0))))
             None (pct 20) (Val "additive").

(** Two rules of one priority that apply at every time: 20 per cent on
    top, and 100 on top. *)
Definition rule_fifth : PricingRule :=
  mkPricingRule 1 "Plus a fifth" true 5
    (mkRuleJson None None (pct 20) (Val "additive")).

Definition rule_hundred : PricingRule :=
  mkPricingRule 2 "Plus 100" true 5
    (mkRuleJson None None (Val (mkModifier (Some "absolute") (Val (PInt 100)))) Missing).

(** A store with the given rule rows, in the order it returns them. *)
Definition with_rules (rules : list PricingRule) (d : DB) : DB :=
  mkDB (users d) (courts d) (equipment_items d) (coaches d)
       (coach_availability d) (bookings d) (booking_allocations d)
       rules (waitlist_entries d) (audit_events d)
       (resource_id_column d).

Definition indoor_target : Target := mkTarget (Some (CourtType_value indoor)).
Definition outdoor_target : Target := mkTarget (Some (CourtType_value outdoor)).

(** A rule of a given modifier type, stacking and value. *)
Definition sample_rule (kind stack : string) (v : Z) : PricingRule :=
  mkPricingRule 9 "sample" true 1
    (mkRuleJson None None (Val (mkModifier (Some kind) (Val (PInt v)))) (Val stack)).

(** Some confirmed booking overlapping [[s, e)] holds an allocation of the
    given kind on the given resource; two intervals overlap when each
    starts before the other ends. *)
Definition resource_conflict (kind : string) (res : resource_ref)
  (s e : datetime) (d : DB) : Prop :=
  exists (b : Booking) (a : BookingAllocation),
    In b (bookings d) /\ b_status b = "confirmed" /\
    b_start_ts b < e /\ s < b_end_ts b /\
    In a (booking_allocations d) /\ a_booking_id a = b_id b /\
    a_resource_type a = kind /\ a_resource_id a = res.

Definition court_conflict (req : BookingRequest) (d : DB) : Prop :=
  resource_conflict "court" (RInt (req_court_id req))
                    (req_start_ts req) (req_end_ts req) d.

(** The quantity of equipment the given allocations hold on a stored
    resource id. *)
Definition quantity_on (res : resource_ref) (allocs : list BookingAllocation) : Z :=
  fold_left (fun acc a => if is_alloc "equipment" res a then acc + a_quantity a else acc)
            allocs 0.

(** The quantity of a SKU already allocated: what the given allocations
    hold on the resource id the store keeps for that SKU. *)
Definition allocated_quantity (d : DB) (sku : option string)
  (allocs : list BookingAllocation) : Z :=
  match stored_sku (resource_id_column d) sku with
  | Some res => quantity_on res allocs
  | None => 0
  end.

(** The SKU of the line is in the catalogue and active, and the requested
    quantity (not null) is within the item's total minus what is counted
    as booked. *)
Definition line_fits (d : DB) (allocs : list BookingAllocation) (e : EquipmentLine) : Prop :=
  exists (item : EquipmentItem) (q : Z),
    find_equipment (el_sku e) d = Some item /\ ei_active item = true /\
    line_quantity e = Some q /\
    q <= ei_total_quantity item - booked_quantity (el_sku e) allocs.

(** The request with other equipment lines and another coach. *)
Definition with_addons (req : BookingRequest) (equipment : list EquipmentLine)
  (coach_id : option Z) : BookingRequest :=
  mkBookingRequest (req_user_email req) (req_start_ts req) (req_end_ts req)
                   (req_court_id req) equipment coach_id (req_idempotency_key req).

Definition rackets (n : Z) : EquipmentLine :=
  mkEquipmentLine (Some "racket") (Val n) None Missing.

(** user3 books court 3 on Monday 16:00-17:00 with two rackets and coach 1. *)
Definition req_a : BookingRequest :=
  mkBookingRequest "user3@example.com" (at_ monday 16 0) (at_ monday 17 0) 3
                   [rackets 2] (Some 1) None.

Definition booked_db : DB := snd (create_booking (at_ monday 9 0) req_a seed_db).

(** user4 asks for the same slot. *)
Definition req_b : BookingRequest :=
  mkBookingRequest "user4@example.com" (at_ monday 16 0) (at_ monday 17 0) 3 [] None None.

Definition waitlisted_db : DB := snd (create_booking (at_ monday 9 5) req_b booked_db).

(** The same slot again, with more rackets than the catalogue holds and the
    coach the confirmed booking already has. *)
Definition req_c : BookingRequest :=
  mkBookingRequest "user5@example.com" (at_ monday 16 0) (at_ monday 17 0) 3
                   [rackets 99] (Some 1) None.

(** Court 4 over an interval that overlaps the confirmed booking, with nine
    rackets (eight are left) and coach 2. *)
Definition req_d : BookingRequest :=
  mkBookingRequest "user5@example.com" (at_ monday 16 30) (at_ monday 17 30) 4
                   [rackets 9] (Some 2) None.

(** Court 4 with coach 1 from Monday 17:00 to Tuesday 10:00. *)
Definition req_overnight : BookingRequest :=
  mkBookingRequest "user5@example.com" (at_ monday 17 0) (at_ (monday + 1) 10 0) 4
                   [] (Some 1) None.

(** Court 4 with an interval that ends before it starts. *)
Definition req_backwards : BookingRequest :=
  mkBookingRequest "demo@courtbook.com" (at_ monday 12 0) (at_ monday 11 0) 4 [] None None.

(** A court that is not in the catalogue. *)
Definition req_no_court : BookingRequest :=
  mkBookingRequest "user6@example.com" (at_ monday 12 0) (at_ monday 13 0) 77 [] None None.

(** [booked_db] after an administrator has disabled court 3. *)
Definition court_3_disabled_db : DB :=
  mkDB (users booked_db)
       [court_1; court_2; mkCourt 3 "court_3" outdoor false (Some 400); court_4]
       (equipment_items booked_db) (coaches booked_db) (coach_availability booked_db)
       (bookings booked_db) (booking_allocations booked_db) (pricing_rules booked_db)
       (waitlist_entries booked_db) (audit_events booked_db)
       (resource_id_column booked_db).

(** user6 books court 4 for the hour user3 holds court 3, and user7 books
    court 3 for the hour after. *)
Definition req_e : BookingRequest :=
  mkBookingRequest "user6@example.com" (at_ monday 16 0) (at_ monday 17 0) 4 [] None None.

Definition two_courts_db : DB := snd (create_booking (at_ monday 9 10) req_e booked_db).

Definition req_f : BookingRequest :=
  mkBookingRequest "user7@example.com" (at_ monday 17 0) (at_ monday 18 0) 3
                   [rackets 1] None None.

Definition three_bookings_db : DB :=
  snd (create_booking (at_ monday 9 20) req_f two_courts_db).

(** user5 asks for court 4 with a coach and no equipment. *)
Definition req_coach (start_ts end_ts : datetime) (coach_id : Z) : BookingRequest :=
  mkBookingRequest "user5@example.com" start_ts end_ts 4 [] (Some coach_id) None.

(* ================================================================== *)
(** ** main.py: the read handlers and the rule and court administration *)
(* ================================================================== *)

Definition set_courts (f : list Court -> list Court) (d : DB) : DB :=
  mkDB (users d) (f (courts d)) (equipment_items d) (coaches d)
       (coach_availability d) (bookings d) (booking_allocations d)
       (pricing_rules d) (waitlist_entries d) (audit_events d)
       (resource_id_column d).

Definition set_pricing_rules (f : list PricingRule -> list PricingRule) (d : DB) : DB :=
  mkDB (users d) (courts d) (equipment_items d) (coaches d)
       (coach_availability d) (bookings d) (booking_allocations d)
       (f (pricing_rules d)) (waitlist_entries d) (audit_events d)
       (resource_id_column d).

(** [{'court_id', 'name', 'type'}] *)
Record CourtView : Type := mkCourtView {
  cv_court_id : Z;
  cv_name : string;
  cv_type : string
}.

(** [{'sku', 'available_qty'}]; the item's display name is a column this
    model of the table does not carry. *)
Record EquipmentView : Type := mkEquipmentView {
  ev_sku : string;
  ev_available_qty : Z
}.

(** [{'id', 'name'}] *)
Record CoachView : Type := mkCoachView {
  chv_id : Z;
  chv_name : string
}.

Record Availability : Type := mkAvailability {
  available_courts : list CourtView;
  av_equipment : list EquipmentView;
  av_coaches : list CoachView
}.

(** The body of a rule as the administration endpoints receive it: a key
    is missing ([None]) or holds a value of the column's type.  A created
    rule carries its name; the other keys are optional.  A key given as
    [null] is no body of this model: what the session stores for it (NULL,
    or the column's default on an insert) is the ORM's doing and would need
    rule columns that can be NULL. *)
Record RuleCreate : Type := mkRuleCreate {
  rc_name : string;
  rc_enabled : option bool;
  rc_priority : option Z;
  rc_rule_json : option RuleJson
}.

Record RuleUpdate : Type := mkRuleUpdate {
  ru_name : option string;
  ru_enabled : option bool;
  ru_priority : option Z;
  ru_rule_json : option RuleJson
}.

(** [{'id', 'status': 'created'}], [{'id', 'status': 'updated'}],
    [{'status': 'deleted'}]. *)
Inductive AdminResponse : Type :=
| Created (id : Z)
| Updated (id : Z)
| Deleted.

Definition court_view (c : Court) : CourtView :=
  mkCourtView (c_id c) (c_name c) (CourtType_value (c_type c)).

(** [is_booked] of [get_availability]'s loop over the courts. *)
Definition is_booked (start_ts end_ts : datetime) (court : Court) (d : DB) : bool :=
  existsb (is_alloc "court" (RInt (c_id court)))
          (overlapping_allocations start_ts end_ts d).

(** [db.get(PricingRule, id)]. *)
Definition get_rule (id : Z) (d : DB) : option PricingRule :=
  find (fun r => pr_id r =? id) (pricing_rules d).

(** The assignments of [update_pricing_rule] on the row with that id. *)
Definition patch_rule (id : Z) (u : RuleUpdate) (r : PricingRule) : PricingRule :=
  if pr_id r =? id then
    mkPricingRule (pr_id r)
      (match ru_name u with Some n => n | None => pr_name r end)
      (match ru_enabled u with Some b => b | None => pr_enabled r end)
      (match ru_priority u with Some p => p | None => pr_priority r end)
      (match ru_rule_json u with Some j => j | None => pr_rule_json r end)
  else r.

(** [{'date', 'courts', 'slots', 'coaches'}] of [get_slots_for_date]. *)
Record SlotsView : Type := mkSlotsView {
  sv_date : Z;
  sv_courts : list CourtView;
  sv_slots : list (datetime * datetime);
  sv_coaches : list (Z * string * option Z)
}.

(** [{'id', 'name', 'type'}] *)
Definition court_view_id (c : Court) : CourtView :=
  mkCourtView (c_id c) (c_name c) (CourtType_value (c_type c)).

(** An entry of [list_bookings]. *)
Record BookingView : Type := mkBookingView {
  bv_id : Z;
  bv_user_email : option string;
  bv_start_ts : datetime;
  bv_end_ts : datetime;
  bv_status : string;
  bv_total_price : float;
  bv_allocations : list (string * resource_ref * Z);
  bv_created_at : datetime
}.

(** [{'bookings', 'total', 'skip', 'limit'}]; the early return for an
    unknown e-mail carries no paging. *)
Record BookingList : Type := mkBookingList {
  bl_bookings : list BookingView;
  bl_total : Z;
  bl_paging : option (N * N)
}.

(** [db.get(User, id)]. *)
Definition get_user (id : Z) (d : DB) : option User :=
  find (fun u => u_id u =? id) (users d).

Definition booking_view (d : DB) (b : Booking) : BookingView :=
  mkBookingView (b_id b)
    (match get_user (b_user_id b) d with Some u => Some (u_email u) | None => None end)
    (b_start_ts b) (b_end_ts b) (b_status b) (b_total_price b)
    (map (fun a => (a_resource_type a, a_resource_id a, a_quantity a)) (allocations_of b d))
    (b_created_at b).

(** [order_by(Booking.created_at.desc())]; rows created at the same time
    are kept in table order. *)
Fixpoint insert_created (x : Booking) (l : list Booking) : list Booking :=
  match l with
  | [] => [x]
  | y :: l' =>
      if b_created_at x <? b_created_at y then y :: insert_created x l' else x :: l
  end.

Definition sort_created_desc (l : list Booking) : list Booking :=
  fold_right insert_created [] l.

Module Handlers.

Local Open Scope session_scope.

(** [get_booking(booking_id, db_s)]: the stored row, field by field. *)
Definition get_booking (booking_id : Z) : Session Booking :=
  booking <- query (get_booking booking_id) ;;
  match booking with
  | None => raise 404 "booking not found"
  | Some b => ret b
  end.

(** [simulate_pricing(start_ts, end_ts, court_id, db_s)]. *)
Definition simulate_pricing (start_ts end_ts : datetime) (court_id : Z)
  : Session PriceResult :=
  court <- query (get_court court_id) ;;
  match court with
  | None => raise 404 "court not found"
  | Some c => compute_price c start_ts end_ts [] None
  end.

(** [get_availability(start_ts, end_ts, court_type, db_s)]. *)
Definition get_availability (start_ts end_ts : datetime) (court_type : option string)
  : Session Availability :=
  courts <- query (fun d =>
              let enabled := filter c_enabled (courts d) in
              if truthy_str court_type then
                filter (fun c => PyStr.opt_eqb (Some (CourtType_value (c_type c))) court_type)
                       enabled
              else enabled) ;;
  available <- query (fun d =>
                 map court_view
                     (filter (fun court => negb (is_booked start_ts end_ts court d)) courts)) ;;
  equipment <- query (fun d => filter ei_active (equipment_items d)) ;;
  coaches <- query (fun d => filter co_active (coaches d)) ;;
  ret (mkAvailability available
         (map (fun e => mkEquipmentView (ei_sku e) (ei_total_quantity e)) equipment)
         (map (fun c => mkCoachView (co_id c) (co_name c)) coaches)).

(** [list_pricing_rules(db_s)]: id, name, enabled, priority and rule_json of
    every rule. *)
Definition list_pricing_rules : Session (list PricingRule) :=
  query pricing_rules.

(** [create_pricing_rule(rule, db_s)]. *)
Definition create_pricing_rule (rule : RuleCreate) : Session AdminResponse :=
  pr <- query (fun d =>
          mkPricingRule (next_id pr_id (pricing_rules d)) (rc_name rule)
            (match rc_enabled rule with Some b => b | None => true end)
            (match rc_priority rule with Some p => p | None => 0 end)
            (match rc_rule_json rule with
             | Some j => j
             | None => mkRuleJson None None Missing Missing
             end)) ;;
  commit (set_pricing_rules (fun l => l ++ [pr])) ;;;
  ret (Created (pr_id pr)).

(** [update_pricing_rule(rule_id, rule, db_s)]. *)
Definition update_pricing_rule (rule_id : Z) (rule : RuleUpdate) : Session AdminResponse :=
  pr <- query (get_rule rule_id) ;;
  match pr with
  | None => raise 404 "rule not found"
  | Some pr =>
      commit (set_pricing_rules (map (patch_rule (pr_id pr) rule))) ;;;
      ret (Updated (pr_id pr))
  end.

(** [delete_pricing_rule(rule_id, db_s)]. *)
Definition delete_pricing_rule (rule_id : Z) : Session AdminResponse :=
  pr <- query (get_rule rule_id) ;;
  match pr with
  | None => raise 404 "rule not found"
  | Some pr =>
      commit (set_pricing_rules (filter (fun r => negb (pr_id r =? pr_id pr)))) ;;;
      ret Deleted
  end.

(** [delete_court(court_id, db_s)]. *)
Definition delete_court (court_id : Z) : Session AdminResponse :=
  c <- query (get_court court_id) ;;
  match c with
  | None => raise 404 "court not found"
  | Some c =>
      commit (set_courts (filter (fun x => negb (c_id x =? c_id c)))) ;;;
      ret Deleted
  end.

(** The [while current < end] loop of [get_slots_for_date], with a bound on
    its turns. *)
Fixpoint slots_loop (turns : nat) (current end_ : datetime) : list (datetime * datetime) :=
  match turns with
  | O => []
  | S n =>
      if current <? end_ then
        let next_slot := current + 30 * us_per_minute in
        (current, next_slot) :: slots_loop n next_slot end_
      else []
  end.

(** [get_slots_for_date(date_str, db_s)].  [date] is the day
    [datetime.fromisoformat(date_str).date()] reads, counted from the epoch,
    and [None] when it raises [ValueError].  The loop is given one turn per
    half hour between 08:00 and 21:00 and one to spare. *)
Definition get_slots_for_date (date : option Z) : Session SlotsView :=
  match date with
  | None => raise 400 "Invalid date format (use ISO)"
  | Some day =>
      courts <- query (fun d => filter c_enabled (courts d)) ;;
      coaches <- query (fun d => filter co_active (coaches d)) ;;
      let start := mk_datetime day 8 0 0 in
      let end_ := mk_datetime day 21 0 0 in
      let slots :=
        slots_loop (S (Z.to_nat ((end_ - start) / (30 * us_per_minute)))) start end_ in
      ret (mkSlotsView day (map court_view_id courts) slots
             (map (fun co => (co_id co, co_name co, co_hourly_rate co)) coaches))
  end.

(** [list_bookings(user_email, status, skip, limit, db_s)]. *)
Definition list_bookings (user_email status : option string) (skip limit : N)
  : Session BookingList :=
  found <- query (fun d =>
             if truthy_str user_email then
               match find (fun u => PyStr.opt_eqb (Some (u_email u)) user_email) (users d) with
               | Some u => Some (filter (fun b => b_user_id b =? u_id u) (bookings d))
               | None => None
               end
             else Some (bookings d)) ;;
  match found with
  | None => ret (mkBookingList [] 0 None)
  | Some q =>
      let q := if truthy_str status
               then filter (fun b => PyStr.opt_eqb (Some (b_status b)) status) q
               else q in
      let total := Z.of_nat (List.length q) in
      let page := firstn (N.to_nat limit) (skipn (N.to_nat skip) (sort_created_desc q)) in
      result <- query (fun d => map (booking_view d) page) ;;
      ret (mkBookingList result total (Some (skip, limit)))
  end.

End Handlers.

(** The filters of [list_bookings]: the owner, when an e-mail is given, and
    the status, when one is given. *)
Definition listed (user_email status : option string) (d : DB) (b : Booking) : bool :=
  (if truthy_str user_email then
     match find (fun u => PyStr.opt_eqb (Some (u_email u)) user_email) (users d) with
     | Some u => b_user_id b =? u_id u
     | None => false
     end
   else true)
  && (if truthy_str status then PyStr.opt_eqb (Some (b_status b)) status else true).

(** [a] was created no earlier than [b]. *)
Definition created_ge (a b : Booking) : Prop := b_created_at a >= b_created_at b.

(** The name and modifier a rule is listed under in the breakdown: one
    entry for a modifier of type "percentage" or "absolute", none
    otherwise. *)
Definition breakdown_key (r : PricingRule) : list (string * modifier_text) :=
  match modifier_type (pr_rule_json r), modifier_value (pr_rule_json r) with
  | Ok typ, val =>
      if PyStr.opt_eqb typ (Some "percentage") then [(pr_name r, percent_text val)]
      else if PyStr.opt_eqb typ (Some "absolute") then
        match val with
        | Some v => [(pr_name r, Plain v)]
        | None => []
        end
      else []
  | Err _, _ => []
  end.

(* ================================================================== *)
(** ** Properties of a store *)
(* ================================================================== *)

(** Every allocation belongs to a stored booking. *)
Definition allocations_owned (d : DB) : Prop :=
  forall a : BookingAllocation,
    In a (booking_allocations d) ->
    exists b : Booking, In b (bookings d) /\ b_id b = a_booking_id a.

(** [b] is a confirmed booking with a court allocation on [court_id]. *)
Definition holds_court (d : DB) (b : Booking) (court_id : Z) : Prop :=
  In b (bookings d) /\ b_status b = "confirmed" /\
  exists a : BookingAllocation,
    In a (booking_allocations d) /\ a_booking_id a = b_id b /\
    a_resource_type a = "court" /\ a_resource_id a = RInt court_id.

(** Two intervals overlap when each starts before the other ends. *)
Definition overlap (b1 b2 : Booking) : Prop :=
  b_start_ts b1 < b_end_ts b2 /\ b_start_ts b2 < b_end_ts b1.

(** No two confirmed bookings overlap on one court. *)
Definition courts_exclusive (d : DB) : Prop :=
  forall (b1 b2 : Booking) (court_id : Z),
    holds_court d b1 court_id -> holds_court d b2 court_id ->
    b_id b1 <> b_id b2 -> ~ overlap b1 b2.

(** One [User] row per e-mail. *)
Definition emails_unique (d : DB) : Prop := NoDup (map u_email (users d)).

(** The price of the request can be worked out on the store. *)
Definition priced (req : BookingRequest) (d : DB) : Prop :=
  forall court : Court,
    get_court (req_court_id req) d = Some court ->
    exists p : PriceResult, request_price req court d = Ok p.

(** The two store properties as tests, for stores that are given row by
    row. *)
Definition allocations_ownedb (d : DB) : bool :=
  forallb (fun a => existsb (fun b => b_id b =? a_booking_id a) (bookings d))
          (booking_allocations d).

Definition holds_courtb (d : DB) (b : Booking) (court_id : Z) : bool :=
  String.eqb (b_status b) "confirmed"
  && existsb (fun a => (a_booking_id a =? b_id b) && is_alloc "court" (RInt court_id) a)
             (booking_allocations d).

Definition overlapb (b1 b2 : Booking) : bool :=
  (b_start_ts b1 <? b_end_ts b2) && (b_start_ts b2 <? b_end_ts b1).

(** For every pair of different, overlapping bookings, no court allocation
    of the first is on a court the second holds. *)
Definition courts_exclusiveb (d : DB) : bool :=
  forallb (fun b1 =>
    forallb (fun b2 =>
      (b_id b1 =? b_id b2) || negb (overlapb b1 b2)
      || forallb (fun a =>
           negb ((a_booking_id a =? b_id b1)
                 && String.eqb (a_resource_type a) "court"
                 && match a_resource_id a with
                    | RInt c => holds_courtb d b2 c
                    | _ => false
                    end))
           (booking_allocations d))
      (bookings d))
    (bookings d).

(** What the store keeps for the SKUs of a list of lines, in order; [None]
    when the engine refuses one of them. *)
Definition stored_refs (column : string -> option resource_ref)
  (equipment : list EquipmentLine) : option (list resource_ref) :=
  fold_right (fun e acc =>
                match stored_sku column (el_sku e), acc with
                | Some r, Some rs => Some (r :: rs)
                | _, _ => None
                end)
             (Some []) equipment.

(** The line item an equipment line adds to a price: one when its amount is
    not zero, none otherwise. *)
Definition equipment_item (e : EquipmentLine) : list LineItem :=
  match equipment_amount e with
  | Ok amount => if truthy amount then [mkLineItem (equipment_item_name e) amount] else []
  | Err _ => []
  end.

(** The store keeps the SKU of the line as the text [k]: the row written
    for the line is one the equipment loop counts for SKU [k]. *)
Definition kept_as (column : string -> option resource_ref) (k : string)
  (e : EquipmentLine) : bool :=
  match stored_sku column (el_sku e) with
  | Some r => resource_ref_eqb r (RStr k)
  | None => false
  end.

(** The seeded store with one more catalogue item, five units under the
    SKU "42". *)
Definition numeric_db : DB :=
  mkDB (users seed_db) (courts seed_db)
       (equipment_items seed_db ++ [mkEquipmentItem 3 "42" 5 true])
       (coaches seed_db) (coach_availability seed_db)
       [] []
       (pricing_rules seed_db)
       [] []
       example_column.

(** user3 books court 1 and user4 court 2, both on Monday 10:00-11:00 and
    both with three units of "42". *)
Definition req_g : BookingRequest :=
  mkBookingRequest "user3@example.com" (at_ monday 10 0) (at_ monday 11 0) 1
                   [mkEquipmentLine (Some "42") (Val 3) None Missing] None None.

Definition req_h : BookingRequest :=
  mkBookingRequest "user4@example.com" (at_ monday 10 0) (at_ monday 11 0) 2
                   [mkEquipmentLine (Some "42") (Val 3) None Missing] None None.

(** user4 asks for the slot user3 holds, with a racket line whose quantity
    is [null]. *)
Definition req_null : BookingRequest :=
  mkBookingRequest "user4@example.com" (at_ monday 16 0) (at_ monday 17 0) 3
                   [mkEquipmentLine (Some "racket") Null None Missing] None None.

(* ================================================================== *)
(** ** The rule evaluator *)
(* ================================================================== *)

Lemma opt_eqb_eq (a b : option string) : PyStr.opt_eqb a b = true <-> a = b.
Proof.
  destruct a as [x|], b as [y|]; simpl; try (split; congruence).
  rewrite String.eqb_eq. split; congruence.
Qed.

(** A rule without a ['match'] applies to every target at every time. *)
Lemma rule_applies_no_match (rj : RuleJson) (tgt : Target) (s e : datetime) :
  rj_match rj = None -> rule_applies rj tgt s e = true.
Proof. intros H. unfold rule_applies. now rewrite H. Qed.

(** With a non-empty ['match'] the category filter is enforced. *)
Lemma rule_applies_category (rj : RuleJson) (m : MatchClause) (tgt : Target)
  (s e : datetime) :
  rj_match rj = Some m ->
  truthy_str (rj_applies_to rj) = true ->
  truthy_str (tg_type tgt) = true ->
  rj_applies_to rj <> Some "all" ->
  rule_applies rj tgt s e = true ->
  rj_applies_to rj = tg_type tgt.
Proof.
  intros Hm Ha Ht Hall. unfold rule_applies. rewrite Hm, Ha, Ht. simpl.
  destruct (PyStr.opt_eqb (rj_applies_to rj) (Some "all")) eqn:E.
  - apply opt_eqb_eq in E. contradiction.
  - simpl. destruct (PyStr.opt_eqb (rj_applies_to rj) (tg_type tgt)) eqn:E2.
    + intros _. now apply opt_eqb_eq.
    + simpl. repeat match goal with |- context [if ?c then _ else _] => destruct c end;
        discriminate.
Qed.

(** The end of the interval is never read. *)
Lemma rule_applies_end_irrelevant (rj : RuleJson) (tgt : Target) (s e e' : datetime) :
  rule_applies rj tgt s e = rule_applies rj tgt s e'.
Proof. reflexivity. Qed.

Section Window.

Variables (rj : RuleJson) (m : MatchClause) (st et : time).
Hypothesis Hmatch : rj_match rj = Some m.
Hypothesis Hstart : mc_start m = Some st.
Hypothesis Hend : mc_end m = Some et.

Lemma rule_applies_inside (tgt : Target) (s e : datetime) :
  rule_applies rj tgt s e = true -> st <= time_of s < et.
Proof.
  unfold rule_applies. rewrite Hmatch, Hstart, Hend.
  destruct (match mc_days m with [] => false | _ => _ end); [discriminate|].
  destruct ((st <=? time_of s) && (time_of s <? et)) eqn:E; simpl; [|discriminate].
  intros _. apply andb_true_iff in E. destruct E as [E1 E2].
  apply Z.leb_le in E1. apply Z.ltb_lt in E2. lia.
Qed.

Lemma rule_applies_outside (tgt : Target) (s e : datetime) :
  time_of s < st \/ et <= time_of s -> rule_applies rj tgt s e = false.
Proof.
  intros H. destruct (rule_applies rj tgt s e) eqn:E; [|reflexivity].
  apply rule_applies_inside in E. lia.
Qed.

Lemma rule_applies_window_only (tgt : Target) (s e : datetime) :
  mc_days m = [] -> rj_applies_to rj = None ->
  rule_applies rj tgt s e = (st <=? time_of s) && (time_of s <? et).
Proof.
  intros Hd Ha. unfold rule_applies. rewrite Hmatch, Hstart, Hend, Hd, Ha. simpl.
  now destruct ((st <=? time_of s) && (time_of s <? et)).
Qed.

End Window.

(** C8.  A rule with a time-of-day window [[st, et)] is tested on the start
    instant of the interval alone: the end is never read; a match forces
    the start's time of day into the half-open window, so an interval that
    starts before the window and ends inside it does not match, nor does
    one that starts exactly at [et]; and when the window is the rule's only
    clause the rule matches exactly when [st <= start < et], in particular
    at a start of exactly [st]. *)
Theorem rule_applies_window_start_only :
  forall (rj : RuleJson) (m : MatchClause) (st et : time),
    rj_match rj = Some m -> mc_start m = Some st -> mc_end m = Some et ->
    (forall tgt s e e', rule_applies rj tgt s e = rule_applies rj tgt s e') /\
    (forall tgt s e, rule_applies rj tgt s e = true -> st <= time_of s < et) /\
    (forall tgt s e, time_of s < st -> st <= time_of e < et ->
                     rule_applies rj tgt s e = false) /\
    (forall tgt s e, time_of s = et -> rule_applies rj tgt s e = false) /\
    (mc_days m = [] -> rj_applies_to rj = None ->
     forall tgt s e,
       rule_applies rj tgt s e = (st <=? time_of s) && (time_of s <? et)) /\
    (mc_days m = [] -> rj_applies_to rj = None -> st < et ->
     forall tgt s e, time_of s = st -> rule_applies rj tgt s e = true).
Proof.
  intros rj m st et Hm Hs He.
  split; [|split; [|split; [|split; [|split]]]].
  - intros. apply rule_applies_end_irrelevant.
  - intros tgt s e. eapply rule_applies_inside; eauto.
  - intros tgt s e Hlt _. eapply rule_applies_outside; eauto.
  - intros tgt s e Heq. eapply rule_applies_outside; eauto. right. lia.
  - intros Hd Ha tgt s e. eapply rule_applies_window_only; eauto.
  - intros Hd Ha Hlt tgt s e Heq.
    rewrite (rule_applies_window_only rj m st et Hm Hs He tgt s e Hd Ha), Heq.
    apply andb_true_iff. split; [apply Z.leb_le; lia | apply Z.ltb_lt; lia].
Qed.

(** The window rule on a Monday: 17:30-18:30 starts before the window and is
    not matched, 18:00 sharp is, 21:00 sharp is not. *)
Lemma rule_applies_window_start_only_witness :
  rule_applies window_rule indoor_target (at_ monday 17 30) (at_ monday 18 30) = false /\
  rule_applies window_rule indoor_target (at_ monday 18 0) (at_ monday 19 0) = true /\
  rule_applies window_rule indoor_target (at_ monday 21 0) (at_ monday 22 0) = false.
Proof.
  destruct (rule_applies_window_start_only window_rule
              (mkMatch [] (Some (mk_time 18 0)) (Some (mk_time 21 0)))
              (mk_time 18 0) (mk_time 21 0) eq_refl eq_refl eq_refl)
    as (_ & _ & Hbefore & Hat_end & _ & Hat_start).
  split; [|split].
  - apply Hbefore; vm_compute; [reflexivity | split; [discriminate | reflexivity]].
  - apply Hat_start; reflexivity.
  - apply Hat_end; reflexivity.
Defined.

(** C2.  The seeded rule "Indoor +25" restricts to category "indoor" and
    has an empty ['match']: [rule_applies] returns before it reads
    ['applies_to'], so the rule applies to an outdoor court at every time,
    and an outdoor court's price carries the indoor premium. *)
Theorem rule_applies_empty_match_skips_category :
  rj_applies_to (pr_rule_json rule_indoor) = Some "indoor" /\
  (forall s e, rule_applies (pr_rule_json rule_indoor) outdoor_target s e = true) /\
  fst (compute_price court_3 (at_ monday 10 0) (at_ monday 11 0) [] None seed_db)
  = Returned (mkPriceResult 400
                [mkBreakdown "Indoor +25" (Percent (PInt 25)) 500]
                [mkLineItem "Court court_3 base" (PFloat 400)]
                500).
Proof.
  split; [reflexivity|]. split.
  - intros s e. apply rule_applies_no_match. reflexivity.
  - vm_compute. reflexivity.
Qed.

(* ================================================================== *)
(** ** The price engine *)
(* ================================================================== *)

Lemma insert_desc_perm (x : PricingRule) (l : list PricingRule) :
  Permutation (insert_desc x l) (x :: l).
Proof.
  induction l as [|y l IH]; simpl; [reflexivity|].
  destruct (pr_priority x <? pr_priority y); [|reflexivity].
  rewrite IH. apply perm_swap.
Qed.

Lemma sort_desc_perm (l : list PricingRule) : Permutation (sort_desc l) l.
Proof.
  induction l as [|x l IH]; simpl; [reflexivity|].
  unfold sort_desc in *. simpl. rewrite insert_desc_perm. now constructor.
Qed.

Lemma insert_desc_hd (x y : PricingRule) (l : list PricingRule) :
  priority_ge y x -> HdRel priority_ge y l -> HdRel priority_ge y (insert_desc x l).
Proof.
  intros Hyx Hl. destruct l as [|z l]; simpl.
  - now constructor.
  - destruct (pr_priority x <? pr_priority z); constructor; trivial.
    now inversion Hl.
Qed.

Lemma insert_desc_sorted (x : PricingRule) (l : list PricingRule) :
  Sorted priority_ge l -> Sorted priority_ge (insert_desc x l).
Proof.
  induction 1 as [|y l Hs IH Hhd]; simpl.
  - repeat constructor.
  - destruct (pr_priority x <? pr_priority y) eqn:E.
    + apply Z.ltb_lt in E. constructor; [exact IH|].
      apply insert_desc_hd; [unfold priority_ge; lia | exact Hhd].
    + apply Z.ltb_ge in E. constructor.
      * now constructor.
      * constructor. unfold priority_ge. lia.
Qed.

Lemma sort_desc_sorted (l : list PricingRule) : StronglySorted priority_ge (sort_desc l).
Proof.
  apply Sorted_StronglySorted.
  - intros a b c. unfold priority_ge. lia.
  - induction l as [|x l IH]; [constructor|].
    unfold sort_desc in *. simpl. now apply insert_desc_sorted.
Qed.

Lemma filter_filter {A : Type} (f g : A -> bool) (l : list A) :
  filter f (filter g l) = filter (fun x => g x && f x) l.
Proof.
  induction l as [|x l IH]; simpl; [reflexivity|].
  destruct (g x); simpl; [destruct (f x)|]; now rewrite IH.
Qed.

(** A rule adds to the breakdown it is given and computes its total without
    it. *)
Lemma apply_rule_acc (t : float) (bd : list BreakdownEntry) (r : PricingRule) :
  apply_rule (t, bd) r
  = rbind (apply_rule (t, []) r) (fun acc => Ok (fst acc, bd ++ snd acc)).
Proof.
  unfold apply_rule.
  destruct (modifier_type (pr_rule_json r)) as [typ|x]; [|reflexivity]. cbn [rbind].
  destruct (PyStr.opt_eqb typ (Some "percentage")).
  - destruct (percentage_total _ _ _); reflexivity.
  - destruct (PyStr.opt_eqb typ (Some "absolute")).
    + destruct (modifier_value _) as [v|]; [|reflexivity].
      destruct (to_float v); reflexivity.
    + cbn. now rewrite app_nil_r.
Qed.

(** The running total does not depend on the breakdown written so far. *)
Lemma apply_rule_total (t : float) (bd : list BreakdownEntry) (r : PricingRule) :
  rbind (apply_rule (t, bd) r) (fun acc => Ok (fst acc)) = rule_total t r.
Proof.
  unfold rule_total. rewrite apply_rule_acc.
  destruct (apply_rule (t, []) r) as [[t' new]|x]; reflexivity.
Qed.

Lemma fold_apply_rule_total (l : list PricingRule) (t : float) (bd : list BreakdownEntry) :
  rbind (fold_result apply_rule l (t, bd)) (fun acc => Ok (fst acc))
  = fold_result rule_total l t.
Proof.
  revert t bd. induction l as [|r l IH]; intros t bd; [reflexivity|].
  cbn [fold_result]. rewrite <- (apply_rule_total t bd r).
  destruct (apply_rule (t, bd) r) as [[t' bd']|x]; [|reflexivity].
  cbn [rbind fst]. apply IH.
Qed.

Lemma add_equipment_total (items : list LineItem) (acc : num) (e : EquipmentLine) :
  rbind (add_equipment (items, acc) e) (fun r => Ok (snd r))
  = rbind (equipment_amount e) (add acc).
Proof.
  unfold add_equipment.
  destruct (equipment_amount e) as [amount|x]; [|reflexivity]. cbn [rbind].
  destruct (add acc amount); reflexivity.
Qed.

Lemma fold_add_equipment_total (l : list EquipmentLine) (items : list LineItem) (acc : num) :
  rbind (fold_result add_equipment l (items, acc)) (fun r => Ok (snd r))
  = fold_result (fun a e => rbind (equipment_amount e) (add a)) l acc.
Proof.
  revert items acc. induction l as [|e l IH]; intros items acc; [reflexivity|].
  cbn [fold_result]. rewrite <- (add_equipment_total items acc e).
  destruct (add_equipment (items, acc) e) as [[items' acc']|x]; [|reflexivity].
  cbn [rbind snd]. apply IH.
Qed.

(** [max(a, b)] keeps [a] or returns something strictly greater. *)
Lemma max2_never_lowers (a b : float) :
  max2 a b = a \/ PrimFloat.ltb a (max2 a b) = true.
Proof.
  unfold max2. destruct (PrimFloat.ltb a b) eqn:E; [right; exact E | left; reflexivity].
Qed.

(** The modifier kinds, one turn of the fold each, for a rule whose value
    is the number [v], [f] as a float. *)
Lemma rule_total_kinds (t : float) (r : PricingRule) (m : Modifier) (v : num) (f : float) :
  rj_modifier (pr_rule_json r) = Val m ->
  get_default (m_value m) (PInt 0) = Some v -> to_float v = Ok f ->
  let stack := stack_behavior (pr_rule_json r) in
  (m_type m = Some "percentage" ->
     (stack = Some "additive" -> rule_total t r = Ok (t + t * (f / 100))%float) /\
     (stack = Some "multiplicative" -> rule_total t r = Ok (t * (1 + f / 100))%float) /\
     (stack = Some "max" -> rule_total t r = Ok (max2 t (t * (1 + f / 100))%float)) /\
     (stack <> Some "additive" -> stack <> Some "multiplicative" -> stack <> Some "max" ->
      rule_total t r = Ok t)) /\
  (m_type m = Some "absolute" -> rule_total t r = Ok (t + f)%float).
Proof.
  intros Hm Hv Hf stack.
  unfold rule_total, apply_rule, modifier_type, modifier_value, percentage_total, percent.
  fold stack. rewrite Hm, Hv. cbn [rbind].
  split.
  - intros ->. cbn [PyStr.opt_eqb String.eqb Ascii.eqb Bool.eqb].
    split; [|split; [|split]].
    + intros ->. cbn. rewrite Hf. reflexivity.
    + intros ->. cbn. rewrite Hf. reflexivity.
    + intros ->. cbn. rewrite Hf. reflexivity.
    + intros H1 H2 H3.
      destruct (PyStr.opt_eqb stack (Some "additive")) eqn:E1;
        [apply opt_eqb_eq in E1; contradiction|].
      destruct (PyStr.opt_eqb stack (Some "multiplicative")) eqn:E2;
        [apply opt_eqb_eq in E2; contradiction|].
      destruct (PyStr.opt_eqb stack (Some "max")) eqn:E3;
        [apply opt_eqb_eq in E3; contradiction|].
      reflexivity.
  - intros ->. cbn. rewrite Hf. reflexivity.
Qed.

(** What a [null] in a rule does: a null stacking leaves the total of a
    percentage rule as it is, a null value raises TypeError where the value
    enters the arithmetic, a null modifier raises AttributeError. *)
Lemma rule_total_null (t : float) (r : PricingRule) :
  (forall m, rj_modifier (pr_rule_json r) = Val m -> m_type m = Some "percentage" ->
             rj_stack_behavior (pr_rule_json r) = Null -> rule_total t r = Ok t) /\
  (forall m, rj_modifier (pr_rule_json r) = Val m -> m_value m = Null ->
             (m_type m = Some "percentage" ->
              rj_stack_behavior (pr_rule_json r) = Missing ->
              rule_total t r = Err TypeError) /\
             (m_type m = Some "absolute" -> rule_total t r = Err TypeError)) /\
  (rj_modifier (pr_rule_json r) = Null -> rule_total t r = Err AttributeError).
Proof.
  unfold rule_total, apply_rule, modifier_type, modifier_value, stack_behavior,
    percentage_total, percent.
  split; [|split].
  - intros m -> -> ->. reflexivity.
  - intros m -> ->. split; [intros -> ->|intros ->]; reflexivity.
  - intros ->. reflexivity.
Qed.

(** On a total of 600: 20 per cent with a null stacking, an absolute rule
    with a null value, a null modifier. *)
Example rule_total_null_600 :
  rule_total 600
    (mkPricingRule 9 "null stacking" true 1
       (mkRuleJson None None (pct 20) Null)) = Ok 600%float /\
  rule_total 600
    (mkPricingRule 9 "null value" true 1
       (mkRuleJson None None (Val (mkModifier (Some "absolute") Null)) Missing))
  = Err TypeError /\
  rule_total 600
    (mkPricingRule 9 "null modifier" true 1 (mkRuleJson None None Null Missing))
  = Err AttributeError.
Proof.
  split; [|split].
  - destruct (rule_total_null 600
                (mkPricingRule 9 "null stacking" true 1
                   (mkRuleJson None None (pct 20) Null))) as (H & _).
    exact (H _ eq_refl eq_refl eq_refl).
  - destruct (rule_total_null 600
                (mkPricingRule 9 "null value" true 1
                   (mkRuleJson None None (Val (mkModifier (Some "absolute") Null))
                               Missing))) as (_ & H & _).
    destruct (H _ eq_refl eq_refl) as [_ Ha]. exact (Ha eq_refl).
  - destruct (rule_total_null 600
                (mkPricingRule 9 "null modifier" true 1
                   (mkRuleJson None None Null Missing))) as (_ & _ & H).
    exact (H eq_refl).
Qed.

(** What [compute_price] does on every store: it reads the enabled rules
    and changes nothing. *)
Lemma compute_price_run (court : Court) (s e : datetime)
  (equipment : list EquipmentLine) (coach : option Coach) (d : DB) :
  compute_price court s e equipment coach d
  = (match price_with_rules (filter pr_enabled (pricing_rules d))
             court s e equipment coach with
     | Ok r => Returned r
     | Err x => Uncaught x
     end, d).
Proof.
  unfold compute_price, bind, query, lift.
  destruct (price_with_rules _ _ _ _ _ _); reflexivity.
Qed.

(** The three steps of [price_with_rules], each of which can raise. *)
Lemma price_with_rules_steps (rules : list PricingRule) (court : Court) (s e : datetime)
  (equipment : list EquipmentLine) (coach : option Coach) :
  price_with_rules rules court s e equipment coach
  = match fold_result apply_rule (applied_rules rules court s e)
                      (court_base court s e, []) with
    | Err x => Err x
    | Ok (t1, bd) =>
        match fold_result add_equipment equipment (base_items court s e, PInt 0) with
        | Err x => Err x
        | Ok (items1, n) =>
            match to_float n with
            | Err x => Err x
            | Ok f =>
                Ok (match coach with
                    | Some c =>
                        mkPriceResult (court_base court s e) bd
                          (items1 ++ [mkLineItem ("Coach " ++ co_name c)%string
                                                 (PFloat (coach_fee c s e))])
                          (t1 + f + coach_fee c s e)%float
                    | None => mkPriceResult (court_base court s e) bd items1 (t1 + f)%float
                    end)
            end
        end
    end.
Proof.
  unfold price_with_rules.
  fold (court_base court s e). fold (base_items court s e).
  fold (applied_rules rules court s e).
  destruct (fold_result apply_rule _ _) as [[t1 bd]|x]; [|reflexivity].
  cbn [rbind].
  destruct (fold_result add_equipment equipment _) as [[items1 n]|x]; [|reflexivity].
  cbn [rbind]. destruct (to_float n) as [f|x]; [|reflexivity]. cbn [rbind].
  destruct coach; reflexivity.
Qed.

(** The base and the total of a result. *)
Lemma price_with_rules_total (rules : list PricingRule) (court : Court) (s e : datetime)
  (equipment : list EquipmentLine) (coach : option Coach) (r : PriceResult) :
  price_with_rules rules court s e equipment coach = Ok r ->
  base r = court_base court s e /\
  exists (t1 : float) (n : num) (f : float),
    fold_result rule_total (applied_rules rules court s e) (court_base court s e) = Ok t1 /\
    equipment_total equipment = Ok n /\ to_float n = Ok f /\
    total r = match coach with
              | Some c => (t1 + f + coach_fee c s e)%float
              | None => (t1 + f)%float
              end.
Proof.
  rewrite price_with_rules_steps.
  pose proof (fold_apply_rule_total (applied_rules rules court s e)
                (court_base court s e) []) as Hr.
  pose proof (fold_add_equipment_total equipment (base_items court s e) (PInt 0)) as He.
  destruct (fold_result apply_rule _ _) as [[t1 bd]|x]; [|discriminate].
  destruct (fold_result add_equipment equipment _) as [[items1 n]|x]; [|discriminate].
  destruct (to_float n) as [f|x] eqn:Ef; [|discriminate].
  cbn [rbind fst snd] in Hr, He.
  intros [= <-]. split; [destruct coach; reflexivity|].
  exists t1, n, f. unfold equipment_total. rewrite <- Hr, <- He.
  repeat split; trivial. destruct coach; reflexivity.
Qed.

(** It returns when the rule fold, the equipment loop and the conversion of
    the equipment total do. *)
Lemma price_with_rules_returns (rules : list PricingRule) (court : Court) (s e : datetime)
  (equipment : list EquipmentLine) (coach : option Coach)
  (t1 : float) (n : num) (f : float) :
  fold_result rule_total (applied_rules rules court s e) (court_base court s e) = Ok t1 ->
  equipment_total equipment = Ok n -> to_float n = Ok f ->
  exists r : PriceResult, price_with_rules rules court s e equipment coach = Ok r.
Proof.
  intros Hr He Hf. rewrite price_with_rules_steps.
  rewrite <- (fold_apply_rule_total _ _ []) in Hr.
  unfold equipment_total in He.
  rewrite <- (fold_add_equipment_total equipment (base_items court s e) (PInt 0)) in He.
  destruct (fold_result apply_rule _ _) as [[t1' bd]|x]; [|discriminate Hr].
  destruct (fold_result add_equipment equipment _) as [[items1 n']|x];
    [|discriminate He].
  cbn [rbind snd] in He. injection He as ->. rewrite Hf. eexists. reflexivity.
Qed.


(** A whole number of minutes, up to a day either way, lasts that number of
    minutes divided by 60, rounded once: [duration_hours] is checked on
    each of them. *)
Lemma duration_hours_minutes (s : datetime) (m : Z) :
  -1440 <= m <= 1440 ->
  duration_hours s (s + m * us_per_minute) = (float_of_Z m / 60)%float.
Proof.
  intros Hm. unfold duration_hours.
  replace (s + m * us_per_minute - s) with (m * us_per_minute) by lia.
  assert (Hall : forallb (fun k : nat =>
              let x := Z.of_nat k - 1440 in
              PrimFloat.Leibniz.eqb (total_seconds (x * us_per_minute) / 3600)%float
                                    (float_of_Z x / 60)%float)
            (seq 0 (Z.to_nat 2881)) = true) by (vm_compute; reflexivity).
  rewrite forallb_forall in Hall.
  specialize (Hall (Z.to_nat (m + 1440))).
  cbv zeta in Hall. rewrite Z2Nat.id in Hall by lia.
  replace (m + 1440 - 1440) with m in Hall by lia.
  apply FloatAxioms.Leibniz.eqb_spec, Hall, in_seq. lia.
Qed.

Lemma number_ok_to_float (val : option num) :
  number_ok val = true -> exists (v : num) (f : float), val = Some v /\ to_float v = Ok f.
Proof.
  destruct val as [[z|f]|]; unfold number_ok; [| |discriminate].
  - intros H. exists (PInt z). unfold to_float, float_of_int. rewrite H.
    eexists. split; reflexivity.
  - intros _. exists (PFloat f), f. split; reflexivity.
Qed.

(** A rule that [rule_prices] accepts returns on every total. *)
Lemma rule_prices_returns (r : PricingRule) (t : float) :
  rule_prices r = true -> exists t' : float, rule_total t r = Ok t'.
Proof.
  unfold rule_prices, rule_total, apply_rule, percentage_total, percent.
  destruct (modifier_type (pr_rule_json r)) as [typ|x]; [|discriminate]. cbn [rbind].
  destruct (PyStr.opt_eqb typ (Some "percentage")).
  - destruct (PyStr.opt_eqb _ (Some "additive")); cbn [orb].
    { intros H. apply number_ok_to_float in H. destruct H as (v & f & -> & ->).
      eexists. reflexivity. }
    destruct (PyStr.opt_eqb _ (Some "multiplicative")); cbn [orb].
    { intros H. apply number_ok_to_float in H. destruct H as (v & f & -> & ->).
      eexists. reflexivity. }
    destruct (PyStr.opt_eqb _ (Some "max")); cbn [orb].
    { intros H. apply number_ok_to_float in H. destruct H as (v & f & -> & ->).
      eexists. reflexivity. }
    intros _. eexists. reflexivity.
  - destruct (PyStr.opt_eqb typ (Some "absolute")).
    + intros H. apply number_ok_to_float in H. destruct H as (v & f & -> & ->).
      eexists. reflexivity.
    + intros _. eexists. reflexivity.
Qed.

Lemma fold_rule_prices_returns (l : list PricingRule) (t : float) :
  Forall (fun r => rule_prices r = true) l ->
  exists t' : float, fold_result rule_total l t = Ok t'.
Proof.
  intros H. revert t. induction H as [|r l Hr _ IH]; intros t.
  - eexists. reflexivity.
  - cbn [fold_result]. destruct (rule_prices_returns r t Hr) as (t' & ->).
    cbn [rbind]. apply IH.
Qed.

(** Lines priced in whole numbers add up exactly. *)
Lemma equipment_amount_plain (e : EquipmentLine) (a : Z) :
  plain_amount e = Some a -> equipment_amount e = Ok (PInt a).
Proof.
  unfold plain_amount, equipment_amount.
  destruct (line_quantity e) as [q|]; [|discriminate].
  destruct (line_fee e) as [[[f|f]|]|x]; try discriminate.
  intros [= <-]. reflexivity.
Qed.

Lemma equipment_total_plain (equipment : list EquipmentLine) :
  Forall (fun e => plain_amount e <> None) equipment ->
  equipment_total equipment = Ok (PInt (plain_sum equipment)).
Proof.
  intros H. unfold equipment_total.
  assert (G : forall acc,
             fold_result (fun a e => rbind (equipment_amount e) (add a)) equipment (PInt acc)
             = Ok (PInt (acc + plain_sum equipment))).
  { induction H as [|e l He _ IH]; intros acc; cbn [fold_result plain_sum fold_right].
    - now rewrite Z.add_0_r.
    - destruct (plain_amount e) as [a|] eqn:Ea; [|contradiction].
      rewrite (equipment_amount_plain e a Ea). cbn [rbind add].
      rewrite IH. fold (plain_sum l). f_equal. f_equal. lia. }
  exact (G 0).
Qed.

(** C3.  [compute_price] changes nothing; it seeds the total with
    [base = base_hourly * duration_hours], folds the enabled applicable
    rules, sorted by descending priority, left to right into it, and adds
    the equipment and coach fees; it returns when every one of these rules
    can be applied and the equipment lines are priced in whole numbers.
    One turn of the fold adds [total * (value / 100)] (percentage,
    additive), multiplies by [1 + value / 100] (percentage,
    multiplicative), takes [max(total, total * (1 + value / 100))], which
    never lowers the total (percentage, max), or adds the value (absolute).
    The duration of a whole number of minutes is that number over 60.  Base
    600 with the one additive +20% rule gives 720, with the one additive
    +25% rule 750, and the two together compound on the running total:
    720, then 900 (the +25% of 720), not the 870 two independent surcharges
    on 600 give; 90 minutes at 600 an hour are a base of 900.  The
    microseconds of an interval are divided exactly and rounded once: the
    2^53 + 1 microseconds from 1970-01-01 to 2255-06-05 23:47:34.740993
    are 0x1.316b7e5807ca6p+21 hours. *)
Theorem compute_price_fold :
  (forall (d : DB) (court : Court) (s e : datetime)
          (equipment : list EquipmentLine) (coach : option Coach),
     snd (compute_price court s e equipment coach d) = d /\
     exists sorted : list PricingRule,
       Permutation sorted
         (filter (fun x => pr_enabled x
                           && rule_applies (pr_rule_json x)
                                (mkTarget (Some (CourtType_value (c_type court)))) s e)
                 (pricing_rules d)) /\
       StronglySorted priority_ge sorted /\
       (forall r : PriceResult,
          fst (compute_price court s e equipment coach d) = Returned r ->
          base r = (float_of_Z (or_zero (c_base_hourly court)) * duration_hours s e)%float /\
          exists (t1 : float) (n : num) (f : float),
            fold_result rule_total sorted (base r) = Ok t1 /\
            equipment_total equipment = Ok n /\ to_float n = Ok f /\
            total r =
              match coach with
              | Some c =>
                  (t1 + f + float_of_Z (or_zero (co_hourly_rate c)) * duration_hours s e)%float
              | None => (t1 + f)%float
              end) /\
       (Forall (fun x => rule_prices x = true) sorted ->
        Forall (fun l => plain_amount l <> None) equipment ->
        Z.abs (plain_sum equipment) < float_limit ->
        exists r : PriceResult,
          fst (compute_price court s e equipment coach d) = Returned r)) /\
  (forall (t : float) (r : PricingRule) (m : Modifier) (v : num) (f : float),
     rj_modifier (pr_rule_json r) = Val m ->
     get_default (m_value m) (PInt 0) = Some v -> to_float v = Ok f ->
     let stack := stack_behavior (pr_rule_json r) in
     (m_type m = Some "percentage" ->
        (stack = Some "additive" -> rule_total t r = Ok (t + t * (f / 100))%float) /\
        (stack = Some "multiplicative" -> rule_total t r = Ok (t * (1 + f / 100))%float) /\
        (stack = Some "max" ->
           rule_total t r = Ok (max2 t (t * (1 + f / 100))%float) /\
           (max2 t (t * (1 + f / 100))%float = t \/
            PrimFloat.ltb t (max2 t (t * (1 + f / 100))%float) = true))) /\
     (m_type m = Some "absolute" -> rule_total t r = Ok (t + f)%float)) /\
  (forall (s : datetime) (m : Z),
     -1440 <= m <= 1440 ->
     duration_hours s (s + m * us_per_minute) = (float_of_Z m / 60)%float) /\
  price_with_rules [rule_peak] court_1 (at_ monday 19 0) (at_ monday 20 0) [] None
  = Ok (mkPriceResult 600 [mkBreakdown "Peak 18-21" (Percent (PInt 20)) 720]
          [mkLineItem "Court court_1 base" (PFloat 600)] 720) /\
  price_with_rules [rule_indoor] court_1 (at_ monday 19 0) (at_ monday 20 0) [] None
  = Ok (mkPriceResult 600 [mkBreakdown "Indoor +25" (Percent (PInt 25)) 750]
          [mkLineItem "Court court_1 base" (PFloat 600)] 750) /\
  price_with_rules [rule_indoor; rule_peak] court_1
                   (at_ monday 19 0) (at_ monday 20 0) [] None
  = Ok (mkPriceResult 600
          [mkBreakdown "Peak 18-21" (Percent (PInt 20)) 720;
           mkBreakdown "Indoor +25" (Percent (PInt 25)) 900]
          [mkLineItem "Court court_1 base" (PFloat 600)] 900) /\
  (600 + 600 * (20 / 100) + 600 * (25 / 100))%float = 870%float /\
  price_with_rules [rule_peak] court_1 (at_ monday 19 0) (at_ monday 20 30) [] None
  = Ok (mkPriceResult 900 [mkBreakdown "Peak 18-21" (Percent (PInt 20)) 1080]
          [mkLineItem "Court court_1 base" (PFloat 900)] 1080) /\
  price_with_rules [] court_3 (at_ monday 10 0) (at_ monday 10 30) [] None
  = Ok (mkPriceResult 200 [] [mkLineItem "Court court_3 base" (PFloat 200)] 200) /\
  duration_hours (mk_datetime 0 0 0 0) (mk_datetime 104249 23 47 34 + 740993)
  = 0x1.316b7e5807ca6p+21%float.
Proof.
  split; [|split; [|split; [|repeat split; vm_compute; reflexivity]]].
  - intros d court s e equipment coach.
    rewrite compute_price_run. cbn [fst snd]. split; [reflexivity|].
    exists (applied_rules (filter pr_enabled (pricing_rules d)) court s e).
    split; [unfold applied_rules; rewrite sort_desc_perm, filter_filter; reflexivity|].
    split; [apply sort_desc_sorted|]. split.
    + intros r Hr.
      destruct (price_with_rules _ court s e equipment coach) as [r'|x] eqn:E;
        [|discriminate Hr].
      injection Hr as ->.
      destruct (price_with_rules_total _ _ _ _ _ _ _ E) as (Hb & t1 & n & f & H1 & H2 & H3 & H4).
      split; [exact Hb|]. exists t1, n, f. rewrite Hb.
      split; [exact H1|]. split; [exact H2|]. split; [exact H3|].
      rewrite H4. destruct coach; reflexivity.
    + intros Hrules Hlines Hsum.
      destruct (fold_rule_prices_returns _ (court_base court s e) Hrules) as (t1 & H1).
      pose proof (equipment_total_plain equipment Hlines) as H2.
      assert (H3 : to_float (PInt (plain_sum equipment))
                   = Ok (float_of_Z (plain_sum equipment))).
      { unfold to_float, float_of_int. apply Z.ltb_lt in Hsum. now rewrite Hsum. }
      destruct (price_with_rules_returns _ court s e equipment coach _ _ _ H1 H2 H3)
        as (r & ->).
      now exists r.
  - intros t r m v f Hm Hv Hf stack.
    destruct (rule_total_kinds t r m v f Hm Hv Hf) as [Hp Ha]. fold stack in Hp.
    split; [|exact Ha].
    intros Hty. destruct (Hp Hty) as (H1 & H2 & H3 & _).
    split; [exact H1|]. split; [exact H2|].
    intros Hs. split; [exact (H3 Hs)|]. apply max2_never_lowers.
  - intros s m. apply duration_hours_minutes.
Qed.

(** A max rule of -10% leaves 600 alone and one of +10% raises it; an
    absolute rule adds its value; 45 minutes are 0.75 hours. *)
Lemma compute_price_fold_witness :
  rule_total 600 (sample_rule "percentage" "max" (-10)) = Ok 600%float /\
  rule_total 600 (sample_rule "percentage" "max" 10) = Ok 660%float /\
  rule_total 600 (sample_rule "percentage" "multiplicative" 50) = Ok 900%float /\
  rule_total 600 (sample_rule "percentage" "additive" 20) = Ok 720%float /\
  rule_total 600 (sample_rule "absolute" "additive" 50) = Ok 650%float /\
  duration_hours (at_ monday 10 0) (at_ monday 10 45) = 0.75%float.
Proof.
  destruct compute_price_fold as (_ & Hkinds & Hminutes & _).
  assert (K : forall kind stack v,
             let r := sample_rule kind stack v in
             rj_modifier (pr_rule_json r) = Val (mkModifier (Some kind) (Val (PInt v))))
    by reflexivity.
  pose proof (fun kind stack v => Hkinds 600%float (sample_rule kind stack v) _ (PInt v)
                                    (float_of_Z v) (K kind stack v) eq_refl) as H.
  destruct (H "percentage" "max" (-10) eq_refl) as [H1 _].
  destruct (H "percentage" "max" 10 eq_refl) as [H2 _].
  destruct (H "percentage" "multiplicative" 50 eq_refl) as [H3 _].
  destruct (H "percentage" "additive" 20 eq_refl) as [H4 _].
  destruct (H "absolute" "additive" 50 eq_refl) as [_ H5].
  destruct (H1 eq_refl) as (_ & _ & H1'). destruct (H1' eq_refl) as [E1 _].
  destruct (H2 eq_refl) as (_ & _ & H2'). destruct (H2' eq_refl) as [E2 _].
  destruct (H3 eq_refl) as (_ & E3 & _).
  destruct (H4 eq_refl) as (E4 & _ & _).
  split; [rewrite E1; vm_compute; reflexivity|].
  split; [rewrite E2; vm_compute; reflexivity|].
  split; [rewrite (E3 eq_refl); vm_compute; reflexivity|].
  split; [rewrite (E4 eq_refl); vm_compute; reflexivity|].
  split; [rewrite (H5 eq_refl); vm_compute; reflexivity|].
  change (at_ monday 10 45) with (at_ monday 10 0 + 45 * us_per_minute).
  rewrite Hminutes by lia. vm_compute. reflexivity.
Defined.

(** A rule with no clause at all, neither a ['match'] nor a category,
    applies to every target. *)
Lemma rule_applies_no_clauses (rj : RuleJson) (m : MatchClause) (tgt : Target)
  (s e : datetime) :
  (rj_match rj = None \/
   rj_match rj = Some m /\ mc_days m = [] /\ mc_start m = None /\ mc_end m = None) ->
  rj_applies_to rj = None ->
  rule_applies rj tgt s e = true.
Proof.
  intros [Hm | (Hm & Hd & Hs & He)] Ha; unfold rule_applies; rewrite Hm; [reflexivity|].
  rewrite Hd, Hs, Ha. reflexivity.
Qed.

Lemma filter_perm {A : Type} (f : A -> bool) (l l' : list A) :
  Permutation l l' -> Permutation (filter f l) (filter f l').
Proof.
  induction 1 as [|x l l' _ IH|x y l|l l' l'' _ IH1 _ IH2]; cbn [filter].
  - constructor.
  - destruct (f x); [now constructor | exact IH].
  - destruct (f x), (f y); try reflexivity. apply perm_swap.
  - now transitivity (filter f l').
Qed.

(** Two rows of a list whose priorities are pairwise distinct are one row
    when their priorities agree. *)
Lemma distinct_priority_row (l : list PricingRule) (x y : PricingRule) :
  NoDup (map pr_priority l) -> In x l -> In y l -> pr_priority x = pr_priority y ->
  x = y.
Proof.
  induction l as [|z l IH]; cbn [map In]; [contradiction|].
  intros Hnd Hx Hy E. inversion Hnd as [|? ? Hnot Hnd']; subst.
  destruct Hx as [<- | Hx], Hy as [<- | Hy]; trivial.
  - exfalso. apply Hnot. rewrite E. now apply in_map.
  - exfalso. apply Hnot. rewrite <- E. now apply in_map.
  - now apply IH.
Qed.

(** With pairwise distinct priorities there is one descending order. *)
Lemma sorted_perm_unique (l1 l2 : list PricingRule) :
  StronglySorted priority_ge l1 -> StronglySorted priority_ge l2 ->
  Permutation l1 l2 -> NoDup (map pr_priority l1) -> l1 = l2.
Proof.
  intros H1. revert l2. induction H1 as [|x l1 Hs1 IH Hx]; intros l2 H2 Hp Hnd.
  - apply Permutation_nil in Hp. now subst.
  - destruct H2 as [|y l2 Hs2 Hy].
    + apply Permutation_sym, Permutation_nil in Hp. discriminate Hp.
    + assert (Exy : x = y).
      { apply (distinct_priority_row (x :: l1)); trivial; [now left| |].
        - eapply Permutation_in; [apply Permutation_sym; exact Hp | now left].
        - assert (Hxin : In x (y :: l2)) by (eapply Permutation_in; [exact Hp | now left]).
          assert (Hyin : In y (x :: l1))
            by (eapply Permutation_in; [apply Permutation_sym; exact Hp | now left]).
          assert (G1 : pr_priority y >= pr_priority x).
          { destruct Hxin as [-> | Hxin]; [lia|].
            rewrite Forall_forall in Hy. exact (Hy x Hxin). }
          assert (G2 : pr_priority x >= pr_priority y).
          { destruct Hyin as [-> | Hyin]; [lia|].
            rewrite Forall_forall in Hx. exact (Hx y Hyin). }
          lia. }
      subst y. f_equal. apply IH; trivial.
      * now apply Permutation_cons_inv with x.
      * now inversion Hnd.
Qed.

(** [price_with_rules] reads its rules through [applied_rules] alone. *)
Lemma price_with_rules_applied (rules rules' : list PricingRule) (court : Court)
  (s e : datetime) (equipment : list EquipmentLine) (coach : option Coach) :
  applied_rules rules court s e = applied_rules rules' court s e ->
  price_with_rules rules court s e equipment coach
  = price_with_rules rules' court s e equipment coach.
Proof. intros H. rewrite !price_with_rules_steps, H. reflexivity. Qed.

(** C9, as the code has it.  [compute_price] leaves every table as it found
    it, and how it ends (its result, with base, total, breakdown and line
    items, or the exception that leaves it) is a function of its arguments
    and of the rule rows in the order the store returns them.  On two
    stores with the same rule rows it ends the same way when the rows come
    in the same order, and also when they come in different orders as long
    as the enabled rules that apply have pairwise distinct priorities. *)
Theorem compute_price_deterministic :
  forall (court : Court) (s e : datetime) (equipment : list EquipmentLine)
         (coach : option Coach) (d1 d2 : DB),
    (pricing_rules d1 = pricing_rules d2 \/
     (Permutation (pricing_rules d1) (pricing_rules d2) /\
      NoDup (map pr_priority
               (filter (fun x => pr_enabled x
                                 && rule_applies (pr_rule_json x)
                                      (mkTarget (Some (CourtType_value (c_type court)))) s e)
                       (pricing_rules d1))))) ->
    fst (compute_price court s e equipment coach d1)
    = fst (compute_price court s e equipment coach d2) /\
    snd (compute_price court s e equipment coach d1) = d1 /\
    snd (compute_price court s e equipment coach d2) = d2.
Proof.
  intros court s e equipment coach d1 d2 H.
  rewrite !compute_price_run. cbn [fst snd]. split; [|split; reflexivity].
  destruct H as [-> | [Hp Hnd]]; [reflexivity|].
  rewrite (price_with_rules_applied (filter pr_enabled (pricing_rules d1))
             (filter pr_enabled (pricing_rules d2))); [reflexivity|].
  unfold applied_rules. apply sorted_perm_unique.
  - apply sort_desc_sorted.
  - apply sort_desc_sorted.
  - rewrite !sort_desc_perm. now apply filter_perm, filter_perm.
  - rewrite filter_filter in *.
    eapply Permutation_NoDup; [|exact Hnd].
    apply Permutation_map, Permutation_sym, sort_desc_perm.
Qed.

(** The seeded rules have the priorities 10, 5 and 8: the quote for court 1
    with two rackets is the same on the seeded store, on the store after the
    two bookings of the scenario, and when the store returns the rules in
    the opposite order. *)
Lemma compute_price_deterministic_witness :
  fst (compute_price court_1 (at_ monday 19 0) (at_ monday 20 0) [rackets 2] None seed_db)
  = fst (compute_price court_1 (at_ monday 19 0) (at_ monday 20 0) [rackets 2] None
           waitlisted_db) /\
  snd (compute_price court_1 (at_ monday 19 0) (at_ monday 20 0) [rackets 2] None
         waitlisted_db) = waitlisted_db /\
  fst (compute_price court_1 (at_ monday 19 0) (at_ monday 20 0) [rackets 2] None seed_db)
  = fst (compute_price court_1 (at_ monday 19 0) (at_ monday 20 0) [rackets 2] None
           (with_rules [rule_indoor; rule_weekend; rule_peak] seed_db)).
Proof.
  destruct (compute_price_deterministic court_1 (at_ monday 19 0) (at_ monday 20 0)
              [rackets 2] None seed_db waitlisted_db (or_introl eq_refl))
    as (H1 & _ & H2).
  destruct (compute_price_deterministic court_1 (at_ monday 19 0) (at_ monday 20 0)
              [rackets 2] None seed_db
              (with_rules [rule_indoor; rule_weekend; rule_peak] seed_db)) as (H3 & _).
  - right. split.
    + change (pricing_rules seed_db) with [rule_peak; rule_weekend; rule_indoor].
      change (pricing_rules (with_rules [rule_indoor; rule_weekend; rule_peak] seed_db))
        with [rule_indoor; rule_weekend; rule_peak].
      apply perm_trans with [rule_weekend; rule_indoor; rule_peak].
      * apply perm_trans with [rule_weekend; rule_peak; rule_indoor];
          [apply perm_swap | apply perm_skip, perm_swap].
      * apply perm_swap.
    + vm_compute. repeat constructor; cbn; intuition discriminate.
  - split; [exact H1|]. split; [exact H2 | exact H3].
Defined.

(** C9, as stated, fails for rules of one priority: the sort keeps them in
    the order the store returns them, and with the same two rules, 20 per
    cent on top and 100 on top, court 1 costs 820 for the hour when the
    store returns the percentage first and 840 when it returns it last. *)
Lemma compute_price_tie_order :
  Permutation (pricing_rules (with_rules [rule_fifth; rule_hundred] seed_db))
              (pricing_rules (with_rules [rule_hundred; rule_fifth] seed_db)) /\
  fst (compute_price court_1 (at_ monday 10 0) (at_ monday 11 0) [] None
         (with_rules [rule_fifth; rule_hundred] seed_db))
  = Returned (mkPriceResult 600
                [mkBreakdown "Plus a fifth" (Percent (PInt 20)) 720;
                 mkBreakdown "Plus 100" (Plain (PInt 100)) 820]
                [mkLineItem "Court court_1 base" (PFloat 600)] 820) /\
  fst (compute_price court_1 (at_ monday 10 0) (at_ monday 11 0) [] None
         (with_rules [rule_hundred; rule_fifth] seed_db))
  = Returned (mkPriceResult 600
                [mkBreakdown "Plus 100" (Plain (PInt 100)) 700;
                 mkBreakdown "Plus a fifth" (Percent (PInt 20)) 840]
                [mkLineItem "Court court_1 base" (PFloat 600)] 840) /\
  fst (compute_price court_1 (at_ monday 10 0) (at_ monday 11 0) [] None
         (with_rules [rule_fifth; rule_hundred] seed_db))
  <> fst (compute_price court_1 (at_ monday 10 0) (at_ monday 11 0) [] None
            (with_rules [rule_hundred; rule_fifth] seed_db)).
Proof.
  split; [apply perm_swap|].
  assert (E1 : fst (compute_price court_1 (at_ monday 10 0) (at_ monday 11 0) [] None
                      (with_rules [rule_fifth; rule_hundred] seed_db))
               = Returned (mkPriceResult 600
                   [mkBreakdown "Plus a fifth" (Percent (PInt 20)) 720;
                    mkBreakdown "Plus 100" (Plain (PInt 100)) 820]
                   [mkLineItem "Court court_1 base" (PFloat 600)] 820))
    by (vm_compute; reflexivity).
  assert (E2 : fst (compute_price court_1 (at_ monday 10 0) (at_ monday 11 0) [] None
                      (with_rules [rule_hundred; rule_fifth] seed_db))
               = Returned (mkPriceResult 600
                   [mkBreakdown "Plus 100" (Plain (PInt 100)) 700;
                    mkBreakdown "Plus a fifth" (Percent (PInt 20)) 840]
                   [mkLineItem "Court court_1 base" (PFloat 600)] 840))
    by (vm_compute; reflexivity).
  split; [exact E1|]. split; [exact E2|].
  rewrite E1, E2. intros H. discriminate H.
Qed.

(* ================================================================== *)
(** ** The admission controller: how a request runs *)
(* ================================================================== *)

Lemma set_users_id (d : DB) : set_users (fun l => l) d = d.
Proof. now destruct d. Qed.

Lemma ensure_user_run (email : string) (d : DB) :
  ensure_user email d =
  match find_user email d with
  | Some u => (Returned u, d)
  | None => (Returned (new_user email d), set_users (fun l => l ++ [new_user email d]) d)
  end.
Proof.
  unfold ensure_user, bind, query, ret, commit.
  destruct (find_user email d); reflexivity.
Qed.

(** [ensure_user] always returns, and touches the user table only. *)
Lemma ensure_user_returns (email : string) (d : DB) :
  exists (u : User) (f : list User -> list User),
    ensure_user email d = (Returned u, set_users f d).
Proof.
  rewrite ensure_user_run. destruct (find_user email d) as [u|].
  - exists u, (fun l => l). now rewrite set_users_id.
  - eexists _, _. reflexivity.
Qed.

Lemma resource_ref_eqb_eq (a b : resource_ref) : resource_ref_eqb a b = true <-> a = b.
Proof.
  destruct a, b; simpl; try (split; congruence).
  - rewrite Z.eqb_eq. split; congruence.
  - rewrite String.eqb_eq. split; congruence.
Qed.

(** The loop over the overlapping allocations finds one exactly when a
    confirmed overlapping booking holds the resource. *)
Lemma conflict_found (kind : string) (res : resource_ref) (s e : datetime) (d : DB) :
  existsb (is_alloc kind res) (overlapping_allocations s e d) = true
  <-> resource_conflict kind res s e d.
Proof.
  unfold resource_conflict, overlapping_allocations, overlapping_bookings,
    allocations_of, is_alloc.
  rewrite existsb_exists. split.
  - intros (a & Hin & Hk). apply in_flat_map in Hin. destruct Hin as (b & Hb & Ha).
    apply filter_In in Hb. destruct Hb as [Hb Hc].
    apply filter_In in Ha. destruct Ha as [Ha Hid].
    apply andb_true_iff in Hc. destruct Hc as [Hc Hst].
    apply andb_true_iff in Hc. destruct Hc as [H1 H2].
    apply andb_true_iff in Hk. destruct Hk as [Hk Hr].
    exists b, a. repeat split; trivial.
    + now apply String.eqb_eq.
    + now apply Z.ltb_lt.
    + now apply Z.ltb_lt.
    + now apply Z.eqb_eq.
    + now apply String.eqb_eq.
    + now apply resource_ref_eqb_eq.
  - intros (b & a & Hb & Hst & H1 & H2 & Ha & Hid & Hk & Hr).
    exists a. split.
    + apply in_flat_map. exists b. split; apply filter_In; split; trivial.
      * rewrite !andb_true_iff. repeat split.
        -- now apply Z.ltb_lt.
        -- now apply Z.ltb_lt.
        -- now apply String.eqb_eq.
      * now apply Z.eqb_eq.
    + apply andb_true_iff. split.
      * now apply String.eqb_eq.
      * now apply resource_ref_eqb_eq.
Qed.

Lemma no_conflict_found (kind : string) (res : resource_ref) (s e : datetime) (d : DB) :
  ~ resource_conflict kind res s e d ->
  existsb (is_alloc kind res) (overlapping_allocations s e d) = false.
Proof.
  intros H. destruct (existsb _ _) eqn:E; [|reflexivity].
  apply conflict_found in E. contradiction.
Qed.

(** The validation blocks only read. *)
Lemma check_equipment_state (allocs : list BookingAllocation) (e : EquipmentLine) (d : DB) :
  snd (check_equipment allocs e d) = d.
Proof.
  unfold check_equipment, bind, query, raise, ret, lift.
  destruct (find_equipment (el_sku e) d) as [item|]; [|reflexivity].
  destruct (negb (ei_active item)); [reflexivity|].
  destruct (line_quantity e) as [q|]; [|reflexivity].
  destruct (_ >? _); reflexivity.
Qed.

Lemma for_each_equipment_state (allocs : list BookingAllocation)
  (l : list EquipmentLine) (d : DB) :
  snd (for_each (check_equipment allocs) l d) = d.
Proof.
  induction l as [|e l IH]; [reflexivity|].
  cbn [for_each]. unfold bind.
  pose proof (check_equipment_state allocs e d) as H.
  destruct (check_equipment allocs e d) as [[[]|err|x] d']; simpl in H; subst d'.
  - exact IH.
  - reflexivity.
  - reflexivity.
Qed.

Lemma check_coach_state (allocs : list BookingAllocation) (req : BookingRequest) (d : DB) :
  snd (check_coach allocs req d) = d.
Proof.
  unfold check_coach, bind, query, raise, ret.
  destruct (truthy_id (req_coach_id req)) as [cid|]; [|reflexivity].
  destruct (match get_coach cid d with Some c => negb (co_active c) | None => true end);
    [reflexivity|].
  destruct (existsb _ allocs); [reflexivity|].
  destruct (find_availability cid _ d) as [ca|]; [|reflexivity].
  destruct (_ || _); reflexivity.
Qed.

(** A line that fits passes its check; so does a list of them. *)
Lemma check_equipment_fits (d : DB) (allocs : list BookingAllocation) (e : EquipmentLine) :
  line_fits d allocs e -> check_equipment allocs e d = (Returned tt, d).
Proof.
  intros (item & q & Hf & Hact & Hqty & Hq).
  unfold check_equipment, bind, query, raise, ret. rewrite Hf, Hact, Hqty. simpl.
  destruct (_ >? _) eqn:E; [|reflexivity].
  apply Z.gtb_lt in E. lia.
Qed.

Lemma for_each_equipment_fits (d : DB) (allocs : list BookingAllocation)
  (l : list EquipmentLine) :
  Forall (line_fits d allocs) l ->
  for_each (check_equipment allocs) l d = (Returned tt, d).
Proof.
  induction 1 as [|e l He _ IH]; [reflexivity|].
  cbn [for_each]. unfold bind. now rewrite (check_equipment_fits d allocs e He).
Qed.

(** The first line that asks for more than is left stops the loop. *)
Lemma for_each_equipment_exceeds (d : DB) (allocs : list BookingAllocation)
  (pre post : list EquipmentLine) (e : EquipmentLine) (item : EquipmentItem) (q : Z) :
  Forall (line_fits d allocs) pre ->
  find_equipment (el_sku e) d = Some item -> ei_active item = true ->
  line_quantity e = Some q ->
  q > ei_total_quantity item - booked_quantity (el_sku e) allocs ->
  for_each (check_equipment allocs) (pre ++ e :: post) d
  = (Raised (mkHTTPException 400
       (insufficient_detail (el_sku e) q
          (ei_total_quantity item - booked_quantity (el_sku e) allocs))), d).
Proof.
  intros Hpre Hf Hact Hqty Hq. induction Hpre as [|x pre Hx _ IH].
  - cbn [app for_each]. unfold bind at 1.
    unfold check_equipment, bind, query, raise, ret. rewrite Hf, Hact, Hqty.
    simpl negb. cbv iota.
    destruct (_ >? _) eqn:E; [reflexivity|].
    rewrite Z.gtb_ltb in E. apply Z.ltb_ge in E. lia.
  - cbn [app for_each]. unfold bind at 1.
    rewrite (check_equipment_fits d allocs x Hx). exact IH.
Qed.

Section Admission.

Variables (now : datetime) (req : BookingRequest) (d : DB).
Variables (user : User) (f : list User -> list User).
Hypothesis Huser : ensure_user (req_user_email req) d = (Returned user, set_users f d).

(** An unknown or disabled court stops the request right after the user
    row. *)
Lemma create_booking_no_court :
  (get_court (req_court_id req) d = None \/
   exists c, get_court (req_court_id req) d = Some c /\ c_enabled c = false) ->
  create_booking now req d
  = (Raised (mkHTTPException 400 "court unavailable"), set_users f d).
Proof.
  intros H. unfold create_booking. unfold bind at 1. rewrite Huser.
  unfold bind at 1, query at 1.
  change (get_court (req_court_id req) (set_users f d))
    with (get_court (req_court_id req) d).
  destruct H as [-> | (c & -> & Hc)]; [reflexivity|].
  rewrite Hc. reflexivity.
Qed.

Variable court : Court.
Hypothesis Hcourt : get_court (req_court_id req) d = Some court.
Hypothesis Henabled : c_enabled court = true.

(** Past the court validation: the price, which can raise; then the
    waitlist on a conflict, else the two validation blocks, else the confirm
    step, where the engine can refuse a row. *)
Lemma create_booking_run :
  create_booking now req d =
  match request_price req court d with
  | Err x => (Uncaught x, set_users f d)
  | Ok price =>
  if existsb (is_alloc "court" (RInt (req_court_id req)))
             (overlapping_allocations (req_start_ts req) (req_end_ts req) d)
  then
    (Returned (Waitlisted (next_id w_id (waitlist_entries d))),
     set_waitlist_entries
       (fun l => l ++ [mkWaitlistEntry (next_id w_id (waitlist_entries d))
                         (req_start_ts req, req_end_ts req, str_of_Z (req_court_id req))
                         (u_id user) now])
       (set_users f d))
  else
    match fst (for_each
                 (check_equipment
                    (overlapping_allocations (req_start_ts req) (req_end_ts req) d))
                 (req_equipment req) (set_users f d)) with
    | Raised e => (Raised e, set_users f d)
    | Uncaught x => (Uncaught x, set_users f d)
    | Returned _ =>
        match fst (check_coach
                     (overlapping_allocations (req_start_ts req) (req_end_ts req) d)
                     req (set_users f d)) with
        | Raised e => (Raised e, set_users f d)
        | Uncaught x => (Uncaught x, set_users f d)
        | Returned _ =>
            let booking :=
              mkBooking (next_id b_id (bookings d)) (u_id user)
                (req_start_ts req) (req_end_ts req) "confirmed" (total price) price now in
            let audit :=
              mkAuditEvent (next_id ae_id (audit_events d)) (b_id booking) "confirmed"
                (PayloadUserEmail (req_user_email req)) in
            match new_allocations (resource_id_column d)
                                  (next_id a_id (booking_allocations d))
                                  (b_id booking) req with
            | None => (Uncaught DBAPIError, set_users f d)
            | Some allocations =>
                (Returned (Confirmed (b_id booking) (total price) price),
                 set_audit_events (fun l => l ++ [audit])
                   (set_booking_allocations (fun l => l ++ allocations)
                      (set_bookings (fun l => l ++ [booking]) (set_users f d))))
            end
        end
    end
  end.
Proof.
  cbv beta iota delta [create_booking bind query ret raise commit compute_price lift flush].
  rewrite Huser.
  change (get_court (req_court_id req) (set_users f d))
    with (get_court (req_court_id req) d).
  rewrite Hcourt, Henabled. cbn [negb].
  change (price_with_rules _ court _ _ _ _) with (request_price req court d).
  destruct (request_price req court d) as [price|x]; [|reflexivity].
  change (overlapping_allocations (req_start_ts req) (req_end_ts req) (set_users f d))
    with (overlapping_allocations (req_start_ts req) (req_end_ts req) d).
  destruct (existsb _ _); [reflexivity|].
  rewrite (surjective_pairing (for_each _ (req_equipment req) (set_users f d))).
  rewrite for_each_equipment_state.
  destruct (fst (for_each _ _ _)) as [[]|err|x]; [|reflexivity|reflexivity].
  rewrite (surjective_pairing (check_coach _ req (set_users f d))), check_coach_state.
  destruct (fst (check_coach _ _ _)) as [[]|err|x]; [|reflexivity|reflexivity].
  cbv zeta. cbn [b_id].
  cbn [resource_id_column booking_allocations set_users].
  destruct (new_allocations _ _ _ req); reflexivity.
Qed.

End Admission.

(* ================================================================== *)
(** ** The admission controller: outcomes *)
(* ================================================================== *)

(** Whatever the outcome, the rest of [create_booking] leaves the user
    table as [ensure_user] left it. *)
Lemma create_booking_users (now : datetime) (req : BookingRequest) (d : DB)
  (user : User) (f : list User -> list User) :
  ensure_user (req_user_email req) d = (Returned user, set_users f d) ->
  users (snd (create_booking now req d)) = f (users d).
Proof.
  intros Hu.
  destruct (get_court (req_court_id req) d) as [court|] eqn:Hc.
  - destruct (c_enabled court) eqn:He.
    + rewrite (create_booking_run now req d user f Hu court Hc He).
      destruct (request_price req court d); [|reflexivity].
      destruct (existsb _ _); [reflexivity|].
      destruct (fst (for_each _ _ _)); [|reflexivity|reflexivity].
      destruct (fst (check_coach _ _ _)); [|reflexivity|reflexivity].
      cbv zeta. destruct (new_allocations _ _ _ req); reflexivity.
    + rewrite (create_booking_no_court now req d user f Hu); [reflexivity|].
      right. now exists court.
  - rewrite (create_booking_no_court now req d user f Hu); [reflexivity|]. now left.
Qed.

(** C10.  When the request's e-mail has no [User] row, [create_booking]
    inserts and commits one, named after the text before the first ['@'],
    before it validates anything: the row is in the store after the
    request whatever the outcome, confirmed, waitlisted or rejected. *)
Theorem create_booking_creates_user :
  forall (now : datetime) (req : BookingRequest) (d : DB),
    find_user (req_user_email req) d = None ->
    users (snd (create_booking now req d))
    = users d ++ [mkUser (next_id u_id (users d))
                         (PyStr.before "@" (req_user_email req))
                         (req_user_email req)].
Proof.
  intros now req d Hnew.
  apply (create_booking_users now req d (new_user (req_user_email req) d)
           (fun l => l ++ [new_user (req_user_email req) d])).
  rewrite ensure_user_run, Hnew. reflexivity.
Qed.

(** user4 is waitlisted and user6 is rejected for an unknown court; both
    rows stay. *)
Lemma create_booking_creates_user_witness :
  (fst (create_booking (at_ monday 9 5) req_b booked_db) = Returned (Waitlisted 1) /\
   users (snd (create_booking (at_ monday 9 5) req_b booked_db))
   = users booked_db ++ [mkUser 4 "user4" "user4@example.com"]) /\
  (fst (create_booking (at_ monday 9 5) req_no_court seed_db)
   = Raised (mkHTTPException 400 "court unavailable") /\
   users (snd (create_booking (at_ monday 9 5) req_no_court seed_db))
   = users seed_db ++ [mkUser 3 "user6" "user6@example.com"]).
Proof.
  split; split.
  - vm_compute. reflexivity.
  - exact (create_booking_creates_user (at_ monday 9 5) req_b booked_db eq_refl).
  - vm_compute. reflexivity.
  - exact (create_booking_creates_user (at_ monday 9 5) req_no_court seed_db eq_refl).
Defined.

(** C4, as the code has it.  A request for a court that is unknown or
    disabled is rejected with 400 "court unavailable" before anything else
    is read; it writes no booking, allocation, waitlist entry or audit
    event, and the one row it can leave is the [User] row of an e-mail seen
    for the first time. *)
Theorem create_booking_invalid_court :
  forall (now : datetime) (req : BookingRequest) (d : DB),
    (get_court (req_court_id req) d = None \/
     exists c, get_court (req_court_id req) d = Some c /\ c_enabled c = false) ->
    let d' := snd (create_booking now req d) in
    fst (create_booking now req d) = Raised (mkHTTPException 400 "court unavailable") /\
    bookings d' = bookings d /\
    booking_allocations d' = booking_allocations d /\
    waitlist_entries d' = waitlist_entries d /\
    audit_events d' = audit_events d /\
    d' = match find_user (req_user_email req) d with
         | Some _ => d
         | None => set_users (fun l => l ++ [new_user (req_user_email req) d]) d
         end.
Proof.
  intros now req d Hbad d'. subst d'.
  destruct (ensure_user_returns (req_user_email req) d) as (u & f & Hu).
  rewrite (create_booking_no_court now req d u f Hu Hbad).
  repeat (split; [reflexivity|]).
  rewrite ensure_user_run in Hu. cbn [snd].
  destruct (find_user (req_user_email req) d); congruence.
Qed.

(** A known user asking for the disabled court 3 leaves the store as it
    was. *)
Lemma create_booking_invalid_court_witness :
  fst (create_booking (at_ monday 9 5) req_a court_3_disabled_db)
  = Raised (mkHTTPException 400 "court unavailable") /\
  snd (create_booking (at_ monday 9 5) req_a court_3_disabled_db) = court_3_disabled_db.
Proof.
  destruct (create_booking_invalid_court (at_ monday 9 5) req_a court_3_disabled_db)
    as (Hr & _ & _ & _ & _ & Hd).
  - right. eexists. split; reflexivity.
  - split; [exact Hr | exact Hd].
Defined.

(** C4, as stated, fails twice: an interval that ends before it starts is
    not rejected but confirmed (at a negative price), and the rejection of
    an unknown court leaves a new [User] row behind. *)
Lemma create_booking_validation_gaps :
  (req_end_ts req_backwards <= req_start_ts req_backwards /\
   fst (create_booking (at_ monday 9 0) req_backwards seed_db)
   = Returned (Confirmed 1 (-500)
       (mkPriceResult (-400) [mkBreakdown "Indoor +25" (Percent (PInt 25)) (-500)]
          [mkLineItem "Court court_4 base" (PFloat (-400))] (-500))) /\
   map b_status (bookings (snd (create_booking (at_ monday 9 0) req_backwards seed_db)))
   = ["confirmed"]) /\
  (get_court (req_court_id req_no_court) seed_db = None /\
   fst (create_booking (at_ monday 9 0) req_no_court seed_db)
   = Raised (mkHTTPException 400 "court unavailable") /\
   users (snd (create_booking (at_ monday 9 0) req_no_court seed_db))
   = users seed_db ++ [mkUser 3 "user6" "user6@example.com"]).
Proof.
  split; [split; [|split] | split; [|split]]; vm_compute; try reflexivity.
  discriminate.
Qed.

(** C1, as the code has it.  When the requested court exists and is
    enabled, the price of the request can be worked out, and a confirmed
    booking whose interval overlaps the requested one holds a court
    allocation on it, [create_booking] appends one waitlist entry carrying
    the slot fingerprint and the caller's user id and returns its id as
    waitlisted; the equipment and the coach are not checked in this branch:
    the outcome is the same for every equipment list and coach that can be
    priced. *)
Theorem create_booking_conflict_waitlisted :
  forall (now : datetime) (req : BookingRequest) (d : DB) (court : Court)
         (p : PriceResult),
    get_court (req_court_id req) d = Some court -> c_enabled court = true ->
    request_price req court d = Ok p ->
    court_conflict req d ->
    exists (user : User) (d0 : DB),
      ensure_user (req_user_email req) d = (Returned user, d0) /\
      let w := mkWaitlistEntry (next_id w_id (waitlist_entries d))
                 (req_start_ts req, req_end_ts req, str_of_Z (req_court_id req))
                 (u_id user) now in
      create_booking now req d
      = (Returned (Waitlisted (w_id w)), set_waitlist_entries (fun l => l ++ [w]) d0) /\
      forall (equipment : list EquipmentLine) (coach_id : option Z) (p' : PriceResult),
        request_price (with_addons req equipment coach_id) court d = Ok p' ->
        create_booking now (with_addons req equipment coach_id) d
        = create_booking now req d.
Proof.
  intros now req d court p Hc He Hp Hconf.
  destruct (ensure_user_returns (req_user_email req) d) as (u & f & Hu).
  exists u, (set_users f d). split; [exact Hu|].
  apply conflict_found in Hconf.
  assert (Hrun : forall (r : BookingRequest) (q : PriceResult),
            req_user_email r = req_user_email req ->
            req_start_ts r = req_start_ts req -> req_end_ts r = req_end_ts req ->
            req_court_id r = req_court_id req ->
            request_price r court d = Ok q ->
            create_booking now r d
            = (Returned (Waitlisted (next_id w_id (waitlist_entries d))),
               set_waitlist_entries
                 (fun l => l ++ [mkWaitlistEntry (next_id w_id (waitlist_entries d))
                                   (req_start_ts req, req_end_ts req,
                                    str_of_Z (req_court_id req)) (u_id u) now])
                 (set_users f d))).
  { intros r q E1 E2 E3 E4 Hq.
    assert (Hu' : ensure_user (req_user_email r) d = (Returned u, set_users f d))
      by now rewrite E1.
    assert (Hc' : get_court (req_court_id r) d = Some court) by now rewrite E4.
    rewrite (create_booking_run now r d u f Hu' court Hc' He), Hq.
    rewrite E2, E3, E4, Hconf. reflexivity. }
  split.
  - now apply (Hrun req p).
  - intros equipment coach_id p' Hp'.
    rewrite (Hrun (with_addons req equipment coach_id) p'), (Hrun req p); trivial.
Qed.

(** user4 asks for the slot user3 holds. *)
Lemma create_booking_conflict_waitlisted_witness :
  create_booking (at_ monday 9 5) req_b booked_db
  = (Returned (Waitlisted 1),
     set_waitlist_entries
       (fun l => l ++ [mkWaitlistEntry 1 (at_ monday 16 0, at_ monday 17 0, "3") 4
                                       (at_ monday 9 5)])
       (set_users (fun l => l ++ [mkUser 4 "user4" "user4@example.com"]) booked_db)).
Proof.
  assert (Hp : exists p, request_price req_b court_3 booked_db = Ok p)
    by (eexists; vm_compute; reflexivity).
  destruct Hp as (p & Hp).
  destruct (create_booking_conflict_waitlisted (at_ monday 9 5) req_b booked_db court_3 p)
    as (u & d0 & Hu & Hrun & _).
  - reflexivity.
  - reflexivity.
  - exact Hp.
  - apply conflict_found. vm_compute. reflexivity.
  - rewrite Hrun. vm_compute in Hu. injection Hu as Eu Ed. subst u d0.
    vm_compute. reflexivity.
Defined.

(** C1, as stated, fails when the court has been disabled: the overlapping
    confirmed booking is there, and the request is rejected, with no
    waitlist entry. *)
Lemma conflict_on_disabled_court_rejected :
  court_conflict req_b court_3_disabled_db /\
  fst (create_booking (at_ monday 9 5) req_b court_3_disabled_db)
  = Raised (mkHTTPException 400 "court unavailable") /\
  waitlist_entries (snd (create_booking (at_ monday 9 5) req_b court_3_disabled_db)) = [].
Proof.
  split; [|split; vm_compute; reflexivity].
  apply conflict_found. vm_compute. reflexivity.
Qed.

(** C5, as the code has it.  When the court exists, is enabled and has no
    conflict, the price of the request can be worked out and the equipment
    lines before it fit, a line for an active SKU that the store keeps
    under its own text, asking for more than the SKU's total quantity minus
    what the confirmed overlapping bookings hold of it, makes
    [create_booking] raise 400 with the SKU, the requested and the available
    quantity in its detail; no booking, allocation, waitlist entry or audit
    event is written. *)
Theorem create_booking_equipment_rejected :
  forall (now : datetime) (req : BookingRequest) (d : DB) (court : Court)
         (p : PriceResult) (pre post : list EquipmentLine) (e : EquipmentLine)
         (item : EquipmentItem) (q : Z),
    get_court (req_court_id req) d = Some court -> c_enabled court = true ->
    request_price req court d = Ok p ->
    ~ court_conflict req d ->
    let allocs := overlapping_allocations (req_start_ts req) (req_end_ts req) d in
    req_equipment req = pre ++ e :: post ->
    Forall (line_fits d allocs) pre ->
    find_equipment (el_sku e) d = Some item -> ei_active item = true ->
    stored_sku (resource_id_column d) (el_sku e) = Some (sku_ref (el_sku e)) ->
    line_quantity e = Some q ->
    let available := ei_total_quantity item - allocated_quantity d (el_sku e) allocs in
    q > available ->
    let d' := snd (create_booking now req d) in
    fst (create_booking now req d)
    = Raised (mkHTTPException 400 (insufficient_detail (el_sku e) q available)) /\
    d' = snd (ensure_user (req_user_email req) d) /\
    bookings d' = bookings d /\
    booking_allocations d' = booking_allocations d /\
    waitlist_entries d' = waitlist_entries d /\
    audit_events d' = audit_events d.
Proof.
  intros now req d court p pre post e item q Hc He Hp Hnc allocs Heq Hpre Hf Hact
         Hkeep Hqty available Hq d'.
  subst d' available allocs. unfold allocated_quantity in *. rewrite Hkeep in *.
  change (quantity_on (sku_ref (el_sku e)) ?l) with (booked_quantity (el_sku e) l) in *.
  destruct (ensure_user_returns (req_user_email req) d) as (u & f & Hu).
  rewrite (create_booking_run now req d u f Hu court Hc He), Hp, Hu.
  rewrite (no_conflict_found _ _ _ _ _ Hnc), Heq.
  rewrite (for_each_equipment_exceeds (set_users f d) _ pre post e item q
             Hpre Hf Hact Hqty Hq).
  repeat split.
Qed.

(** Nine rackets when the overlapping booking holds two of the ten. *)
Lemma create_booking_equipment_rejected_witness :
  fst (create_booking (at_ monday 9 5) req_d booked_db)
  = Raised (mkHTTPException 400
              "Insufficient racket availability. Requested: 9, Available: 8") /\
  bookings (snd (create_booking (at_ monday 9 5) req_d booked_db)) = bookings booked_db.
Proof.
  assert (Hp : exists p, request_price req_d court_4 booked_db = Ok p)
    by (eexists; vm_compute; reflexivity).
  destruct Hp as (p & Hp).
  destruct (create_booking_equipment_rejected (at_ monday 9 5) req_d booked_db court_4 p
              [] [] (rackets 9) (mkEquipmentItem 1 "racket" 10 true) 9)
    as (Hr & _ & Hb & _).
  - reflexivity.
  - reflexivity.
  - exact Hp.
  - intros H. apply conflict_found in H. vm_compute in H. discriminate H.
  - reflexivity.
  - constructor.
  - reflexivity.
  - reflexivity.
  - reflexivity.
  - reflexivity.
  - vm_compute. reflexivity.
  - split; [|exact Hb]. rewrite Hr. vm_compute. reflexivity.
Defined.

(** C5, as stated, fails when the court itself is taken: 99 rackets are
    asked for, 8 are left, and the request is waitlisted, not rejected. *)
Lemma excess_equipment_waitlisted :
  In (rackets 99) (req_equipment req_c) /\
  find_equipment (el_sku (rackets 99)) booked_db
  = Some (mkEquipmentItem 1 "racket" 10 true) /\
  booked_quantity (el_sku (rackets 99))
    (overlapping_allocations (req_start_ts req_c) (req_end_ts req_c) booked_db) = 2 /\
  requested_quantity (rackets 99) > 10 - 2 /\
  fst (create_booking (at_ monday 9 5) req_c booked_db) = Returned (Waitlisted 1).
Proof.
  split; [now left|]. repeat split; vm_compute; reflexivity.
Qed.

(** How the coach block runs for a coach id that is present and not 0. *)
Lemma check_coach_run (allocs : list BookingAllocation) (req : BookingRequest)
  (d : DB) (cid : Z) :
  req_coach_id req = Some cid -> cid <> 0 ->
  check_coach allocs req d =
  if match get_coach cid d with Some c => negb (co_active c) | None => true end then
    (Raised (mkHTTPException 400 "Coach not available"), d)
  else if existsb (is_alloc "coach" (RInt cid)) allocs then
    (Raised (mkHTTPException 400 "Coach already booked for this time slot"), d)
  else
    let day := PyStr.lower (strftime_A (req_start_ts req)) in
    match find_availability cid day d with
    | None => (Raised (mkHTTPException 400 ("Coach not available on " ++ day)%string), d)
    | Some ca =>
        if String.ltb (strftime_HM (req_start_ts req)) (ca_start_time ca)
           || String.ltb (ca_end_time ca) (strftime_HM (req_end_ts req))
        then (Raised (mkHTTPException 400 (window_detail ca day)), d)
        else (Returned tt, d)
    end.
Proof.
  intros Hcid Hnz. unfold check_coach. rewrite Hcid. unfold truthy_id.
  apply Z.eqb_neq in Hnz. rewrite Hnz.
  unfold bind, query, raise, ret.
  destruct (match get_coach cid d with Some c => negb (co_active c) | None => true end);
    [reflexivity|].
  destruct (existsb _ allocs); [reflexivity|].
  cbv zeta. destruct (find_availability cid _ d) as [ca|]; [|reflexivity].
  destruct (_ || _); reflexivity.
Qed.

(** The engine takes the rows of a request whose SKUs it keeps. *)
Lemma equipment_rows_some (column : string -> option resource_ref) (booking_id : Z)
  (l : list EquipmentLine) (next : Z) :
  Forall (fun e => stored_sku column (el_sku e) <> None) l ->
  exists rows, equipment_rows column booking_id next l = Some rows.
Proof.
  intros H. revert next. induction H as [|e l He _ IH]; intros next; cbn [equipment_rows].
  - eexists. reflexivity.
  - destruct (stored_sku column (el_sku e)) as [r|]; [|contradiction].
    destruct (IH (next + 1)) as (rows & ->). eexists. reflexivity.
Qed.

Lemma new_allocations_some (column : string -> option resource_ref)
  (first_id booking_id : Z) (req : BookingRequest) :
  Forall (fun e => stored_sku column (el_sku e) <> None) (req_equipment req) ->
  exists rows, new_allocations column first_id booking_id req = Some rows.
Proof.
  intros H. unfold new_allocations.
  destruct (equipment_rows_some column booking_id _ (first_id + 1) H) as (rows & ->).
  eexists. reflexivity.
Qed.

(** C7, as the code has it.  For a request that names a coach and reaches
    the coach block (court known and enabled, the price worked out, no
    conflict on the court, every equipment line fits): a coach that is
    unknown or inactive gives 400 "Coach not available"; an active coach
    held by a confirmed overlapping
    booking gives 400 "Coach already booked for this time slot"; else no
    availability row for the weekday of the start gives 400 "Coach not
    available on <day>"; else a start whose HH:MM is before the row's start
    or an end whose HH:MM is after the row's end gives 400 with the window;
    each of these writes nothing.  Else, for an interval within one day that
    ends on a whole minute, the booking is confirmed, when the store takes
    the rows of the equipment lines. *)
Theorem create_booking_coach_checks :
  forall (now : datetime) (req : BookingRequest) (d : DB) (court : Court) (cid : Z)
         (price : PriceResult),
    get_court (req_court_id req) d = Some court -> c_enabled court = true ->
    request_price req court d = Ok price ->
    ~ court_conflict req d ->
    Forall (line_fits d (overlapping_allocations (req_start_ts req) (req_end_ts req) d))
           (req_equipment req) ->
    req_coach_id req = Some cid -> cid <> 0 ->
    let s := req_start_ts req in
    let e := req_end_ts req in
    let day := PyStr.lower (strftime_A s) in
    let rejected (msg : string) : Prop :=
      create_booking now req d
      = (Raised (mkHTTPException 400 msg), snd (ensure_user (req_user_email req) d)) in
    ((get_coach cid d = None \/
      exists c, get_coach cid d = Some c /\ co_active c = false) ->
     rejected "Coach not available") /\
    (forall c : Coach, get_coach cid d = Some c -> co_active c = true ->
       (resource_conflict "coach" (RInt cid) s e d ->
        rejected "Coach already booked for this time slot") /\
       (~ resource_conflict "coach" (RInt cid) s e d ->
        (find_availability cid day d = None ->
         rejected ("Coach not available on " ++ day)%string) /\
        (forall ca : CoachAvailability, find_availability cid day d = Some ca ->
           (String.ltb (strftime_HM s) (ca_start_time ca) = true \/
            String.ltb (ca_end_time ca) (strftime_HM e) = true ->
            rejected (window_detail ca day)) /\
           (String.ltb (strftime_HM s) (ca_start_time ca) = false ->
            String.ltb (ca_end_time ca) (strftime_HM e) = false ->
            s / us_per_day = e / us_per_day -> e mod us_per_minute = 0 ->
            Forall (fun l => stored_sku (resource_id_column d) (el_sku l) <> None)
                   (req_equipment req) ->
            exists (id : Z) (d' : DB),
              create_booking now req d
              = (Returned (Confirmed id (total price) price), d'))))).
Proof.
  intros now req d court cid price Hc He Hp Hnc Hfit Hcid Hnz s e day rejected.
  destruct (ensure_user_returns (req_user_email req) d) as (u & f & Hu).
  assert (Hrun := create_booking_run now req d u f Hu court Hc He).
  rewrite Hp in Hrun.
  rewrite (no_conflict_found _ _ _ _ _ Hnc) in Hrun.
  rewrite (for_each_equipment_fits (set_users f d) _ _ Hfit) in Hrun. cbn [fst] in Hrun.
  rewrite (check_coach_run _ req (set_users f d) cid Hcid Hnz) in Hrun.
  change (get_coach cid (set_users f d)) with (get_coach cid d) in Hrun.
  change (find_availability cid ?x (set_users f d)) with (find_availability cid x d) in Hrun.
  fold s e in Hrun. cbv zeta in Hrun. fold day in Hrun.
  subst rejected. cbv beta. rewrite Hu. cbn [snd].
  split.
  - intros [Hn | (c & Hg & Hina)].
    + rewrite Hn in Hrun. exact Hrun.
    + rewrite Hg, Hina in Hrun. exact Hrun.
  - intros c Hg Hact. rewrite Hg, Hact in Hrun. cbn [negb] in Hrun. split.
    + intros Hcc. apply conflict_found in Hcc. rewrite Hcc in Hrun. exact Hrun.
    + intros Hncc. rewrite (no_conflict_found _ _ _ _ _ Hncc) in Hrun. split.
      * intros Hna. rewrite Hna in Hrun. exact Hrun.
      * intros ca Hfa. rewrite Hfa in Hrun. split.
        -- intros Hout.
           assert (Hor : String.ltb (strftime_HM s) (ca_start_time ca)
                         || String.ltb (ca_end_time ca) (strftime_HM e) = true)
             by (apply orb_true_iff; exact Hout).
           rewrite Hor in Hrun. exact Hrun.
        -- intros H1 H2 _ _ Hrows. rewrite H1, H2 in Hrun. cbn [orb fst] in Hrun.
           cbv zeta in Hrun. cbn [b_id] in Hrun.
           destruct (new_allocations_some (resource_id_column d)
                       (next_id a_id (booking_allocations d))
                       (next_id b_id (bookings d)) req Hrows) as (rows & Erows).
           rewrite Erows in Hrun. rewrite Hrun. eexists _, _. reflexivity.
Qed.

Ltac coach_request_reaches_checks :=
  match goal with
  | |- get_court _ _ = Some _ => reflexivity
  | |- c_enabled _ = true => reflexivity
  | |- ~ court_conflict _ _ =>
      let H := fresh in
      intros H; apply conflict_found in H; vm_compute in H; discriminate H
  | |- Forall _ _ => constructor
  | |- request_price _ _ _ = Ok _ => vm_compute; reflexivity
  | |- req_coach_id _ = Some _ => reflexivity
  | |- _ <> 0 => discriminate
  end.

(** On [booked_db], court 4 with: an unknown coach; coach 1 while the
    confirmed booking holds him; coach 2 on a Sunday; coach 2 until 20:30;
    coach 2 from 10:00 to 11:00. *)
Lemma create_booking_coach_checks_witness :
  fst (create_booking (at_ monday 9 5)
         (req_coach (at_ monday 10 0) (at_ monday 11 0) 9) booked_db)
  = Raised (mkHTTPException 400 "Coach not available") /\
  fst (create_booking (at_ monday 9 5)
         (req_coach (at_ monday 16 30) (at_ monday 17 30) 1) booked_db)
  = Raised (mkHTTPException 400 "Coach already booked for this time slot") /\
  fst (create_booking (at_ monday 9 5)
         (req_coach (at_ (monday + 6) 10 0) (at_ (monday + 6) 11 0) 2) booked_db)
  = Raised (mkHTTPException 400 "Coach not available on sunday") /\
  fst (create_booking (at_ monday 9 5)
         (req_coach (at_ monday 19 30) (at_ monday 20 30) 2) booked_db)
  = Raised (mkHTTPException 400 "Coach availability is 08:00-20:00 on monday") /\
  exists (id : Z) (t : float) (p : PriceResult) (d' : DB),
    create_booking (at_ monday 9 5)
      (req_coach (at_ monday 10 0) (at_ monday 11 0) 2) booked_db
    = (Returned (Confirmed id t p), d').
Proof.
  split; [|split; [|split; [|split]]].
  - edestruct (create_booking_coach_checks (at_ monday 9 5)
                (req_coach (at_ monday 10 0) (at_ monday 11 0) 9) booked_db court_4 9)
      as [Hbad _]; try coach_request_reaches_checks.
    rewrite Hbad; [reflexivity | left; reflexivity].
  - edestruct (create_booking_coach_checks (at_ monday 9 5)
                (req_coach (at_ monday 16 30) (at_ monday 17 30) 1) booked_db court_4 1)
      as [_ Hok]; try coach_request_reaches_checks.
    destruct (Hok (mkCoach 1 "Coach A" (Some 300) true) eq_refl eq_refl) as [Hheld _].
    rewrite Hheld; [reflexivity|].
    apply conflict_found. vm_compute. reflexivity.
  - edestruct (create_booking_coach_checks (at_ monday 9 5)
                (req_coach (at_ (monday + 6) 10 0) (at_ (monday + 6) 11 0) 2)
                booked_db court_4 2)
      as [_ Hok]; try coach_request_reaches_checks.
    destruct (Hok (mkCoach 2 "Coach B" (Some 250) true) eq_refl eq_refl) as [_ Hfree].
    destruct Hfree as [Hnorow _].
    + intros H. apply conflict_found in H. vm_compute in H. discriminate H.
    + rewrite Hnorow; vm_compute; reflexivity.
  - edestruct (create_booking_coach_checks (at_ monday 9 5)
                (req_coach (at_ monday 19 30) (at_ monday 20 30) 2) booked_db court_4 2)
      as [_ Hok]; try coach_request_reaches_checks.
    destruct (Hok (mkCoach 2 "Coach B" (Some 250) true) eq_refl eq_refl) as [_ Hfree].
    destruct Hfree as [_ Hrow].
    + intros H. apply conflict_found in H. vm_compute in H. discriminate H.
    + destruct (Hrow (mkCoachAvailability 7 2 "monday" "08:00" "20:00")) as [Hout _].
      * vm_compute. reflexivity.
      * rewrite Hout; [vm_compute; reflexivity | right; vm_compute; reflexivity].
  - edestruct (create_booking_coach_checks (at_ monday 9 5)
                (req_coach (at_ monday 10 0) (at_ monday 11 0) 2) booked_db court_4 2)
      as [_ Hok]; try coach_request_reaches_checks.
    destruct (Hok (mkCoach 2 "Coach B" (Some 250) true) eq_refl eq_refl) as [_ Hfree].
    destruct Hfree as [_ Hrow].
    + intros H. apply conflict_found in H. vm_compute in H. discriminate H.
    + destruct (Hrow (mkCoachAvailability 7 2 "monday" "08:00" "20:00")) as [_ Hin].
      * vm_compute. reflexivity.
      * destruct Hin as (id & d' & E); [vm_compute; reflexivity .. | constructor |].
        eexists _, _, _, _. exact E.
Defined.

(** C7, as stated, fails in two ways.  Coach 1 is held by the confirmed
    overlapping booking, yet a request for the taken court 3 naming him is
    waitlisted, not rejected.  And a request from Monday 17:00 to Tuesday
    10:00 passes the window test against Monday's 08:00-20:00 and is
    confirmed. *)
Lemma coach_checks_gaps :
  (req_coach_id req_c = Some 1 /\
   resource_conflict "coach" (RInt 1) (req_start_ts req_c) (req_end_ts req_c) booked_db /\
   fst (create_booking (at_ monday 9 5) req_c booked_db) = Returned (Waitlisted 1)) /\
  (req_coach_id req_overnight = Some 1 /\
   find_availability 1 (PyStr.lower (strftime_A (req_start_ts req_overnight))) booked_db
   = Some (mkCoachAvailability 1 1 "monday" "08:00" "20:00") /\
   at_ monday 20 0 < req_end_ts req_overnight /\
   exists (t : float) (p : PriceResult),
     fst (create_booking (at_ monday 9 5) req_overnight booked_db)
     = Returned (Confirmed 2 t p)).
Proof.
  split; [split; [|split] | split; [|split; [|split]]].
  - reflexivity.
  - apply conflict_found. vm_compute. reflexivity.
  - vm_compute. reflexivity.
  - reflexivity.
  - vm_compute. reflexivity.
  - vm_compute. reflexivity.
  - eexists _, _. vm_compute. reflexivity.
Qed.

(* ================================================================== *)
(** ** Cancellation *)
(* ================================================================== *)

Lemma slot_hash_eqb_eq (x y : slot_hash_t) : slot_hash_eqb x y = true <-> x = y.
Proof.
  destruct x as [[s1 e1] r1], y as [[s2 e2] r2]. unfold slot_hash_eqb.
  rewrite !andb_true_iff, !Z.eqb_eq, String.eqb_eq.
  split; [intros [[-> ->] ->]; reflexivity | intros H; inversion H; auto].
Qed.

(** [earliest] returns a row of the list that no row precedes. *)
Lemma earliest_least (l : list WaitlistEntry) (w : WaitlistEntry) :
  earliest l = Some w ->
  In w l /\ forall w', In w' l -> w_created_at w <= w_created_at w'.
Proof.
  revert w. induction l as [|x l IH]; intros w; simpl; [discriminate|].
  destruct (earliest l) as [m|] eqn:E.
  - destruct (IH m eq_refl) as [Hin Hmin].
    destruct (w_created_at m <? w_created_at x) eqn:C; intros [= <-].
    + apply Z.ltb_lt in C. split; [now right|].
      intros w' [<- | Hw']; [lia | now apply Hmin].
    + apply Z.ltb_ge in C. split; [now left|].
      intros w' [<- | Hw']; [lia | specialize (Hmin w' Hw'); lia].
  - intros [= <-]. split; [now left|].
    destruct l as [|y l]; [|simpl in E; destruct (earliest l) as [m|];
                             [destruct (_ <? _)|]; discriminate].
    intros w' [<- | []]. lia.
Qed.

Lemma earliest_none (l : list WaitlistEntry) : earliest l = None -> l = [].
Proof.
  destruct l as [|x l]; [reflexivity|]. simpl.
  destruct (earliest l) as [m|]; [destruct (_ <? _)|]; discriminate.
Qed.

Lemma set_status_id (id : Z) (st : string) (b : Booking) :
  b_id (set_status id st b) = b_id b.
Proof. unfold set_status. now destruct (b_id b =? id). Qed.

Lemma find_set_status (id : Z) (st : string) (l : list Booking) (b : Booking) :
  find (fun x => b_id x =? id) l = Some b ->
  find (fun x => b_id x =? id) (map (set_status id st) l) = Some (set_status id st b).
Proof.
  induction l as [|x l IH]; simpl; [discriminate|].
  rewrite set_status_id. destruct (b_id x =? id); [now intros [= ->] | exact IH].
Qed.

Lemma set_status_keeps_confirmed (id : Z) (l : list Booking) (x : Booking) :
  In x (map (set_status id "cancelled") l) -> b_status x = "confirmed" -> In x l.
Proof.
  intros Hin Hst. apply in_map_iff in Hin. destruct Hin as (y & <- & Hy).
  unfold set_status in *. destruct (b_id y =? id); [discriminate Hst | exact Hy].
Qed.

(** C6.  [cancel_booking] on a stored booking sets its status to
    "cancelled" and changes no other booking, no allocation, no waitlist
    entry and no user; no booking is confirmed by it.  It returns, as
    [next_waitlist_user_id], the user of a waitlist entry carrying the
    fingerprint rebuilt from the booking that no entry with that
    fingerprint precedes in creation time, when there is one, and nothing
    when there is none.  On an id with no booking it raises 404 "booking not
    found" and changes nothing. *)
Theorem cancel_booking_spec :
  (forall (id : Z) (d : DB) (b : Booking),
     get_booking id d = Some b ->
     let h := cancel_slot_hash b d in
     exists (next : option Z) (d' : DB),
       cancel_booking id d = (Returned (Cancelled next), d') /\
       bookings d' = map (set_status id "cancelled") (bookings d) /\
       (exists b', get_booking id d' = Some b' /\ b_status b' = "cancelled") /\
       booking_allocations d' = booking_allocations d /\
       waitlist_entries d' = waitlist_entries d /\
       users d' = users d /\
       (forall x, In x (bookings d') -> b_status x = "confirmed" -> In x (bookings d)) /\
       match next with
       | Some uid =>
           exists w, In w (waitlist_entries d) /\ w_slot_hash w = h /\
                     w_user_id w = uid /\
                     forall w', In w' (waitlist_entries d) -> w_slot_hash w' = h ->
                                w_created_at w <= w_created_at w'
       | None => forall w, In w (waitlist_entries d) -> w_slot_hash w <> h
       end) /\
  (forall (id : Z) (d : DB),
     get_booking id d = None ->
     cancel_booking id d = (Raised (mkHTTPException 404 "booking not found"), d)).
Proof.
  split.
  - intros id d b Hb h.
    assert (Hid : b_id b = id).
    { apply find_some in Hb. destruct Hb as [_ Hb]. now apply Z.eqb_eq. }
    assert (Hget : exists b', find (fun x => b_id x =? id)
                                (map (set_status id "cancelled") (bookings d)) = Some b'
                              /\ b_status b' = "cancelled").
    { exists (set_status id "cancelled" b). split; [now apply find_set_status|].
      unfold set_status. rewrite Hid, Z.eqb_refl. reflexivity. }
    cbv beta iota delta [cancel_booking bind query ret raise commit].
    rewrite Hb, Hid.
    change (cancel_slot_hash b (set_bookings _ d)) with h.
    change (waitlist_entries (set_bookings (map (set_status id "cancelled")) d))
      with (waitlist_entries d).
    destruct (earliest _) as [w|] eqn:E.
    + apply earliest_least in E. destruct E as [Hin Hmin].
      apply filter_In in Hin. destruct Hin as [Hin Hh]. apply slot_hash_eqb_eq in Hh.
      eexists _, _. split; [reflexivity|].
      split; [reflexivity|]. split; [exact Hget|].
      split; [reflexivity|]. split; [reflexivity|]. split; [reflexivity|].
      split; [intros x; apply set_status_keeps_confirmed|].
      exists w. repeat split; trivial.
      intros w' Hw' Hh'. apply Hmin. apply filter_In. split; [exact Hw'|].
      now apply slot_hash_eqb_eq.
    + apply earliest_none in E.
      eexists _, _. split; [reflexivity|].
      split; [reflexivity|]. split; [exact Hget|].
      split; [reflexivity|]. split; [reflexivity|]. split; [reflexivity|].
      split; [intros x; apply set_status_keeps_confirmed|].
      intros w Hw Hh.
      assert (Hf : In w (filter (fun w => slot_hash_eqb (w_slot_hash w) h)
                                (waitlist_entries d))).
      { apply filter_In. split; [exact Hw | now apply slot_hash_eqb_eq]. }
      rewrite E in Hf. exact Hf.
  - intros id d Hb.
    cbv beta iota delta [cancel_booking bind query ret raise commit].
    now rewrite Hb.
Qed.

(** user3 holds the slot and user4 waits for it: cancelling booking 1
    names user4, whose entry stays and who gets no booking; there is no
    booking 7. *)
Lemma cancel_booking_spec_witness :
  (fst (cancel_booking 1 waitlisted_db) = Returned (Cancelled (Some 4)) /\
   waitlist_entries (snd (cancel_booking 1 waitlisted_db)) = waitlist_entries waitlisted_db /\
   map b_user_id (bookings (snd (cancel_booking 1 waitlisted_db))) = [3]) /\
  cancel_booking 7 waitlisted_db
  = (Raised (mkHTTPException 404 "booking not found"), waitlisted_db).
Proof.
  destruct cancel_booking_spec as [Hfound Hmissing].
  split.
  - destruct (Hfound 1 waitlisted_db _ eq_refl)
      as (next & d' & Hrun & Hb & _ & _ & Hw & _).
    rewrite Hrun. cbn [fst snd]. rewrite Hw, Hb.
    split; [|split; [reflexivity | vm_compute; reflexivity]].
    vm_compute in Hrun. injection Hrun as Hnext _. now rewrite <- Hnext.
  - apply Hmissing. reflexivity.
Defined.

(* ================================================================== *)
(** ** The admission controller over a sequence of requests *)
(* ================================================================== *)

Lemma next_id_gt {A : Type} (key : A -> Z) (rows : list A) (r : A) :
  In r rows -> key r < next_id key rows.
Proof.
  unfold next_id. induction rows as [|x rows IH]; cbn [fold_right In]; [contradiction|].
  intros [<- | H]; [lia | specialize (IH H); lia].
Qed.

(** What a confirmation tells about the request and the store. *)
Lemma create_booking_confirmed_inv (now : datetime) (req : BookingRequest) (d d1 : DB)
  (id : Z) (t : float) (p : PriceResult) :
  create_booking now req d = (Returned (Confirmed id t p), d1) ->
  exists (user : User) (f : list User -> list User) (court : Court)
         (rows : list BookingAllocation),
    ensure_user (req_user_email req) d = (Returned user, set_users f d) /\
    get_court (req_court_id req) d = Some court /\ c_enabled court = true /\
    existsb (is_alloc "court" (RInt (req_court_id req)))
            (overlapping_allocations (req_start_ts req) (req_end_ts req) d) = false /\
    id = next_id b_id (bookings d) /\ t = total p /\
    request_price req court d = Ok p /\
    new_allocations (resource_id_column d) (next_id a_id (booking_allocations d)) id req
    = Some rows /\
    d1 = set_audit_events
           (fun l => l ++ [mkAuditEvent (next_id ae_id (audit_events d)) id "confirmed"
                             (PayloadUserEmail (req_user_email req))])
           (set_booking_allocations (fun l => l ++ rows)
              (set_bookings
                 (fun l => l ++ [mkBooking id (u_id user) (req_start_ts req) (req_end_ts req)
                                           "confirmed" t p now])
                 (set_users f d))).
Proof.
  intros H.
  destruct (ensure_user_returns (req_user_email req) d) as (u & f & Hu).
  exists u, f.
  destruct (get_court (req_court_id req) d) as [court|] eqn:Hc.
  - destruct (c_enabled court) eqn:He.
    + exists court. rewrite (create_booking_run now req d u f Hu court Hc He) in H.
      destruct (request_price req court d) as [price|x]; [|discriminate H].
      destruct (existsb _ _); [discriminate H|].
      destruct (fst (for_each _ _ _)); [|discriminate H|discriminate H].
      destruct (fst (check_coach _ _ _)); [|discriminate H|discriminate H].
      cbv zeta in H. cbn [b_id] in H.
      destruct (new_allocations _ _ _ req) as [rows|] eqn:Er; [|discriminate H].
      exists rows. injection H as <- <- <- <-.
      repeat split; trivial.
    + rewrite (create_booking_no_court now req d u f Hu) in H; [discriminate H|].
      right. now exists court.
  - rewrite (create_booking_no_court now req d u f Hu) in H; [discriminate H | now left].
Qed.

(** The outcomes other than a confirmation write no booking and no
    allocation. *)
Lemma create_booking_not_confirmed (now : datetime) (req : BookingRequest) (d : DB) :
  (forall id t p, fst (create_booking now req d) <> Returned (Confirmed id t p)) ->
  bookings (snd (create_booking now req d)) = bookings d /\
  booking_allocations (snd (create_booking now req d)) = booking_allocations d.
Proof.
  intros Hn.
  destruct (ensure_user_returns (req_user_email req) d) as (u & f & Hu).
  destruct (get_court (req_court_id req) d) as [court|] eqn:Hc.
  - destruct (c_enabled court) eqn:He.
    + rewrite (create_booking_run now req d u f Hu court Hc He) in *.
      destruct (request_price req court d) as [price|x]; [|split; reflexivity].
      destruct (existsb _ _); [split; reflexivity|].
      destruct (fst (for_each _ _ _)); [|split; reflexivity|split; reflexivity].
      destruct (fst (check_coach _ _ _)); [|split; reflexivity|split; reflexivity].
      cbv zeta in *. destruct (new_allocations _ _ _ req); [|split; reflexivity].
      exfalso. eapply Hn. reflexivity.
    + rewrite (create_booking_no_court now req d u f Hu); [split; reflexivity|].
      right. now exists court.
  - rewrite (create_booking_no_court now req d u f Hu); [split; reflexivity | now left].
Qed.

Lemma equipment_rows_kind (column : string -> option resource_ref) (booking_id : Z)
  (l : list EquipmentLine) (next : Z) (rows : list BookingAllocation) (a : BookingAllocation) :
  equipment_rows column booking_id next l = Some rows -> In a rows ->
  a_booking_id a = booking_id /\ a_resource_type a = "equipment".
Proof.
  revert next rows. induction l as [|e l IH]; intros next rows; cbn [equipment_rows].
  - intros [= <-] [].
  - destruct (stored_sku column (el_sku e)) as [r|]; [|discriminate].
    destruct (equipment_rows column booking_id (next + 1) l) as [rest|] eqn:E;
      [|discriminate].
    intros [= <-] [<- | Ha]; [split; reflexivity|]. now apply (IH (next + 1) rest).
Qed.

Lemma new_allocations_owner (column : string -> option resource_ref)
  (first_id booking_id : Z) (req : BookingRequest)
  (rows : list BookingAllocation) (a : BookingAllocation) :
  new_allocations column first_id booking_id req = Some rows ->
  In a rows -> a_booking_id a = booking_id.
Proof.
  unfold new_allocations.
  destruct (equipment_rows column booking_id (first_id + 1) (req_equipment req))
    as [eq_rows|] eqn:E; [|discriminate].
  intros [= <-] [<- | H]; [reflexivity|].
  apply in_app_or in H. destruct H as [H | H].
  - now apply (equipment_rows_kind _ _ _ _ _ _ E H).
  - destruct (truthy_id (req_coach_id req)); [|contradiction].
    destruct H as [<- | []]. reflexivity.
Qed.

(** The one court allocation among the rows of a confirmation. *)
Lemma new_allocations_court (column : string -> option resource_ref)
  (first_id booking_id : Z) (req : BookingRequest)
  (rows : list BookingAllocation) (a : BookingAllocation) :
  new_allocations column first_id booking_id req = Some rows ->
  In a rows -> a_resource_type a = "court" ->
  a_resource_id a = RInt (req_court_id req).
Proof.
  unfold new_allocations.
  destruct (equipment_rows column booking_id (first_id + 1) (req_equipment req))
    as [eq_rows|] eqn:E; [|discriminate].
  intros [= <-] [<- | H] Hk; [reflexivity|].
  apply in_app_or in H. destruct H as [H | H].
  - destruct (equipment_rows_kind _ _ _ _ _ _ E H) as [_ Hk']. congruence.
  - destruct (truthy_id (req_coach_id req)); [|contradiction].
    destruct H as [<- | []]. discriminate Hk.
Qed.

Section AfterConfirmation.

Variables (now : datetime) (req : BookingRequest) (d d1 : DB).
Variables (id : Z) (t : float) (p : PriceResult).
Hypothesis Hconfirmed : create_booking now req d = (Returned (Confirmed id t p), d1).

(** The rows a confirmation appends, and the tables it leaves. *)
Lemma confirmed_rows :
  exists (user : User) (rows : list BookingAllocation),
    id = next_id b_id (bookings d) /\
    bookings d1 = bookings d ++ [mkBooking id (u_id user) (req_start_ts req)
                                           (req_end_ts req) "confirmed" t p now] /\
    booking_allocations d1 = booking_allocations d ++ rows /\
    waitlist_entries d1 = waitlist_entries d /\
    courts d1 = courts d /\ pricing_rules d1 = pricing_rules d /\
    fst (ensure_user (req_user_email req) d) = Returned user /\
    new_allocations (resource_id_column d) (next_id a_id (booking_allocations d)) id req
    = Some rows /\
    equipment_items d1 = equipment_items d /\ coaches d1 = coaches d /\
    coach_availability d1 = coach_availability d /\
    resource_id_column d1 = resource_id_column d.
Proof.
  destruct (create_booking_confirmed_inv _ _ _ _ _ _ _ Hconfirmed)
    as (u & f & court & rows & Hu & _ & _ & _ & Hid & _ & _ & Hrows & ->).
  exists u, rows. rewrite Hu. repeat split; trivial.
Qed.

(** A stored booking holds a court after the confirmation exactly as
    before; the new booking holds the requested court and no other. *)
Lemma holds_court_after (b : Booking) (c : Z) :
  allocations_owned d ->
  holds_court d1 b c ->
  (In b (bookings d) /\ holds_court d b c) \/
  (b_id b = id /\ b_start_ts b = req_start_ts req /\ b_end_ts b = req_end_ts req /\
   c = req_court_id req).
Proof.
  intros Hown (Hb & Hst & a & Ha & Hid & Hk & Hr).
  destruct confirmed_rows as (u & rows & Eid & Eb & Ea & _ & _ & _ & _ & Hrows & _).
  rewrite Eb in Hb. rewrite Ea in Ha.
  apply in_app_or in Hb. apply in_app_or in Ha.
  destruct Hb as [Hb | [<- | []]].
  - left. split; [exact Hb|]. split; [exact Hb|]. split; [exact Hst|].
    exists a. repeat split; trivial.
    destruct Ha as [Ha | Ha]; [exact Ha|].
    apply (new_allocations_owner _ _ _ _ _ _ Hrows) in Ha.
    pose proof (next_id_gt b_id (bookings d) b Hb). lia.
  - right. cbn [b_id b_start_ts b_end_ts] in *. repeat split.
    destruct Ha as [Ha | Ha].
    + destruct (Hown a Ha) as (b' & Hb' & Eb').
      pose proof (next_id_gt b_id (bookings d) b' Hb'). lia.
    + pose proof (new_allocations_court _ _ _ _ _ _ Hrows Ha Hk) as E.
      rewrite E in Hr. now injection Hr.
Qed.

Lemma holds_court_before (b : Booking) (c : Z) :
  holds_court d b c -> holds_court d1 b c.
Proof.
  intros (Hb & Hst & a & Ha & Hid & Hk & Hr).
  destruct confirmed_rows as (u & rows & _ & Eb & Ea & _).
  split; [rewrite Eb; apply in_or_app; now left|]. split; [exact Hst|].
  exists a. rewrite Ea. repeat split; trivial. apply in_or_app. now left.
Qed.

(** The confirmed request met no confirmed overlapping holder of its
    court. *)
Lemma confirmed_met_no_holder (b : Booking) :
  holds_court d b (req_court_id req) ->
  ~ (b_start_ts b < req_end_ts req /\ req_start_ts req < b_end_ts b).
Proof.
  intros (Hb & Hst & a & Ha & Hid & Hk & Hr) [H1 H2].
  destruct (create_booking_confirmed_inv _ _ _ _ _ _ _ Hconfirmed)
    as (_ & _ & _ & _ & _ & _ & _ & Hfree & _).
  assert (Hc : resource_conflict "court" (RInt (req_court_id req))
                 (req_start_ts req) (req_end_ts req) d).
  { exists b, a. repeat split; trivial. }
  apply conflict_found in Hc. congruence.
Qed.

End AfterConfirmation.

Lemma store_properties_ext (d d' : DB) :
  bookings d' = bookings d -> booking_allocations d' = booking_allocations d ->
  (allocations_owned d -> allocations_owned d') /\
  (courts_exclusive d -> courts_exclusive d').
Proof.
  intros Eb Ea. unfold allocations_owned, courts_exclusive, holds_court.
  rewrite Eb, Ea. split; auto.
Qed.

(** The tests decide the two store properties. *)
Lemma allocations_ownedb_sound (d : DB) :
  allocations_ownedb d = true -> allocations_owned d.
Proof.
  unfold allocations_ownedb. rewrite forallb_forall. intros H a Ha.
  specialize (H a Ha). apply existsb_exists in H. destruct H as (b & Hb & E).
  exists b. split; [exact Hb | now apply Z.eqb_eq].
Qed.

Lemma holds_courtb_complete (d : DB) (b : Booking) (c : Z) :
  holds_court d b c -> holds_courtb d b c = true.
Proof.
  intros (_ & Hst & a & Ha & Hid & Hk & Hr). unfold holds_courtb.
  rewrite Hst. cbn [andb]. apply andb_true_iff. split; [reflexivity|].
  apply existsb_exists. exists a. split; [exact Ha|].
  unfold is_alloc. rewrite Hid, Hk, Hr. cbn [resource_ref_eqb].
  rewrite !Z.eqb_refl. reflexivity.
Qed.

Lemma courts_exclusiveb_sound (d : DB) :
  courts_exclusiveb d = true -> courts_exclusive d.
Proof.
  unfold courts_exclusiveb. rewrite forallb_forall.
  intros H b1 b2 c H1 H2 Hne [O1 O2].
  pose proof (holds_courtb_complete d b2 c H2) as Hb2.
  destruct H1 as (Hin1 & _ & a & Ha & Hid & Hk & Hr).
  destruct H2 as (Hin2 & _).
  specialize (H b1 Hin1). rewrite forallb_forall in H. specialize (H b2 Hin2).
  apply Z.eqb_neq in Hne. rewrite Hne in H.
  assert (Hov : overlapb b1 b2 = true).
  { unfold overlapb. apply andb_true_iff. split; now apply Z.ltb_lt. }
  rewrite Hov in H. cbn [negb orb] in H.
  rewrite forallb_forall in H. specialize (H a Ha).
  rewrite Hid, Hk, Hr, Z.eqb_refl, Hb2 in H. discriminate H.
Qed.

(** X1.  [create_booking] keeps the store sound whatever its outcome: when
    every allocation belongs to a stored booking and no two confirmed
    bookings overlap on one court, the same holds after the request. *)
Theorem create_booking_keeps_courts_exclusive :
  forall (now : datetime) (req : BookingRequest) (d : DB),
    allocations_owned d -> courts_exclusive d ->
    allocations_owned (snd (create_booking now req d)) /\
    courts_exclusive (snd (create_booking now req d)).
Proof.
  intros now req d Hown Hex.
  destruct (create_booking now req d) as [[[id t p | w | n] | err | x] d1] eqn:E;
    cbn [snd].
  2-5: assert (Hn : forall id t p, fst (create_booking now req d)
                                   <> Returned (Confirmed id t p))
         by (intros; rewrite E; discriminate);
       destruct (create_booking_not_confirmed now req d Hn) as [Eb Ea];
       rewrite E in Eb, Ea; cbn [snd] in Eb, Ea;
       destruct (store_properties_ext d d1 Eb Ea) as [H1 H2]; split; auto.
  destruct (confirmed_rows _ _ _ _ _ _ _ E)
    as (u & rows & Eid & Eb & Ea & _ & _ & _ & _ & Hrows & _).
  split.
  - intros a Ha. rewrite Ea in Ha. rewrite Eb. apply in_app_or in Ha.
    destruct Ha as [Ha | Ha].
    + destruct (Hown a Ha) as (b & Hb & Hid). exists b. split; [|exact Hid].
      apply in_or_app. now left.
    + eexists. split; [apply in_or_app; right; left; reflexivity|].
      cbn [b_id]. symmetry. eapply new_allocations_owner; [exact Hrows | exact Ha].
  - intros b1 b2 c H1 H2 Hne [O1 O2].
    destruct (holds_court_after _ _ _ _ _ _ _ E b1 c Hown H1)
      as [[_ H1'] | (I1 & S1 & E1 & C1)];
    destruct (holds_court_after _ _ _ _ _ _ _ E b2 c Hown H2)
      as [[_ H2'] | (I2 & S2 & E2 & C2)].
    + apply (Hex b1 b2 c H1' H2' Hne). split; assumption.
    + subst c. apply (confirmed_met_no_holder _ _ _ _ _ _ _ E b1 H1'). lia.
    + subst c. apply (confirmed_met_no_holder _ _ _ _ _ _ _ E b2 H2'). lia.
    + congruence.
Qed.

(** The store holds user3 on court 3 and user6 on court 4 for the same
    hour; user7 then books court 3 for the hour after, and user4, who asks
    for user3's hour on court 3, is waitlisted: three confirmed bookings,
    two of them on court 3, and no two overlap on a court. *)
Lemma create_booking_keeps_courts_exclusive_witness :
  (map b_status (bookings three_bookings_db) = ["confirmed"; "confirmed"; "confirmed"] /\
   allocations_owned three_bookings_db /\ courts_exclusive three_bookings_db) /\
  (fst (create_booking (at_ monday 9 30) req_b three_bookings_db)
   = Returned (Waitlisted 1) /\
   courts_exclusive (snd (create_booking (at_ monday 9 30) req_b three_bookings_db))).
Proof.
  assert (H2 : allocations_owned two_courts_db /\ courts_exclusive two_courts_db).
  { split; [apply allocations_ownedb_sound | apply courts_exclusiveb_sound];
      vm_compute; reflexivity. }
  pose proof (create_booking_keeps_courts_exclusive (at_ monday 9 20) req_f two_courts_db
                (proj1 H2) (proj2 H2)) as H3.
  fold three_bookings_db in H3.
  split; [split; [vm_compute; reflexivity | exact H3]|].
  split; [vm_compute; reflexivity|].
  apply (create_booking_keeps_courts_exclusive (at_ monday 9 30) req_b three_bookings_db
           (proj1 H3) (proj2 H3)).
Defined.

(** How [cancel_booking] leaves the tables. *)
Lemma cancel_booking_tables (id : Z) (d : DB) :
  let d' := snd (cancel_booking id d) in
  bookings d' = match get_booking id d with
                | Some _ => map (set_status id "cancelled") (bookings d)
                | None => bookings d
                end /\
  booking_allocations d' = booking_allocations d /\
  waitlist_entries d' = waitlist_entries d /\
  users d' = users d /\ courts d' = courts d /\
  equipment_items d' = equipment_items d /\ coaches d' = coaches d /\
  coach_availability d' = coach_availability d /\
  pricing_rules d' = pricing_rules d /\
  resource_id_column d' = resource_id_column d.
Proof.
  cbv beta iota zeta delta [cancel_booking bind query ret raise commit].
  destruct (get_booking id d) as [b|] eqn:Hb; [|repeat split].
  assert (Hid : b_id b = id).
  { apply find_some in Hb. destruct Hb as [_ Hb]. now apply Z.eqb_eq. }
  rewrite Hid. destruct (earliest _); repeat split.
Qed.

Lemma set_status_confirmed (id : Z) (b : Booking) :
  b_status (set_status id "cancelled" b) = "confirmed" ->
  set_status id "cancelled" b = b.
Proof. unfold set_status. destruct (b_id b =? id); [discriminate | reflexivity]. Qed.

(** X2.  [cancel_booking] keeps the store sound: allocations stay owned and
    confirmed bookings stay disjoint on every court. *)
Theorem cancel_booking_keeps_courts_exclusive :
  forall (id : Z) (d : DB),
    allocations_owned d -> courts_exclusive d ->
    allocations_owned (snd (cancel_booking id d)) /\
    courts_exclusive (snd (cancel_booking id d)).
Proof.
  intros id d Hown Hex.
  destruct (cancel_booking_tables id d) as (Eb & Ea & _).
  destruct (get_booking id d) as [b0|].
  - assert (Hold : forall b c, holds_court (snd (cancel_booking id d)) b c ->
                               holds_court d b c).
    { intros b c (Hb & Hst & a & Ha & Hid & Hk & Hr).
      rewrite Eb in Hb. rewrite Ea in Ha.
      apply in_map_iff in Hb. destruct Hb as (x & <- & Hx).
      pose proof (set_status_confirmed id x Hst) as Ex. rewrite Ex in *.
      split; [exact Hx|]. split; [exact Hst|]. exists a. repeat split; trivial. }
    split.
    + intros a Ha. rewrite Ea in Ha. destruct (Hown a Ha) as (b & Hb & Hid).
      exists (set_status id "cancelled" b). rewrite Eb, set_status_id.
      split; [now apply in_map | exact Hid].
    + intros b1 b2 c H1 H2. apply (Hex b1 b2 c); auto.
  - destruct (store_properties_ext d _ Eb Ea); split; auto.
Qed.

(** The store with three confirmed bookings, two of them on court 3:
    cancelling user3's booking leaves two confirmed bookings, and the store
    stays sound. *)
Lemma cancel_booking_keeps_courts_exclusive_witness :
  map b_status (bookings (snd (cancel_booking 1 three_bookings_db)))
  = ["cancelled"; "confirmed"; "confirmed"] /\
  allocations_owned (snd (cancel_booking 1 three_bookings_db)) /\
  courts_exclusive (snd (cancel_booking 1 three_bookings_db)).
Proof.
  split; [vm_compute; reflexivity|].
  apply cancel_booking_keeps_courts_exclusive;
    [apply allocations_ownedb_sound | apply courts_exclusiveb_sound];
    vm_compute; reflexivity.
Defined.


(** The court row comes first among the rows of a confirmation. *)
Lemma new_allocations_first (column : string -> option resource_ref)
  (first_id booking_id : Z) (req : BookingRequest) (rows : list BookingAllocation) :
  new_allocations column first_id booking_id req = Some rows ->
  exists rest,
    rows = mkBookingAllocation first_id booking_id "court" (RInt (req_court_id req)) 1
           :: rest.
Proof.
  unfold new_allocations.
  destruct (equipment_rows column booking_id (first_id + 1) (req_equipment req));
    [|discriminate].
  intros [= <-]. eexists. reflexivity.
Qed.

Ltac priced_here :=
  let c := fresh "c" in
  let H := fresh "H" in
  intros c H; vm_compute in H; injection H as <-; eexists; vm_compute; reflexivity.

(** X3.  No double confirmation: once a request is confirmed, a later
    request for the same court whose interval overlaps the confirmed one,
    and whose price can be worked out, is waitlisted, and no booking is
    written for it. *)
Theorem confirmed_slot_waitlists_next :
  forall (now now' : datetime) (req req' : BookingRequest) (d d1 : DB)
         (id : Z) (t : float) (p : PriceResult),
    create_booking now req d = (Returned (Confirmed id t p), d1) ->
    req_court_id req' = req_court_id req ->
    req_start_ts req < req_end_ts req' -> req_start_ts req' < req_end_ts req ->
    priced req' d1 ->
    exists (w : Z) (d2 : DB),
      create_booking now' req' d1 = (Returned (Waitlisted w), d2) /\
      bookings d2 = bookings d1 /\
      booking_allocations d2 = booking_allocations d1.
Proof.
  intros now now' req req' d d1 id t p Hc Ecourt O1 O2 Hpriced.
  destruct (confirmed_rows _ _ _ _ _ _ _ Hc)
    as (u & rows & Eid & Eb & Ea & _ & Ecs & _ & _ & Hrows & _).
  destruct (create_booking_confirmed_inv _ _ _ _ _ _ _ Hc)
    as (_ & _ & court & _ & _ & Hcourt & Hen & _).
  destruct (ensure_user_returns (req_user_email req') d1) as (u' & f' & Hu').
  assert (Hcourt' : get_court (req_court_id req') d1 = Some court).
  { unfold get_court. rewrite Ecs, Ecourt. exact Hcourt. }
  assert (Hconf : resource_conflict "court" (RInt (req_court_id req'))
                    (req_start_ts req') (req_end_ts req') d1).
  { destruct (new_allocations_first _ _ _ _ _ Hrows) as (rest & ->).
    eexists _, _. rewrite Eb, Ea.
    split; [apply in_or_app; right; left; reflexivity|].
    split; [reflexivity|]. cbn [b_start_ts b_end_ts b_id].
    split; [exact O1|]. split; [exact O2|].
    split; [apply in_or_app; right; left; reflexivity|].
    cbn [a_booking_id a_resource_type a_resource_id]. rewrite Ecourt.
    repeat split. }
  apply conflict_found in Hconf.
  destruct (Hpriced court Hcourt') as (p' & Hp').
  rewrite (create_booking_run now' req' d1 u' f' Hu' court Hcourt' Hen), Hp', Hconf.
  eexists _, _. repeat split.
Qed.

(** user4 after user3, on the seeded store. *)
Lemma confirmed_slot_waitlists_next_witness :
  exists (w : Z) (d2 : DB),
    create_booking (at_ monday 9 5) req_b booked_db = (Returned (Waitlisted w), d2) /\
    bookings d2 = bookings booked_db.
Proof.
  destruct (create_booking (at_ monday 9 0) req_a seed_db) as [r d1] eqn:E.
  assert (Ed : d1 = booked_db) by (unfold booked_db; now rewrite E).
  assert (Er : exists id t p, r = Returned (Confirmed id t p)).
  { replace r with (fst (create_booking (at_ monday 9 0) req_a seed_db)) by now rewrite E.
    eexists _, _, _. vm_compute. reflexivity. }
  destruct Er as (id & t & p & ->). subst d1.
  destruct (confirmed_slot_waitlists_next (at_ monday 9 0) (at_ monday 9 5)
              req_a req_b seed_db booked_db id t p E)
    as (w & d2 & H & Hb & _); try reflexivity; [priced_here|].
  exists w, d2. split; assumption.
Defined.

(** X4.  Bookings on different courts never conflict: after a
    confirmation on one court, the conflicts on every other court are what
    they were. *)
Theorem confirmed_court_leaves_others :
  forall (now : datetime) (req : BookingRequest) (d d1 : DB)
         (id : Z) (t : float) (p : PriceResult) (c : Z) (s e : datetime),
    allocations_owned d ->
    create_booking now req d = (Returned (Confirmed id t p), d1) ->
    c <> req_court_id req ->
    (resource_conflict "court" (RInt c) s e d1 <-> resource_conflict "court" (RInt c) s e d).
Proof.
  intros now req d d1 id t p c s e Hown Hc Hne.
  assert (Hholds : forall d0, resource_conflict "court" (RInt c) s e d0 <->
                   exists b, holds_court d0 b c /\ b_start_ts b < e /\ s < b_end_ts b).
  { intros d0. split.
    - intros (b & a & Hb & Hst & O1 & O2 & Ha & Hid & Hk & Hr).
      exists b. repeat split; trivial. exists a. repeat split; trivial.
    - intros (b & (Hb & Hst & a & Ha & Hid & Hk & Hr) & O1 & O2).
      exists b, a. repeat split; trivial. }
  rewrite !Hholds.
  split; intros (b & Hb & O1 & O2); exists b; (split; [|split; assumption]).
  - destruct (holds_court_after _ _ _ _ _ _ _ Hc b c Hown Hb)
      as [[_ H] | (_ & _ & _ & E)]; [exact H | contradiction].
  - eapply holds_court_before; eauto.
Qed.

(** Court 4 stays free for the slot user3 holds on court 3. *)
Lemma confirmed_court_leaves_others_witness :
  ~ resource_conflict "court" (RInt 4) (at_ monday 16 0) (at_ monday 17 0) booked_db.
Proof.
  destruct (create_booking (at_ monday 9 0) req_a seed_db) as [r d1] eqn:E.
  assert (Ed : d1 = booked_db) by (unfold booked_db; now rewrite E).
  assert (Er : exists id t p, r = Returned (Confirmed id t p)).
  { replace r with (fst (create_booking (at_ monday 9 0) req_a seed_db)) by now rewrite E.
    eexists _, _, _. vm_compute. reflexivity. }
  destruct Er as (id & t & p & ->). subst d1.
  intros H.
  apply (confirmed_court_leaves_others (at_ monday 9 0) req_a seed_db booked_db id t p 4)
    in H.
  - destruct H as (b & _ & [] & _).
  - intros a [].
  - exact E.
  - discriminate.
Defined.

(** After [ensure_user], the e-mail finds the returned row. *)
Lemma ensure_user_found (email : string) (d d' : DB) (u : User) :
  ensure_user email d = (Returned u, d') -> find_user email d' = Some u.
Proof.
  rewrite ensure_user_run. destruct (find_user email d) as [u0|] eqn:E.
  - now intros [= <- <-].
  - intros [= <- <-]. unfold find_user in *. cbn [users set_users].
    assert (Hfind : forall l, find (fun x => String.eqb (u_email x) email) l = None ->
              find (fun x => String.eqb (u_email x) email) (l ++ [new_user email d])
              = Some (new_user email d)).
    { induction l as [|x l IH]; cbn [find app].
      - intros _. cbn [new_user u_email]. now rewrite String.eqb_refl.
      - destruct (String.eqb (u_email x) email); [discriminate | exact IH]. }
    now apply Hfind.
Qed.

Lemma find_fresh_booking (l : list Booking) (b : Booking) :
  b_id b = next_id b_id l ->
  find (fun x => b_id x =? b_id b) (l ++ [b]) = Some b.
Proof.
  intros Hid.
  assert (H : forall l', (forall x, In x l' -> b_id x < b_id b) ->
                         find (fun x => b_id x =? b_id b) (l' ++ [b]) = Some b).
  { induction l' as [|x l' IH]; intros Hlt; cbn [find app].
    - now rewrite Z.eqb_refl.
    - destruct (b_id x =? b_id b) eqn:E.
      + apply Z.eqb_eq in E. specialize (Hlt x (or_introl eq_refl)). lia.
      + apply IH. intros y Hy. apply Hlt. now right. }
  apply H. intros x Hx. rewrite Hid. now apply next_id_gt.
Qed.

Lemma filter_none {A : Type} (f : A -> bool) (l : list A) :
  (forall x, In x l -> f x = false) -> filter f l = [].
Proof.
  induction l as [|x l IH]; intros H; cbn [filter]; [reflexivity|].
  rewrite (H x (or_introl eq_refl)). apply IH. intros y Hy. apply H. now right.
Qed.


(** What a waitlisting tells about the store. *)
Lemma create_booking_waitlisted_inv (now : datetime) (req : BookingRequest) (d d2 : DB)
  (w : Z) :
  create_booking now req d = (Returned (Waitlisted w), d2) ->
  exists (user : User) (f : list User -> list User),
    ensure_user (req_user_email req) d = (Returned user, set_users f d) /\
    w = next_id w_id (waitlist_entries d) /\
    d2 = set_waitlist_entries
           (fun l => l ++ [mkWaitlistEntry w
                             (req_start_ts req, req_end_ts req, str_of_Z (req_court_id req))
                             (u_id user) now])
           (set_users f d).
Proof.
  intros H.
  destruct (ensure_user_returns (req_user_email req) d) as (u & f & Hu).
  exists u, f.
  destruct (get_court (req_court_id req) d) as [court|] eqn:Hc.
  - destruct (c_enabled court) eqn:He.
    + rewrite (create_booking_run now req d u f Hu court Hc He) in H.
      destruct (request_price req court d); [|discriminate H].
      destruct (existsb _ _).
      * injection H as <- <-. repeat split; trivial.
      * destruct (fst (for_each _ _ _)); [|discriminate H|discriminate H].
        destruct (fst (check_coach _ _ _)); [|discriminate H|discriminate H].
        cbv zeta in H. destruct (new_allocations _ _ _ req); discriminate H.
    + rewrite (create_booking_no_court now req d u f Hu) in H; [discriminate H|].
      right. now exists court.
  - rewrite (create_booking_no_court now req d u f Hu) in H; [discriminate H | now left].
Qed.

(** How [cancel_booking] runs on a stored booking. *)
Lemma cancel_booking_run (id : Z) (d : DB) (b : Booking) :
  get_booking id d = Some b ->
  cancel_booking id d =
  match earliest (filter (fun w => slot_hash_eqb (w_slot_hash w) (cancel_slot_hash b d))
                         (waitlist_entries d)) with
  | Some w =>
      (Returned (Cancelled (Some (w_user_id w))),
       set_audit_events
         (fun l => l ++ [mkAuditEvent (next_id ae_id (audit_events d)) id "cancelled"
                           (PayloadNextWaitlistUser (w_user_id w))])
         (set_bookings (map (set_status id "cancelled")) d))
  | None =>
      (Returned (Cancelled None), set_bookings (map (set_status id "cancelled")) d)
  end.
Proof.
  intros Hb.
  assert (Hid : b_id b = id).
  { apply find_some in Hb. destruct Hb as [_ Hb]. now apply Z.eqb_eq. }
  cbv beta iota delta [cancel_booking bind query ret raise commit].
  rewrite Hb, Hid.
  change (cancel_slot_hash b (set_bookings (map (set_status id "cancelled")) d))
    with (cancel_slot_hash b d).
  change (waitlist_entries (set_bookings (map (set_status id "cancelled")) d))
    with (waitlist_entries d).
  destruct (earliest _); reflexivity.
Qed.

(** In a store whose allocations are owned, the allocations of a freshly
    confirmed booking are the rows written with it, the court first. *)
Lemma confirmed_allocations (now : datetime) (req : BookingRequest) (d d1 : DB)
  (id : Z) (t : float) (p : PriceResult) :
  allocations_owned d ->
  create_booking now req d = (Returned (Confirmed id t p), d1) ->
  Some (filter (fun a => a_booking_id a =? id) (booking_allocations d1))
  = new_allocations (resource_id_column d) (next_id a_id (booking_allocations d)) id req.
Proof.
  intros Hown Hc.
  destruct (confirmed_rows _ _ _ _ _ _ _ Hc)
    as (u & rows & Eid & _ & Ea & _ & _ & _ & _ & Hrows & _).
  rewrite Hrows, Ea, filter_app. f_equal. rewrite filter_none.
  - cbn [app]. apply forallb_filter_id. apply forallb_forall.
    intros a Ha. apply Z.eqb_eq. eapply new_allocations_owner; [exact Hrows | exact Ha].
  - intros a Ha. apply Z.eqb_neq. destruct (Hown a Ha) as (b & Hb & E).
    pose proof (next_id_gt b_id (bookings d) b Hb). lia.
Qed.

(** X5.  Waitlist and cancellation, end to end.  In a store whose
    allocations are owned and that holds no waitlist entry for the slot:
    when one request is confirmed and a second for the same court and
    interval is waitlisted, cancelling the first booking returns the second
    caller's user id; the waitlist keeps its entries and the second caller
    gets no booking by it. *)
Theorem cancel_names_waitlisted_user :
  forall (now now' : datetime) (req req' : BookingRequest) (d d1 d2 : DB)
         (id w : Z) (t : float) (p : PriceResult),
    allocations_owned d ->
    (forall x, In x (waitlist_entries d) ->
               w_slot_hash x
               <> (req_start_ts req, req_end_ts req, str_of_Z (req_court_id req))) ->
    create_booking now req d = (Returned (Confirmed id t p), d1) ->
    create_booking now' req' d1 = (Returned (Waitlisted w), d2) ->
    req_start_ts req' = req_start_ts req -> req_end_ts req' = req_end_ts req ->
    req_court_id req' = req_court_id req ->
    exists (u : User) (d3 : DB),
      find_user (req_user_email req') d2 = Some u /\
      cancel_booking id d2 = (Returned (Cancelled (Some (u_id u))), d3) /\
      waitlist_entries d3 = waitlist_entries d2 /\
      (forall b, In b (bookings d3) -> b_status b = "confirmed" -> In b (bookings d)).
Proof.
  intros now now' req req' d d1 d2 id w t p Hown Hnone Hc Hw Es Ee Ec.
  destruct (confirmed_rows _ _ _ _ _ _ _ Hc) as (uA & rows & Eid & Eb & Ea & Ew & _).
  pose proof (confirmed_allocations _ _ _ _ _ _ _ Hown Hc) as Hallocs.
  symmetry in Hallocs. destruct (new_allocations_first _ _ _ _ _ Hallocs) as (rest & Hfirst).
  destruct (create_booking_waitlisted_inv _ _ _ _ _ Hw) as (u & f & Hu & _ & ->).
  exists u.
  set (B := mkBooking id (u_id uA) (req_start_ts req) (req_end_ts req) "confirmed" t p now)
    in *.
  set (slot := (req_start_ts req, req_end_ts req, str_of_Z (req_court_id req))) in *.
  set (d2 := set_waitlist_entries _ (set_users f d1)).
  assert (Hget : get_booking id d2 = Some B).
  { unfold get_booking. change (bookings d2) with (bookings d1). rewrite Eb.
    apply (find_fresh_booking (bookings d) B). exact Eid. }
  assert (Hhash : cancel_slot_hash B d2 = slot).
  { unfold cancel_slot_hash, allocations_of.
    change (booking_allocations d2) with (booking_allocations d1).
    change (b_id B) with id. rewrite Hfirst. reflexivity. }
  assert (Hq : filter (fun x => slot_hash_eqb (w_slot_hash x) slot) (waitlist_entries d2)
               = [mkWaitlistEntry w slot (u_id u) now']).
  { change (waitlist_entries d2)
      with (waitlist_entries d1 ++ [mkWaitlistEntry w
              (req_start_ts req', req_end_ts req', str_of_Z (req_court_id req'))
              (u_id u) now']).
    rewrite Es, Ee, Ec, Ew, filter_app. fold slot. rewrite filter_none.
    - cbn [app filter w_slot_hash].
      now rewrite (proj2 (slot_hash_eqb_eq slot slot) eq_refl).
    - intros x Hx. destruct (slot_hash_eqb (w_slot_hash x) slot) eqn:E; [|reflexivity].
      apply slot_hash_eqb_eq in E. now apply Hnone in Hx. }
  rewrite (cancel_booking_run id d2 B Hget), Hhash, Hq. cbn [earliest w_user_id].
  eexists. split; [|split; [reflexivity | split; [reflexivity|]]].
  - change (find_user (req_user_email req') d2)
      with (find_user (req_user_email req') (set_users f d1)).
    apply (ensure_user_found _ d1). exact Hu.
  - cbn [bookings set_audit_events set_bookings].
    change (bookings d2) with (bookings d1). rewrite Eb, map_app.
    intros b Hb Hst. apply in_app_or in Hb. destruct Hb as [Hb | [<- | []]].
    + now apply set_status_keeps_confirmed in Hb.
    + unfold set_status, B in Hst. cbn [b_id b_status] in Hst.
      rewrite Z.eqb_refl in Hst. discriminate Hst.
Qed.


(** The two requests of the scenario. *)
Lemma scenario_confirmed :
  exists (t : float) (p : PriceResult),
    create_booking (at_ monday 9 0) req_a seed_db = (Returned (Confirmed 1 t p), booked_db).
Proof.
  eexists _, _. unfold booked_db.
  rewrite (surjective_pairing (create_booking (at_ monday 9 0) req_a seed_db)) at 1.
  apply f_equal2; [vm_compute|]; reflexivity.
Qed.

Lemma scenario_waitlisted :
  create_booking (at_ monday 9 5) req_b booked_db = (Returned (Waitlisted 1), waitlisted_db).
Proof.
  unfold waitlisted_db.
  rewrite (surjective_pairing (create_booking (at_ monday 9 5) req_b booked_db)) at 1.
  apply f_equal2; [vm_compute|]; reflexivity.
Qed.

(** user3 books, user4 is waitlisted, user3 cancels: user4 is named. *)
Lemma cancel_names_waitlisted_user_witness :
  exists d3 : DB,
    cancel_booking 1 waitlisted_db = (Returned (Cancelled (Some 4)), d3) /\
    waitlist_entries d3 = waitlist_entries waitlisted_db.
Proof.
  destruct scenario_confirmed as (t & p & Ha).
  assert (Hown : allocations_owned seed_db) by (intros a []).
  assert (Hnone : forall x, In x (waitlist_entries seed_db) ->
                    w_slot_hash x <> (req_start_ts req_a, req_end_ts req_a,
                                      str_of_Z (req_court_id req_a)))
    by (intros x []).
  destruct (cancel_names_waitlisted_user (at_ monday 9 0) (at_ monday 9 5) req_a req_b
              seed_db booked_db waitlisted_db 1 1 t p Hown Hnone Ha scenario_waitlisted
              eq_refl eq_refl eq_refl)
    as (u & d3 & Hu & Hcancel & Hw & _).
  exists d3. split; [|exact Hw].
  vm_compute in Hu. injection Hu as <-. exact Hcancel.
Defined.

(** X6.  A cancelled booking blocks nothing: after [cancel_booking id], a
    resource is held over an interval exactly when a confirmed booking
    other than [id] held it before. *)
Theorem cancel_frees_resource :
  forall (id : Z) (d : DB) (kind : string) (res : resource_ref) (s e : datetime),
    resource_conflict kind res s e (snd (cancel_booking id d)) <->
    exists (b : Booking) (a : BookingAllocation),
      b_id b <> id /\
      In b (bookings d) /\ b_status b = "confirmed" /\
      b_start_ts b < e /\ s < b_end_ts b /\
      In a (booking_allocations d) /\ a_booking_id a = b_id b /\
      a_resource_type a = kind /\ a_resource_id a = res.
Proof.
  intros id d kind res s e.
  destruct (cancel_booking_tables id d) as (Eb & Ea & _).
  unfold resource_conflict. rewrite Eb, Ea. clear Eb Ea.
  destruct (get_booking id d) as [b0|] eqn:Hget.
  - split.
    + intros (b & a & Hb & Hst & O1 & O2 & Ha & Hid & Hk & Hr).
      apply in_map_iff in Hb. destruct Hb as (x & <- & Hx).
      pose proof (set_status_confirmed id x Hst) as Ex.
      assert (Hne : b_id x <> id).
      { intros E. unfold set_status in Hst. apply Z.eqb_eq in E. rewrite E in Hst.
        discriminate Hst. }
      rewrite Ex in *. exists x, a. repeat split; trivial.
    + intros (b & a & Hne & Hb & Hst & O1 & O2 & Ha & Hid & Hk & Hr).
      exists b, a. repeat split; trivial.
      apply in_map_iff. exists b. split; [|exact Hb].
      unfold set_status. apply Z.eqb_neq in Hne. now rewrite Hne.
  - split.
    + intros (b & a & Hb & Hrest). exists b, a. split; [|split; [exact Hb | exact Hrest]].
      intros E. unfold get_booking in Hget.
      pose proof (find_none _ _ Hget b Hb) as Hf. cbv beta in Hf.
      apply Z.eqb_neq in Hf. contradiction.
    + intros (b & a & _ & Hrest). exists b, a. exact Hrest.
Qed.

(** X7.  [create_booking] only appends: the catalogue (courts, equipment,
    coaches, availability, rules) is untouched, every stored user, booking,
    allocation, waitlist entry and audit event stays as it is, and at most
    one user, one booking, one waitlist entry and one audit event are
    added, never a booking together with a waitlist entry. *)
Theorem create_booking_appends :
  forall (now : datetime) (req : BookingRequest) (d : DB),
    let d' := snd (create_booking now req d) in
    courts d' = courts d /\ equipment_items d' = equipment_items d /\
    coaches d' = coaches d /\ coach_availability d' = coach_availability d /\
    pricing_rules d' = pricing_rules d /\
    exists (us : list User) (bs : list Booking) (als : list BookingAllocation)
           (ws : list WaitlistEntry) (es : list AuditEvent),
      users d' = users d ++ us /\ bookings d' = bookings d ++ bs /\
      booking_allocations d' = booking_allocations d ++ als /\
      waitlist_entries d' = waitlist_entries d ++ ws /\
      audit_events d' = audit_events d ++ es /\
      (List.length us <= 1)%nat /\ (List.length bs <= 1)%nat /\
      (List.length ws <= 1)%nat /\ List.length es = List.length bs /\
      (bs = [] \/ ws = []) /\ (bs = [] -> als = []).
Proof.
  intros now req d d'. subst d'.
  assert (Hu : exists u us, ensure_user (req_user_email req) d
                            = (Returned u, set_users (fun l => l ++ us) d)
                            /\ (List.length us <= 1)%nat).
  { rewrite ensure_user_run. destruct (find_user (req_user_email req) d) as [u|].
    - exists u, []. split; [|cbn; lia]. unfold set_users. rewrite app_nil_r.
      now destruct d.
    - eexists _, [_]. split; [reflexivity | cbn; lia]. }
  destruct Hu as (u & us & Hu & Hlen).
  assert (Hrej : forall r : outcome Response,
                   create_booking now req d = (r, set_users (fun l => l ++ us) d) ->
                 let d' := snd (create_booking now req d) in
                 courts d' = courts d /\ equipment_items d' = equipment_items d /\
                 coaches d' = coaches d /\ coach_availability d' = coach_availability d /\
                 pricing_rules d' = pricing_rules d /\
                 exists us bs als ws es,
                   users d' = users d ++ us /\ bookings d' = bookings d ++ bs /\
                   booking_allocations d' = booking_allocations d ++ als /\
                   waitlist_entries d' = waitlist_entries d ++ ws /\
                   audit_events d' = audit_events d ++ es /\
                   (List.length us <= 1)%nat /\ (List.length bs <= 1)%nat /\
                   (List.length ws <= 1)%nat /\ List.length es = List.length bs /\
                   (bs = [] \/ ws = []) /\ (bs = [] -> als = [])).
  { intros r ->. cbn [snd]. repeat (split; [reflexivity|]).
    exists us, [], [], [], []. cbn [users set_users bookings booking_allocations
                                     waitlist_entries audit_events].
    rewrite ?app_nil_r. repeat split; trivial; cbn; auto. }
  destruct (get_court (req_court_id req) d) as [court|] eqn:Hc.
  - destruct (c_enabled court) eqn:He.
    + pose proof (create_booking_run now req d u _ Hu court Hc He) as Hrun.
      destruct (request_price req court d) as [price|x]; [|exact (Hrej _ Hrun)].
      destruct (existsb _ _).
      * rewrite Hrun. cbn [snd]. repeat (split; [reflexivity|]).
        eexists us, [], [], [_], [].
        cbn [users set_users set_waitlist_entries bookings booking_allocations
             waitlist_entries audit_events].
        rewrite ?app_nil_r. repeat split; trivial; cbn; auto.
      * destruct (fst (for_each _ _ _)); [|exact (Hrej _ Hrun)|exact (Hrej _ Hrun)].
        destruct (fst (check_coach _ _ _)); [|exact (Hrej _ Hrun)|exact (Hrej _ Hrun)].
        cbv zeta in Hrun.
        destruct (new_allocations _ _ _ req) as [rows|]; [|exact (Hrej _ Hrun)].
        rewrite Hrun. cbn [snd]. repeat (split; [reflexivity|]).
        eexists us, [_], rows, [], [_].
        cbn [users set_users set_waitlist_entries set_bookings set_booking_allocations
             set_audit_events bookings booking_allocations waitlist_entries audit_events].
        rewrite ?app_nil_r.
        repeat split; try reflexivity; try (cbn; lia); try (now right);
          intros H; discriminate H.
    + apply (Hrej (Raised (mkHTTPException 400 "court unavailable"))).
      apply (create_booking_no_court now req d u _ Hu). right. now exists court.
  - apply (Hrej (Raised (mkHTTPException 400 "court unavailable"))).
    apply (create_booking_no_court now req d u _ Hu). now left.
Qed.

Lemma find_user_none_not_in (email : string) (d : DB) :
  find_user email d = None -> ~ In email (map u_email (users d)).
Proof.
  unfold find_user. intros Hf Hin. apply in_map_iff in Hin.
  destruct Hin as (u & Eu & Hu).
  pose proof (find_none _ _ Hf u Hu) as H. cbv beta in H.
  rewrite Eu, String.eqb_refl in H. discriminate H.
Qed.

(** X8.  One user row per e-mail: when the e-mails of the stored users are
    pairwise distinct they stay so after any request. *)
Theorem create_booking_keeps_emails_unique :
  forall (now : datetime) (req : BookingRequest) (d : DB),
    emails_unique d -> emails_unique (snd (create_booking now req d)).
Proof.
  intros now req d Hnd. unfold emails_unique in *.
  destruct (find_user (req_user_email req) d) as [u|] eqn:Hf.
  - rewrite (create_booking_users now req d u (fun l => l)); [exact Hnd|].
    rewrite ensure_user_run, Hf. now rewrite set_users_id.
  - rewrite (create_booking_users now req d (new_user (req_user_email req) d)
               (fun l => l ++ [new_user (req_user_email req) d])).
    + rewrite map_app. cbn [map new_user u_email].
      apply NoDup_app_remove_l with (l := []). cbn [app].
      apply Permutation_NoDup with (l := req_user_email req :: map u_email (users d)).
      * apply Permutation_cons_append.
      * constructor; [now apply find_user_none_not_in | exact Hnd].
    + rewrite ensure_user_run, Hf. reflexivity.
Qed.

(** The seeded users, after user3's request. *)
Lemma create_booking_keeps_emails_unique_witness : emails_unique booked_db.
Proof.
  apply (create_booking_keeps_emails_unique (at_ monday 9 0) req_a seed_db).
  unfold emails_unique. cbn.
  constructor; [intros [H | []]; discriminate H|].
  constructor; [intros []|constructor].
Defined.


(** The equipment rows carry, line by line, what the store keeps for the
    SKU and the quantity asked for; the engine refuses them when it refuses
    one SKU. *)
Lemma equipment_rows_refs (column : string -> option resource_ref) (booking_id : Z)
  (l : list EquipmentLine) (next : Z) :
  match stored_refs column l with
  | Some refs =>
      exists rows,
        equipment_rows column booking_id next l = Some rows /\
        map (fun a => (a_resource_type a, a_resource_id a, a_quantity a)) rows
        = map (fun x => ("equipment", snd x, requested_quantity (fst x))) (combine l refs)
  | None => equipment_rows column booking_id next l = None
  end.
Proof.
  revert next. induction l as [|e l IH]; intros next; cbn [stored_refs fold_right].
  - exists []. split; reflexivity.
  - fold (stored_refs column l). specialize (IH (next + 1)). cbn [equipment_rows].
    destruct (stored_sku column (el_sku e)) as [r|]; [|reflexivity].
    destruct (stored_refs column l) as [refs|].
    + destruct IH as (rows & -> & Hmap). eexists. split; [reflexivity|].
      cbn [map combine fst snd a_resource_type a_resource_id a_quantity].
      now rewrite Hmap.
    + now rewrite IH.
Qed.

(** X9.  A request for a known, enabled court with no conflict, whose price
    can be worked out, whose equipment lines fit each on its own and that
    names no coach, is confirmed when the store takes its rows: one booking
    is appended, with the caller as owner, the requested interval, status
    "confirmed" and the returned price, together with one allocation for the
    court and one per equipment line, in order, each holding as resource
    what the store keeps for the line's SKU.  When the engine refuses the
    row of a SKU the request fails, and no booking is written. *)
Theorem create_booking_confirms :
  forall (now : datetime) (req : BookingRequest) (d : DB) (court : Court)
         (p : PriceResult),
    get_court (req_court_id req) d = Some court -> c_enabled court = true ->
    request_price req court d = Ok p ->
    ~ court_conflict req d ->
    Forall (line_fits d (overlapping_allocations (req_start_ts req) (req_end_ts req) d))
           (req_equipment req) ->
    truthy_id (req_coach_id req) = None ->
    match stored_refs (resource_id_column d) (req_equipment req) with
    | Some refs =>
        exists (user : User) (d1 : DB) (als : list BookingAllocation),
          fst (ensure_user (req_user_email req) d) = Returned user /\
          create_booking now req d
          = (Returned (Confirmed (next_id b_id (bookings d)) (total p) p), d1) /\
          bookings d1
          = bookings d ++ [mkBooking (next_id b_id (bookings d)) (u_id user)
                             (req_start_ts req) (req_end_ts req) "confirmed"
                             (total p) p now] /\
          booking_allocations d1 = booking_allocations d ++ als /\
          Forall (fun a => a_booking_id a = next_id b_id (bookings d)) als /\
          map (fun a => (a_resource_type a, a_resource_id a, a_quantity a)) als
          = ("court", RInt (req_court_id req), 1)
            :: map (fun x => ("equipment", snd x, requested_quantity (fst x)))
                   (combine (req_equipment req) refs)
    | None =>
        create_booking now req d
        = (Uncaught DBAPIError, snd (ensure_user (req_user_email req) d))
    end.
Proof.
  intros now req d court p Hc He Hp Hnc Hfit Hcoach.
  destruct (ensure_user_returns (req_user_email req) d) as (u & f & Hu).
  pose proof (create_booking_run now req d u f Hu court Hc He) as Hrun.
  rewrite Hp, (no_conflict_found _ _ _ _ _ Hnc) in Hrun.
  rewrite (for_each_equipment_fits (set_users f d) _ _ Hfit) in Hrun. cbn [fst] in Hrun.
  assert (Hck : forall al dd, check_coach al req dd = (Returned tt, dd)).
  { intros al dd. unfold check_coach. now rewrite Hcoach. }
  rewrite Hck in Hrun. cbn [fst] in Hrun. cbv zeta in Hrun. cbn [b_id] in Hrun.
  pose proof (equipment_rows_refs (resource_id_column d) (next_id b_id (bookings d))
                (req_equipment req) (next_id a_id (booking_allocations d) + 1)) as Hrows.
  unfold new_allocations in Hrun. rewrite Hcoach in Hrun.
  destruct (stored_refs (resource_id_column d) (req_equipment req)) as [refs|].
  - destruct Hrows as (rows & Erows & Hmap). rewrite Erows in Hrun.
    exists u. eexists _, _. rewrite Hu. split; [reflexivity|].
    split; [exact Hrun|]. split; [reflexivity|]. split; [reflexivity|]. split.
    + constructor; [reflexivity|]. rewrite app_nil_r. apply Forall_forall.
      intros a Ha. now apply (equipment_rows_kind _ _ _ _ _ _ Erows Ha).
    + rewrite app_nil_r. cbn [map a_resource_type a_resource_id a_quantity].
      now rewrite Hmap.
  - rewrite Hrows in Hrun. rewrite Hrun, Hu. reflexivity.
Qed.

(** Two lines of six rackets each, of the ten in stock: each line fits and
    the request is confirmed with both, kept as the text "racket". *)
Lemma create_booking_confirms_witness :
  exists (t : float) (p : PriceResult) (d1 : DB),
    create_booking (at_ monday 9 0)
      (mkBookingRequest "demo@courtbook.com" (at_ monday 10 0) (at_ monday 11 0) 1
                        [rackets 6; rackets 6] None None) seed_db
    = (Returned (Confirmed 1 t p), d1) /\
    map (fun a => (a_resource_id a, a_quantity a)) (booking_allocations d1)
    = [(RInt 1, 1); (RStr "racket", 6); (RStr "racket", 6)].
Proof.
  assert (Hp : exists p, request_price
              (mkBookingRequest "demo@courtbook.com" (at_ monday 10 0) (at_ monday 11 0) 1
                                [rackets 6; rackets 6] None None) court_1 seed_db = Ok p)
    by (eexists; vm_compute; reflexivity).
  destruct Hp as (p & Hp).
  pose proof (create_booking_confirms (at_ monday 9 0)
              (mkBookingRequest "demo@courtbook.com" (at_ monday 10 0) (at_ monday 11 0) 1
                                [rackets 6; rackets 6] None None) seed_db court_1 p
              eq_refl eq_refl Hp) as H.
  cbn [stored_refs fold_right req_equipment] in H.
  destruct H as (u & d1 & als & _ & Hrun & _ & Ha & _ & Hres).
  - intros H. apply conflict_found in H. vm_compute in H. discriminate H.
  - repeat constructor; exists (mkEquipmentItem 1 "racket" 10 true), 6;
      repeat split; vm_compute; congruence.
  - reflexivity.
  - exists (total p), p, d1. split; [exact Hrun|].
    rewrite Ha. change (booking_allocations seed_db) with (@nil BookingAllocation).
    cbn [app].
    apply (f_equal (map (fun x : string * resource_ref * Z => (snd (fst x), snd x))))
      in Hres.
    rewrite map_map in Hres. exact Hres.
Defined.

(** The validation blocks read the catalogue only. *)
Lemma for_each_equipment_ext (allocs : list BookingAllocation)
  (l : list EquipmentLine) (dA dB : DB) :
  equipment_items dA = equipment_items dB ->
  fst (for_each (check_equipment allocs) l dA) = fst (for_each (check_equipment allocs) l dB).
Proof.
  intros E. induction l as [|e l IH]; [reflexivity|].
  cbn [for_each]. unfold bind.
  pose proof (check_equipment_state allocs e dA) as SA.
  pose proof (check_equipment_state allocs e dB) as SB.
  assert (Hfst : fst (check_equipment allocs e dA) = fst (check_equipment allocs e dB)).
  { unfold check_equipment, bind, query, raise, ret, find_equipment. rewrite E.
    destruct (find _ (equipment_items dB)) as [item|]; [|reflexivity].
    destruct (negb (ei_active item)); [reflexivity|].
    destruct (line_quantity e); [|reflexivity].
    destruct (_ >? _); reflexivity. }
  destruct (check_equipment allocs e dA) as [rA dA'].
  destruct (check_equipment allocs e dB) as [rB dB'].
  cbn [fst snd] in *. subst dA' dB' rB. destruct rA; [exact IH | reflexivity | reflexivity].
Qed.

Lemma check_coach_ext (allocs : list BookingAllocation) (req : BookingRequest)
  (dA dB : DB) :
  coaches dA = coaches dB -> coach_availability dA = coach_availability dB ->
  fst (check_coach allocs req dA) = fst (check_coach allocs req dB).
Proof.
  intros Ec Ea. unfold check_coach, bind, query, raise, ret, get_coach, find_availability.
  destruct (truthy_id (req_coach_id req)) as [cid|]; [|reflexivity].
  cbv beta. rewrite Ec.
  destruct (match find _ (coaches dB) with Some c => negb (co_active c) | None => true end);
    [reflexivity|].
  destruct (existsb _ allocs); [reflexivity|].
  cbv beta zeta. rewrite Ea.
  destruct (find _ (coach_availability dB)) as [ca|]; [|reflexivity].
  destruct (_ || _); reflexivity.
Qed.

(** What a confirmation tells about the two validation blocks. *)
Lemma create_booking_confirmed_checks (now : datetime) (req : BookingRequest) (d d1 : DB)
  (id : Z) (t : float) (p : PriceResult) :
  create_booking now req d = (Returned (Confirmed id t p), d1) ->
  fst (for_each (check_equipment
                   (overlapping_allocations (req_start_ts req) (req_end_ts req) d))
                (req_equipment req) d) = Returned tt /\
  fst (check_coach (overlapping_allocations (req_start_ts req) (req_end_ts req) d) req d)
  = Returned tt.
Proof.
  intros H.
  destruct (ensure_user_returns (req_user_email req) d) as (u & f & Hu).
  destruct (get_court (req_court_id req) d) as [court|] eqn:Hc.
  - destruct (c_enabled court) eqn:He.
    + rewrite (create_booking_run now req d u f Hu court Hc He) in H.
      destruct (request_price req court d); [|discriminate H].
      destruct (existsb _ _); [discriminate H|].
      rewrite (for_each_equipment_ext _ _ d (set_users f d) eq_refl).
      rewrite (check_coach_ext _ _ d (set_users f d) eq_refl eq_refl).
      destruct (fst (for_each _ _ _)) as [[]| |]; [|discriminate H|discriminate H].
      destruct (fst (check_coach _ _ _)) as [[]| |]; [|discriminate H|discriminate H].
      split; reflexivity.
    + rewrite (create_booking_no_court now req d u f Hu) in H; [discriminate H|].
      right. now exists court.
  - rewrite (create_booking_no_court now req d u f Hu) in H; [discriminate H | now left].
Qed.

Lemma flat_map_ext_in {A B : Type} (f g : A -> list B) (l : list A) :
  (forall x, In x l -> f x = g x) -> flat_map f l = flat_map g l.
Proof.
  induction l as [|x l IH]; intros H; [reflexivity|].
  cbn [flat_map]. rewrite (H x (or_introl eq_refl)), IH; [reflexivity|].
  intros y Hy. apply H. now right.
Qed.

(** Booking and then cancelling leaves the overlapping allocations of every
    interval as they were. *)
Lemma book_cancel_allocations (now : datetime) (req : BookingRequest) (d d1 : DB)
  (id : Z) (t : float) (p : PriceResult) (s e : datetime) :
  create_booking now req d = (Returned (Confirmed id t p), d1) ->
  overlapping_allocations s e (snd (cancel_booking id d1)) = overlapping_allocations s e d.
Proof.
  intros Hc.
  destruct (confirmed_rows _ _ _ _ _ _ _ Hc)
    as (u & rows & Eid & Eb & Ea & _ & _ & _ & _ & Hrows & _).
  destruct (cancel_booking_tables id d1) as (Eb3 & Ea3 & _).
  set (B := mkBooking id (u_id u) (req_start_ts req) (req_end_ts req) "confirmed" t p now)
    in *.
  assert (Hget : get_booking id d1 = Some B).
  { unfold get_booking. rewrite Eb. apply (find_fresh_booking (bookings d) B). exact Eid. }
  rewrite Hget in Eb3.
  assert (Hold : map (set_status id "cancelled") (bookings d) = bookings d).
  { rewrite <- (map_id (bookings d)) at 2. apply map_ext_in. intros x Hx.
    unfold set_status. pose proof (next_id_gt b_id (bookings d) x Hx).
    assert (Hne : (b_id x =? id) = false) by (apply Z.eqb_neq; lia). now rewrite Hne. }
  unfold overlapping_allocations, overlapping_bookings, allocations_of.
  rewrite Eb3, Ea3, Eb, Ea, map_app, Hold, filter_app. cbn [map filter].
  unfold set_status at 1 2 3. cbn [b_id B]. rewrite Z.eqb_refl. cbn [b_status].
  rewrite andb_false_r. rewrite app_nil_r.
  apply flat_map_ext_in. intros b Hb. apply filter_In in Hb. destruct Hb as [Hb _].
  rewrite filter_app, (filter_none _ rows); [now rewrite app_nil_r|].
  intros a Ha. apply (new_allocations_owner _ _ _ _ _ _ Hrows) in Ha. apply Z.eqb_neq.
  pose proof (next_id_gt b_id (bookings d) b Hb). lia.
Qed.

(** X10.  Cancelling undoes a booking for admission: when a request was
    confirmed and its booking is cancelled, the same request is confirmed
    again, at the same price, under a new booking id. *)
Theorem rebook_after_cancel :
  forall (now now' : datetime) (req : BookingRequest) (d d1 : DB)
         (id : Z) (t : float) (p : PriceResult),
    create_booking now req d = (Returned (Confirmed id t p), d1) ->
    exists (id' : Z) (d4 : DB),
      create_booking now' req (snd (cancel_booking id d1))
      = (Returned (Confirmed id' t p), d4) /\ id < id'.
Proof.
  intros now now' req d d1 id t p Hc.
  pose proof (book_cancel_allocations _ _ _ _ _ _ _ (req_start_ts req) (req_end_ts req) Hc)
    as Hallocs.
  destruct (create_booking_confirmed_checks _ _ _ _ _ _ _ Hc) as [Heq Hco].
  destruct (create_booking_confirmed_inv _ _ _ _ _ _ _ Hc)
    as (u & f & court & rows & Hu & Hcourt & Hen & Hfree & Eid & Et & Ep & Hrows & Ed1).
  destruct (confirmed_rows _ _ _ _ _ _ _ Hc)
    as (u0 & rows0 & _ & Eb & Ea & _ & Ecs & Epr & _ & _ & _ & _ & _ & Ecol).
  destruct (cancel_booking_tables id d1)
    as (Eb3 & Ea3 & Ew3 & Eu3 & Ec3 & Ee3 & Eco3 & Eav3 & Er3 & Ecol3).
  set (d3 := snd (cancel_booking id d1)) in *.
  assert (Hu3 : ensure_user (req_user_email req) d3 = (Returned u, set_users (fun l => l) d3)).
  { rewrite set_users_id, ensure_user_run.
    assert (Hf : find_user (req_user_email req) d3 = Some u).
    { unfold find_user. rewrite Eu3. rewrite Ed1. cbn [users set_audit_events
        set_booking_allocations set_bookings].
      apply (ensure_user_found _ d (set_users f d) u Hu). }
    now rewrite Hf. }
  assert (Hcourt3 : get_court (req_court_id req) d3 = Some court).
  { unfold get_court. rewrite Ec3, Ecs. exact Hcourt. }
  assert (Eget : forall cid, get_coach cid d3 = get_coach cid d).
  { intros cid. unfold get_coach. rewrite Eco3, Ed1. reflexivity. }
  assert (Ep3 : request_price req court d3 = Ok p).
  { rewrite <- Ep. unfold request_price, request_coach. rewrite Er3, Epr.
    destruct (truthy_id (req_coach_id req)); [now rewrite Eget | reflexivity]. }
  pose proof (create_booking_run now' req d3 u _ Hu3 court Hcourt3 Hen) as Hrun.
  rewrite Ep3, Hallocs, Hfree in Hrun.
  assert (Ecat : equipment_items d1 = equipment_items d /\ coaches d1 = coaches d /\
                 coach_availability d1 = coach_availability d).
  { rewrite Ed1. repeat split. }
  destruct Ecat as (Ee1 & Eco1 & Eav1).
  rewrite (for_each_equipment_ext _ _ (set_users (fun l => l) d3) d) in Hrun
    by (cbn [equipment_items set_users]; congruence).
  rewrite (check_coach_ext _ _ (set_users (fun l => l) d3) d) in Hrun
    by (cbn [coaches coach_availability set_users]; congruence).
  rewrite Heq, Hco in Hrun. cbv zeta in Hrun. cbn [b_id] in Hrun.
  rewrite Ecol3, Ecol in Hrun.
  destruct (new_allocations_some (resource_id_column d)
              (next_id a_id (booking_allocations d3)) (next_id b_id (bookings d3)) req)
    as (rows3 & Erows3).
  { clear - Hrows. unfold new_allocations in Hrows.
    apply Forall_forall. intros e He Hnone.
    assert (G : forall l next, In e l ->
                  equipment_rows (resource_id_column d) id next l = None).
    { induction l as [|x l IH]; intros next Hin; [destruct Hin|].
      destruct Hin as [-> | Hin]; cbn [equipment_rows].
      - now rewrite Hnone.
      - rewrite (IH (next + 1) Hin). now destruct (stored_sku _ (el_sku x)). }
    rewrite (G _ _ He) in Hrows. discriminate Hrows. }
  rewrite Erows3 in Hrun. rewrite <- Et in Hrun.
  eexists _, _. split; [exact Hrun|].
  cbn [b_id].
  assert (Hin : In (set_status id "cancelled"
                      (mkBooking id (u_id u0) (req_start_ts req) (req_end_ts req)
                                 "confirmed" t p now)) (bookings d3)).
  { assert (Hget : exists B, get_booking id d1 = Some B).
    { eexists. unfold get_booking. rewrite Eb.
      apply (find_fresh_booking (bookings d)
               (mkBooking id (u_id u0) (req_start_ts req) (req_end_ts req)
                          "confirmed" t p now)).
      exact Eid. }
    destruct Hget as (B & Hget). rewrite Hget in Eb3. rewrite Eb3, Eb.
    apply in_map. apply in_or_app. right. now left. }
  pose proof (next_id_gt b_id (bookings d3) _ Hin) as Hlt.
  now rewrite set_status_id in Hlt.
Qed.

(** user3 books, cancels and books again. *)
Lemma rebook_after_cancel_witness :
  exists (id' : Z) (t : float) (p : PriceResult) (d4 : DB),
    create_booking (at_ monday 9 30) req_a (snd (cancel_booking 1 booked_db))
    = (Returned (Confirmed id' t p), d4) /\ 1 < id'.
Proof.
  destruct scenario_confirmed as (t & p & Ha).
  destruct (rebook_after_cancel (at_ monday 9 0) (at_ monday 9 30) req_a seed_db booked_db
              1 t p Ha) as (id' & d4 & H & Hlt).
  exists id', t, p, d4. split; assumption.
Defined.

Lemma set_status_twice (id : Z) (st : string) (b : Booking) :
  set_status id st (set_status id st b) = set_status id st b.
Proof.
  unfold set_status. destruct (b_id b =? id) eqn:E; cbn [b_id]; now rewrite E.
Qed.

(** X11.  Cancelling is repeatable: a second [cancel_booking] of the same
    booking is not rejected, returns what the first returned and leaves the
    bookings as the first left them. *)
Theorem cancel_booking_twice :
  forall (id : Z) (d : DB) (b : Booking),
    get_booking id d = Some b ->
    fst (cancel_booking id (snd (cancel_booking id d))) = fst (cancel_booking id d) /\
    bookings (snd (cancel_booking id (snd (cancel_booking id d))))
    = bookings (snd (cancel_booking id d)).
Proof.
  intros id d b Hb.
  destruct (cancel_booking_tables id d) as (Eb & Ea & Ew & _).
  rewrite Hb in Eb.
  set (d1 := snd (cancel_booking id d)) in *.
  assert (Hb1 : get_booking id d1 = Some (set_status id "cancelled" b)).
  { unfold get_booking. rewrite Eb. now apply find_set_status. }
  destruct (cancel_booking_tables id d1) as (Eb2 & _). rewrite Hb1 in Eb2.
  split.
  - rewrite (cancel_booking_run id d1 _ Hb1), (cancel_booking_run id d b Hb).
    assert (Eh : cancel_slot_hash (set_status id "cancelled" b) d1 = cancel_slot_hash b d).
    { unfold cancel_slot_hash, allocations_of. rewrite Ea, set_status_id.
      unfold set_status. now destruct (b_id b =? id). }
    rewrite Eh, Ew. destruct (earliest _); reflexivity.
  - rewrite Eb2, Eb, map_map. apply map_ext. intros x. apply set_status_twice.
Qed.

(** user3 cancels twice while user4 waits: user4 is named both times. *)
Lemma cancel_booking_twice_witness :
  fst (cancel_booking 1 (snd (cancel_booking 1 waitlisted_db)))
  = Returned (Cancelled (Some 4)).
Proof.
  destruct (cancel_booking_twice 1 waitlisted_db _ eq_refl) as [H _].
  rewrite H. vm_compute. reflexivity.
Defined.

(** X12.  A confirmed booking can be read back: [get_booking] on the
    returned id gives status "confirmed", the requested interval, the
    returned total and, as pricing snapshot, the returned price result; the
    read changes nothing. *)
Theorem confirmed_booking_read_back :
  forall (now : datetime) (req : BookingRequest) (d d1 : DB)
         (id : Z) (t : float) (p : PriceResult),
    create_booking now req d = (Returned (Confirmed id t p), d1) ->
    exists b : Booking,
      Handlers.get_booking id d1 = (Returned b, d1) /\
      b_id b = id /\ b_status b = "confirmed" /\
      b_start_ts b = req_start_ts req /\ b_end_ts b = req_end_ts req /\
      b_total_price b = t /\ b_pricing_snapshot b = p /\ t = total p /\
      exists u, find_user (req_user_email req) d1 = Some u /\ b_user_id b = u_id u.
Proof.
  intros now req d d1 id t p Hc.
  destruct (create_booking_confirmed_inv _ _ _ _ _ _ _ Hc)
    as (u & f & court & rows & Hu & _ & _ & _ & Eid & Et & _ & _ & Ed1).
  assert (Hfind : get_booking id d1
                  = Some (mkBooking id (u_id u) (req_start_ts req) (req_end_ts req)
                                    "confirmed" t p now)).
  { unfold get_booking. rewrite Ed1.
    cbn [bookings set_audit_events set_booking_allocations set_bookings set_users].
    apply (find_fresh_booking (bookings d)
             (mkBooking id (u_id u) (req_start_ts req) (req_end_ts req)
                        "confirmed" t p now) Eid). }
  eexists. unfold Handlers.get_booking, bind, query, ret, raise. rewrite Hfind.
  split; [reflexivity|]. cbn [b_id b_status b_start_ts b_end_ts b_total_price
                              b_pricing_snapshot b_user_id].
  repeat split; trivial.
  exists u. split; [|reflexivity].
  rewrite Ed1. apply (ensure_user_found _ d (set_users f d) u Hu).
Qed.

(** user3's booking. *)
Lemma confirmed_booking_read_back_witness :
  exists b : Booking,
    Handlers.get_booking 1 booked_db = (Returned b, booked_db) /\
    b_status b = "confirmed" /\ b_total_price b = 800%float.
Proof.
  destruct scenario_confirmed as (t & p & Ha).
  destruct (confirmed_booking_read_back _ _ _ _ _ _ _ Ha)
    as (b & Hget & _ & Hst & _ & _ & Ht & _).
  exists b. split; [exact Hget|]. split; [exact Hst|].
  rewrite Ht. vm_compute in Ha. now injection Ha as <- _.
Defined.

(** X13.  A stored booking keeps its owner, interval, total and pricing
    snapshot through every later request and cancellation: [create_booking]
    leaves it as it is and [cancel_booking] changes its status at most. *)
Theorem booking_snapshot_kept :
  forall (b : Booking) (d : DB),
    In b (bookings d) ->
    (forall now req, In b (bookings (snd (create_booking now req d)))) /\
    (forall id, exists b',
        In b' (bookings (snd (cancel_booking id d))) /\
        b_id b' = b_id b /\ b_user_id b' = b_user_id b /\
        b_start_ts b' = b_start_ts b /\ b_end_ts b' = b_end_ts b /\
        b_total_price b' = b_total_price b /\
        b_pricing_snapshot b' = b_pricing_snapshot b /\
        (b_status b' = b_status b \/ b_status b' = "cancelled")).
Proof.
  intros b d Hb. split.
  - intros now req.
    destruct (create_booking now req d) as [[[id t p | w | n] | err | x] d1] eqn:E; cbn [snd].
    2-5: assert (Hn : forall id t p, fst (create_booking now req d)
                                     <> Returned (Confirmed id t p))
           by (intros; rewrite E; discriminate);
         destruct (create_booking_not_confirmed now req d Hn) as [Eb _];
         rewrite E in Eb; cbn [snd] in Eb; now rewrite Eb.
    destruct (confirmed_rows _ _ _ _ _ _ _ E) as (u & rows & _ & Eb & _).
    rewrite Eb. apply in_or_app. now left.
  - intros id. destruct (cancel_booking_tables id d) as (Eb & _). rewrite Eb.
    destruct (get_booking id d).
    + exists (set_status id "cancelled" b). split; [now apply in_map|].
      unfold set_status. destruct (b_id b =? id); cbn; repeat split; auto.
    + exists b. repeat split; auto.
Qed.

(** user3's booking after user4's request and after its cancellation. *)
Lemma booking_snapshot_kept_witness :
  exists b' : Booking,
    In b' (bookings (snd (cancel_booking 1 booked_db))) /\
    b_id b' = 1 /\ b_total_price b' = 800%float.
Proof.
  destruct (bookings booked_db) as [|b l] eqn:Eb; [vm_compute in Eb; discriminate Eb|].
  assert (Hb : In b (bookings booked_db)) by (rewrite Eb; left; reflexivity).
  destruct (booking_snapshot_kept b booked_db Hb) as [_ Hcancel].
  destruct (Hcancel 1) as (b' & Hin & Hid & _ & _ & _ & Ht & _).
  exists b'. split; [exact Hin|]. rewrite Hid, Ht.
  vm_compute in Eb. injection Eb as <- _. split; reflexivity.
Defined.

(** X14.  [simulate_pricing] only reads, rejects an unknown court with 404,
    and quotes what a booking is charged: when a request without equipment
    and coach is confirmed, the quote for its court and interval on the
    store before the request is the price result the confirmation
    returns. *)
Theorem simulate_pricing_quotes_charge :
  (forall (s e : datetime) (court_id : Z) (d : DB),
     snd (Handlers.simulate_pricing s e court_id d) = d /\
     (get_court court_id d = None ->
      fst (Handlers.simulate_pricing s e court_id d)
      = Raised (mkHTTPException 404 "court not found"))) /\
  (forall (now : datetime) (req : BookingRequest) (d d1 : DB)
          (id : Z) (t : float) (p : PriceResult),
     create_booking now req d = (Returned (Confirmed id t p), d1) ->
     req_equipment req = [] -> truthy_id (req_coach_id req) = None ->
     Handlers.simulate_pricing (req_start_ts req) (req_end_ts req) (req_court_id req) d
     = (Returned p, d) /\
     Handlers.simulate_pricing (req_start_ts req) (req_end_ts req) (req_court_id req) d1
     = (Returned p, d1) /\
     total p = t).
Proof.
  split.
  - intros s e court_id d. unfold Handlers.simulate_pricing, bind, query, raise.
    destruct (get_court court_id d) as [c|]; [|split; reflexivity].
    rewrite compute_price_run. split; [reflexivity | discriminate].
  - intros now req d d1 id t p Hc Heq Hco.
    destruct (create_booking_confirmed_inv _ _ _ _ _ _ _ Hc)
      as (u & f & court & rows & _ & Hcourt & _ & _ & _ & Et & Ep & _).
    destruct (confirmed_rows _ _ _ _ _ _ _ Hc)
      as (u0 & rows0 & _ & _ & _ & _ & Ecs & Epr & _).
    unfold request_price, request_coach in Ep. rewrite Heq, Hco in Ep.
    unfold Handlers.simulate_pricing, bind, query, raise, get_court.
    rewrite Ecs. fold (get_court (req_court_id req) d). rewrite Hcourt.
    rewrite !compute_price_run, Epr, Ep. repeat split. now symmetry.
Qed.

(** The demo user's plain booking of court 1 and its quote. *)
Lemma simulate_pricing_quotes_charge_witness :
  exists p : PriceResult,
    Handlers.simulate_pricing (at_ monday 19 0) (at_ monday 20 0) 1 seed_db
    = (Returned p, seed_db) /\ total p = 900%float.
Proof.
  destruct simulate_pricing_quotes_charge as [_ Hq].
  destruct (create_booking (at_ monday 9 0)
              (mkBookingRequest "demo@courtbook.com" (at_ monday 19 0) (at_ monday 20 0) 1
                                [] None None) seed_db) as [r d1] eqn:E.
  assert (Er : exists id p, r = Returned (Confirmed id 900 p)).
  { replace r with (fst (create_booking (at_ monday 9 0)
              (mkBookingRequest "demo@courtbook.com" (at_ monday 19 0) (at_ monday 20 0) 1
                                [] None None) seed_db)) by now rewrite E.
    eexists _, _. vm_compute. reflexivity. }
  destruct Er as (id & p & ->).
  destruct (Hq _ _ _ _ _ _ _ E eq_refl eq_refl) as (H & _ & Ht).
  exists p. split; [exact H | exact Ht].
Defined.

(** The courts [get_availability] collects: enabled, of the requested type
    when one is given, and free of overlapping confirmed allocations. *)
Lemma available_courts_spec :
  forall (s e : datetime) (court_type : option string) (d : DB) (cv : CourtView),
    In cv (map court_view
             (filter (fun court => negb (is_booked s e court d))
                (if truthy_str court_type then
                   filter (fun c => PyStr.opt_eqb (Some (CourtType_value (c_type c)))
                                                  court_type)
                          (filter c_enabled (courts d))
                 else filter c_enabled (courts d)))) <->
    exists c : Court,
      In c (courts d) /\ cv = court_view c /\ c_enabled c = true /\
      (truthy_str court_type = true ->
       court_type = Some (CourtType_value (c_type c))) /\
      ~ resource_conflict "court" (RInt (c_id c)) s e d.
Proof.
  intros s e court_type d cv. rewrite in_map_iff. split.
  - intros (c & <- & Hc). apply filter_In in Hc. destruct Hc as [Hc Hfree].
    apply negb_true_iff in Hfree.
    assert (Hnc : ~ resource_conflict "court" (RInt (c_id c)) s e d).
    { intros H. apply conflict_found in H. unfold is_booked in Hfree. congruence. }
    exists c. destruct (truthy_str court_type) eqn:Ht.
    + apply filter_In in Hc. destruct Hc as [Hc Hty]. apply filter_In in Hc.
      destruct Hc as [Hc Hen]. apply opt_eqb_eq in Hty.
      repeat split; auto.
    + apply filter_In in Hc. destruct Hc as [Hc Hen].
      repeat split; auto. discriminate.
  - intros (c & Hc & -> & Hen & Hty & Hnc). exists c. split; [reflexivity|].
    apply filter_In. split.
    + destruct (truthy_str court_type) eqn:Ht.
      * apply filter_In. split; [apply filter_In; now split|].
        apply opt_eqb_eq. symmetry. now apply Hty.
      * apply filter_In. now split.
    + apply negb_true_iff. unfold is_booked. now apply no_conflict_found.
Qed.

(** X15.  [get_availability] only reads, and lists a court exactly when it
    is enabled, of the requested type when one is given, and not held by a
    confirmed booking overlapping the window. *)
Theorem get_availability_lists_free_courts :
  forall (s e : datetime) (court_type : option string) (d : DB),
    exists av : Availability,
      Handlers.get_availability s e court_type d = (Returned av, d) /\
      forall cv : CourtView,
        In cv (available_courts av) <->
        exists c : Court,
          In c (courts d) /\ cv = court_view c /\ c_enabled c = true /\
          (truthy_str court_type = true ->
           court_type = Some (CourtType_value (c_type c))) /\
          ~ resource_conflict "court" (RInt (c_id c)) s e d.
Proof.
  intros s e court_type d. eexists. split; [reflexivity|].
  intros cv. cbn [available_courts]. apply available_courts_spec.
Qed.

(** X16.  Availability and admission agree: for a known, enabled court and
    a request whose price can be worked out, the court is listed by
    [get_availability] for an interval exactly when a booking request for
    that court and interval is not waitlisted. *)
Theorem listed_court_not_waitlisted :
  forall (now : datetime) (req : BookingRequest) (d : DB) (court : Court)
         (p : PriceResult),
    get_court (req_court_id req) d = Some court -> c_enabled court = true ->
    request_price req court d = Ok p ->
    (In (court_view court)
        (match fst (Handlers.get_availability (req_start_ts req) (req_end_ts req) None d)
         with
         | Returned av => available_courts av
         | _ => []
         end)
     <-> forall w, fst (create_booking now req d) <> Returned (Waitlisted w)).
Proof.
  intros now req d court p Hc Hen Hp.
  eapply iff_trans;
    [exact (available_courts_spec (req_start_ts req) (req_end_ts req) None d
                                  (court_view court))|].
  pose proof (find_some _ _ Hc) as [Hin Hid]. apply Z.eqb_eq in Hid.
  destruct (ensure_user_returns (req_user_email req) d) as (u & f & Hu).
  rewrite (create_booking_run now req d u f Hu court Hc Hen), Hp.
  split.
  - intros (c & _ & Ev & _ & _ & Hnc) w.
    assert (Eid : c_id c = req_court_id req).
    { apply (f_equal cv_court_id) in Ev. cbn in Ev. congruence. }
    rewrite Eid in Hnc. rewrite (no_conflict_found _ _ _ _ _ Hnc).
    destruct (fst (for_each _ _ _)); [|discriminate|discriminate].
    destruct (fst (check_coach _ _ _)); [|discriminate|discriminate].
    cbv zeta. destruct (new_allocations _ _ _ _); discriminate.
  - intros Hnw. exists court. repeat split; auto; [discriminate|].
    rewrite Hid. intros Hconf. apply conflict_found in Hconf. rewrite Hconf in Hnw.
    eapply Hnw. reflexivity.
Qed.

(** Court 3 is taken on Monday 16:00-17:00, court 4 is free. *)
Lemma listed_court_not_waitlisted_witness :
  (forall w, fst (create_booking (at_ monday 9 5)
                    (mkBookingRequest "user4@example.com" (at_ monday 16 0)
                                      (at_ monday 17 0) 4 [] None None) booked_db)
             <> Returned (Waitlisted w)) /\
  ~ In (court_view court_3)
       (match fst (Handlers.get_availability (at_ monday 16 0) (at_ monday 17 0) None
                     booked_db) with
        | Returned av => available_courts av
        | _ => []
        end).
Proof.
  assert (Hp4 : exists p, request_price
                  (mkBookingRequest "user4@example.com" (at_ monday 16 0)
                                    (at_ monday 17 0) 4 [] None None) court_4 booked_db
                = Ok p) by (eexists; vm_compute; reflexivity).
  assert (Hp3 : exists p, request_price req_b court_3 booked_db = Ok p)
    by (eexists; vm_compute; reflexivity).
  destruct Hp4 as (p4 & Hp4). destruct Hp3 as (p3 & Hp3).
  pose proof (listed_court_not_waitlisted (at_ monday 9 5)
                (mkBookingRequest "user4@example.com" (at_ monday 16 0)
                                  (at_ monday 17 0) 4 [] None None) booked_db court_4 p4
                eq_refl eq_refl Hp4) as [H4 _].
  pose proof (listed_court_not_waitlisted (at_ monday 9 5) req_b booked_db court_3 p3
                eq_refl eq_refl Hp3) as [H3 _].
  split.
  - apply H4. vm_compute. right. right. left. reflexivity.
  - intros Hin. apply (H3 Hin 1). vm_compute. reflexivity.
Defined.

(* ================================================================== *)
(** ** More on the price engine *)
(* ================================================================== *)

Lemma insert_desc_head (x : PricingRule) (l : list PricingRule) :
  (forall y, In y l -> pr_priority y <= pr_priority x) -> insert_desc x l = x :: l.
Proof.
  destruct l as [|y l]; [reflexivity|]. intros H. cbn [insert_desc].
  specialize (H y (or_introl eq_refl)).
  assert (E : (pr_priority x <? pr_priority y) = false) by (apply Z.ltb_ge; lia).
  now rewrite E.
Qed.

(** Filtering commutes with insertion into a sorted list. *)
Lemma filter_insert_desc (P : PricingRule -> bool) (x : PricingRule) (l : list PricingRule) :
  StronglySorted priority_ge l ->
  filter P (insert_desc x l)
  = if P x then insert_desc x (filter P l) else filter P l.
Proof.
  induction 1 as [|y l Hs IH Hall]; cbn [insert_desc filter].
  - now destruct (P x).
  - destruct (pr_priority x <? pr_priority y) eqn:E.
    + cbn [filter]. rewrite IH. destruct (P y), (P x); cbn [insert_desc]; try reflexivity.
      now rewrite E.
    + apply Z.ltb_ge in E. cbn [filter]. destruct (P x); [|reflexivity].
      symmetry. apply insert_desc_head. intros z Hz.
      assert (Hz' : In z (y :: l)).
      { destruct (P y).
        - destruct Hz as [<- | Hz]; [now left | right; apply filter_In in Hz; tauto].
        - right. apply filter_In in Hz. tauto. }
      destruct Hz' as [<- | Hz']; [lia|].
      rewrite Forall_forall in Hall. specialize (Hall z Hz').
      unfold priority_ge in Hall. lia.
Qed.

Lemma filter_sort_desc (P : PricingRule -> bool) (l : list PricingRule) :
  filter P (sort_desc l) = sort_desc (filter P l).
Proof.
  induction l as [|x l IH]; [reflexivity|].
  change (sort_desc (x :: l)) with (insert_desc x (sort_desc l)).
  rewrite filter_insert_desc by apply sort_desc_sorted.
  cbn [filter]. rewrite IH. now destruct (P x).
Qed.

(** X17.  The sort of the applicable rules is stable: rules of one
    priority come out in the order they went in. *)
Theorem sort_desc_stable :
  forall (l : list PricingRule) (p : Z),
    filter (fun r => pr_priority r =? p) (sort_desc l)
    = filter (fun r => pr_priority r =? p) l.
Proof.
  intros l p. rewrite filter_sort_desc.
  assert (H : forall l', (forall r, In r l' -> pr_priority r = p) -> sort_desc l' = l').
  { induction l' as [|x l' IH]; intros Hp; [reflexivity|].
    change (sort_desc (x :: l')) with (insert_desc x (sort_desc l')).
    rewrite IH by (intros r Hr; apply Hp; now right).
    apply insert_desc_head. intros y Hy.
    rewrite (Hp y (or_intror Hy)), (Hp x (or_introl eq_refl)). lia. }
  apply H. intros r Hr. apply filter_In in Hr. destruct Hr as [_ Hr].
  now apply Z.eqb_eq.
Qed.

Lemma strftime_a_lower (s : datetime) :
  PyStr.lower (PyStr.take3 (PyStr.lower (strftime_a s)))
  = nth (Z.to_nat (weekday s)) all_days "".
Proof.
  unfold strftime_a, strftime_A.
  assert (H : 0 <= weekday s < 7) by (unfold weekday; apply Z.mod_pos_bound; lia).
  assert (Hn : (Z.to_nat (weekday s) < 7)%nat) by lia.
  destruct (Z.to_nat (weekday s)) as [|[|[|[|[|[|[|n]]]]]]]; try reflexivity. lia.
Qed.

(** X18.  Day matching.  A rule whose only clause is a non-empty day list
    applies exactly when some listed day, cut to its first three letters
    and lower-cased, is the abbreviation of the weekday of the start: case
    and the letters after the third do not matter.  A rule with an empty
    day list is not restricted by day. *)
Theorem rule_applies_days :
  forall (rj : RuleJson) (m : MatchClause) (tgt : Target) (s e : datetime),
    rj_match rj = Some m ->
    (mc_start m = None \/ mc_end m = None) -> rj_applies_to rj = None ->
    (mc_days m = [] -> rule_applies rj tgt s e = true) /\
    (mc_days m <> [] ->
     (rule_applies rj tgt s e = true <->
      exists day, In day (mc_days m) /\
                  PyStr.lower (PyStr.take3 day) = nth (Z.to_nat (weekday s)) all_days "")).
Proof.
  intros rj m tgt s e Hm Hwin Ha.
  assert (Hw : match mc_start m, mc_end m with
               | Some st, Some et =>
                   negb ((st <=? time_of s) && (time_of s <? et))
               | _, _ => false
               end = false).
  { destruct Hwin as [-> | ->]; [reflexivity | now destruct (mc_start m)]. }
  unfold rule_applies. rewrite Hm, Hw, Ha. cbn [truthy_str andb].
  split.
  - intros ->. reflexivity.
  - intros Hne. destruct (mc_days m) as [|d0 days] eqn:Ed; [contradiction|].
    rewrite strftime_a_lower. unfold PyStr.mem.
    set (key := nth (Z.to_nat (weekday s)) all_days "").
    destruct (existsb _ _) eqn:Ex; cbn [negb].
    + split; [intros _|reflexivity].
      apply existsb_exists in Ex. destruct Ex as (k & Hk & Ek).
      apply in_map_iff in Hk. destruct Hk as (day & <- & Hday).
      exists day. split; [exact Hday|]. apply String.eqb_eq in Ek. now symmetry.
    + split; [discriminate|]. intros (day & Hday & Ek).
      assert (Ht : existsb (String.eqb key)
                     (map (fun d => PyStr.lower (PyStr.take3 d)) (d0 :: days)) = true).
      { apply existsb_exists. exists (PyStr.lower (PyStr.take3 day)).
        split; [exact (in_map (fun d => PyStr.lower (PyStr.take3 d)) _ _ Hday)|].
        rewrite Ek. apply String.eqb_refl. }
      congruence.
Qed.

(** "MONDAY" and "Tues" name Monday and Tuesday. *)
Lemma rule_applies_days_witness :
  rule_applies (mkRuleJson (Some (mkMatch ["MONDAY"; "Tues"] None None)) None (pct 10) Missing)
               indoor_target (at_ monday 10 0) (at_ monday 11 0) = true /\
  rule_applies (mkRuleJson (Some (mkMatch ["MONDAY"; "Tues"] None None)) None (pct 10) Missing)
               indoor_target (at_ (monday + 2) 10 0) (at_ (monday + 2) 11 0) = false.
Proof.
  split.
  - destruct (rule_applies_days
                (mkRuleJson (Some (mkMatch ["MONDAY"; "Tues"] None None)) None (pct 10) Missing)
                (mkMatch ["MONDAY"; "Tues"] None None) indoor_target
                (at_ monday 10 0) (at_ monday 11 0) eq_refl (or_introl eq_refl) eq_refl)
      as [_ H].
    apply H; [discriminate|]. exists "MONDAY". split; [now left | reflexivity].
  - destruct (rule_applies_days
                (mkRuleJson (Some (mkMatch ["MONDAY"; "Tues"] None None)) None (pct 10) Missing)
                (mkMatch ["MONDAY"; "Tues"] None None) indoor_target
                (at_ (monday + 2) 10 0) (at_ (monday + 2) 11 0)
                eq_refl (or_introl eq_refl) eq_refl)
      as [_ H].
    apply not_true_is_false. intros E. apply H in E; [|discriminate].
    destruct E as (day & [<- | [<- | []]] & Ek); vm_compute in Ek; discriminate Ek.
Defined.

(** The line items the equipment loop adds. *)
Lemma fold_add_equipment_items (l : list EquipmentLine) (items items' : list LineItem)
  (acc acc' : num) :
  fold_result add_equipment l (items, acc) = Ok (items', acc') ->
  items' = items ++ flat_map equipment_item l /\
  Forall (fun e => exists a, equipment_amount e = Ok a) l.
Proof.
  revert items acc. induction l as [|e l IH]; intros items acc; cbn [fold_result].
  - intros [= <- <-]. cbn. now rewrite app_nil_r.
  - cbn [flat_map]. unfold equipment_item at 1.
    destruct (add_equipment (items, acc) e) as [[items1 acc1]|x] eqn:E; [|discriminate].
    cbn [rbind]. unfold add_equipment in E.
    destruct (equipment_amount e) as [amount|x] eqn:Ea; [|discriminate E].
    cbn [rbind] in E.
    destruct (add acc amount) as [n|x]; [|discriminate E]. cbn [rbind] in E.
    injection E as <- <-.
    intros H. apply IH in H. destruct H as [-> Hall]. split.
    + destruct (truthy amount); [now rewrite <- app_assoc | reflexivity].
    + constructor; [now exists amount | exact Hall].
Qed.

(** X19.  The line items of a price that is worked out: first the court's
    base, then one item per equipment line whose fee times quantity is not
    zero, in request order, then the coach's fee when a coach is given; and
    the amount of every equipment line could be worked out. *)
Theorem price_line_items :
  forall (rules : list PricingRule) (court : Court) (s e : datetime)
         (equipment : list EquipmentLine) (coach : option Coach) (r : PriceResult),
    price_with_rules rules court s e equipment coach = Ok r ->
    line_items r
    = mkLineItem ("Court " ++ c_name court ++ " base")%string
                 (PFloat (float_of_Z (or_zero (c_base_hourly court)) * duration_hours s e))
      :: flat_map equipment_item equipment
      ++ match coach with
         | Some c =>
             [mkLineItem ("Coach " ++ co_name c)%string
                (PFloat (float_of_Z (or_zero (co_hourly_rate c)) * duration_hours s e))]
         | None => []
         end /\
    Forall (fun l => exists a, equipment_amount l = Ok a) equipment.
Proof.
  intros rules court s e equipment coach r. rewrite price_with_rules_steps.
  destruct (fold_result apply_rule _ _) as [[t1 bd]|x]; [|discriminate].
  destruct (fold_result add_equipment equipment _) as [[items1 n]|x] eqn:Ei; [|discriminate].
  destruct (to_float n) as [f|x]; [|discriminate].
  apply fold_add_equipment_items in Ei. destruct Ei as [-> Hall].
  intros [= <-]. split; [|exact Hall].
  unfold base_items, court_base, coach_fee.
  destruct coach; cbn [line_items app]; [reflexivity | now rewrite app_nil_r].
Qed.

(** Three rackets at a fee of 50 and a line at no fee, with coach A: the
    base, one equipment item of 150, the coach. *)
Lemma price_line_items_witness :
  exists r : PriceResult,
    price_with_rules [] court_1 (at_ monday 10 0) (at_ monday 11 0)
      [mkEquipmentLine (Some "racket") (Val 3) (Some (PInt 50)) Missing; rackets 2]
      (Some (mkCoach 1 "Coach A" (Some 300) true)) = Ok r /\
    map li_name (line_items r) = ["Court court_1 base"; "Equipment racket"; "Coach Coach A"].
Proof.
  eexists. split; [vm_compute; reflexivity|].
  match goal with
  | |- map li_name (line_items ?r) = _ =>
      destruct (price_line_items [] court_1 (at_ monday 10 0) (at_ monday 11 0)
                  [mkEquipmentLine (Some "racket") (Val 3) (Some (PInt 50)) Missing;
                   rackets 2]
                  (Some (mkCoach 1 "Coach A" (Some 300) true)) r) as [H _];
        [vm_compute; reflexivity|]
  end.
  rewrite H. vm_compute. reflexivity.
Defined.

(** One turn of the rule loop: the entry it may append, and the running
    total as the last [after]. *)
Lemma apply_rule_breakdown (base0 t t' : float) (bd bd' : list BreakdownEntry)
  (r : PricingRule) :
  apply_rule (t, bd) r = Ok (t', bd') ->
  last (map bd_after bd) base0 = t ->
  map (fun x => (bd_name x, bd_modifier x)) bd'
  = map (fun x => (bd_name x, bd_modifier x)) bd ++ breakdown_key r /\
  last (map bd_after bd') base0 = t'.
Proof.
  unfold apply_rule, breakdown_key.
  destruct (modifier_type (pr_rule_json r)) as [typ|x]; [|discriminate]. cbn [rbind].
  destruct (PyStr.opt_eqb typ (Some "percentage")).
  - destruct (percentage_total _ _ _) as [t1|x]; [|discriminate]. cbn [rbind].
    intros [= <- <-] _. rewrite !map_app. cbn [map]. rewrite last_last.
    split; reflexivity.
  - destruct (PyStr.opt_eqb typ (Some "absolute")).
    + destruct (modifier_value _) as [v|]; [|discriminate].
      destruct (to_float v) as [f|x]; [|discriminate]. cbn [rbind].
      intros [= <- <-] _. rewrite !map_app. cbn [map]. rewrite last_last.
      split; reflexivity.
    + intros [= <- <-] Hlast. rewrite app_nil_r. split; [reflexivity | exact Hlast].
Qed.

Lemma fold_apply_rule_breakdown (base0 : float) (l : list PricingRule) (t t' : float)
  (bd bd' : list BreakdownEntry) :
  fold_result apply_rule l (t, bd) = Ok (t', bd') ->
  last (map bd_after bd) base0 = t ->
  map (fun x => (bd_name x, bd_modifier x)) bd'
  = map (fun x => (bd_name x, bd_modifier x)) bd ++ flat_map breakdown_key l /\
  last (map bd_after bd') base0 = t'.
Proof.
  revert t bd. induction l as [|r l IH]; intros t bd; cbn [fold_result flat_map].
  - intros [= <- <-] Hlast. rewrite app_nil_r. split; [reflexivity | exact Hlast].
  - destruct (apply_rule (t, bd) r) as [[t1 bd1]|x] eqn:E; [|discriminate].
    cbn [rbind]. intros Hf Hlast.
    destruct (apply_rule_breakdown base0 t t1 bd bd1 r E Hlast) as [Hk Hl].
    destruct (IH _ _ Hf Hl) as [Hk' Hl'].
    rewrite Hk', Hk, <- app_assoc. split; [reflexivity | exact Hl'].
Qed.

(** X20.  The rule breakdown of a price that is worked out is an audit
    trail of the fold: it lists, in the order of application, exactly the
    applicable rules whose modifier type is "percentage" or "absolute",
    each under its name and modifier, and its last [after] is the total the
    rules leave, before the equipment and coach fees (the base when no rule
    is listed). *)
Theorem price_breakdown_audit :
  forall (rules : list PricingRule) (court : Court) (s e : datetime)
         (equipment : list EquipmentLine) (coach : option Coach) (r : PriceResult),
    price_with_rules rules court s e equipment coach = Ok r ->
    let sorted :=
      sort_desc (filter (fun x => rule_applies (pr_rule_json x)
                                    (mkTarget (Some (CourtType_value (c_type court)))) s e)
                        rules) in
    map (fun x => (bd_name x, bd_modifier x)) (rule_breakdown r)
    = flat_map breakdown_key sorted /\
    fold_result rule_total sorted (base r)
    = Ok (last (map bd_after (rule_breakdown r)) (base r)).
Proof.
  intros rules court s e equipment coach r. cbv zeta. rewrite price_with_rules_steps.
  unfold applied_rules.
  set (srt := sort_desc _). set (b := court_base court s e).
  pose proof (fold_apply_rule_total srt b []) as Ht.
  destruct (fold_result apply_rule srt (b, [])) as [[t1 bd]|x] eqn:Ef; [|discriminate].
  destruct (fold_apply_rule_breakdown b srt b t1 [] bd Ef eq_refl) as [Hk Hl].
  destruct (fold_result add_equipment _ _) as [[items1 n]|x]; [|discriminate].
  destruct (to_float n) as [f|x]; [|discriminate].
  cbn [rbind fst] in Ht.
  intros [= <-].
  destruct coach; cbn [rule_breakdown base]; rewrite Hk, Hl; split; auto.
Qed.

(** Court 1 at the Monday peak: the peak surcharge, then the indoor
    premium, leaving 900. *)
Lemma price_breakdown_audit_witness :
  exists r : PriceResult,
    price_with_rules (filter pr_enabled (pricing_rules seed_db)) court_1
      (at_ monday 18 0) (at_ monday 19 0) [] None = Ok r /\
    map bd_name (rule_breakdown r) = ["Peak 18-21"; "Indoor +25"] /\
    fold_result rule_total
      (sort_desc (filter (fun x => rule_applies (pr_rule_json x)
                                     (mkTarget (Some "indoor"))
                                     (at_ monday 18 0) (at_ monday 19 0))
                         (filter pr_enabled (pricing_rules seed_db))))
      (base r)
    = Ok (last (map bd_after (rule_breakdown r)) (base r)).
Proof.
  eexists. split; [vm_compute; reflexivity|].
  match goal with
  | |- map bd_name (rule_breakdown ?r) = _ /\ _ =>
      destruct (price_breakdown_audit (filter pr_enabled (pricing_rules seed_db)) court_1
                  (at_ monday 18 0) (at_ monday 19 0) [] None r) as [Hk Hl];
        [vm_compute; reflexivity|]
  end.
  split; [vm_compute; reflexivity | exact Hl].
Defined.

(* ================================================================== *)
(** ** Rule and court administration *)
(* ================================================================== *)

Lemma enabled_after_disable_or_delete (id : Z) (l : list PricingRule) :
  filter pr_enabled (map (patch_rule id (mkRuleUpdate None (Some false) None None)) l)
  = filter pr_enabled (filter (fun r => negb (pr_id r =? id)) l).
Proof.
  induction l as [|r l IH]; [reflexivity|].
  cbn [map filter]. destruct (pr_id r =? id) eqn:E.
  - assert (H : pr_enabled (patch_rule id (mkRuleUpdate None (Some false) None None) r)
                = false) by (unfold patch_rule; now rewrite E).
    rewrite H. cbn [negb]. exact IH.
  - assert (H : patch_rule id (mkRuleUpdate None (Some false) None None) r = r)
      by (unfold patch_rule; now rewrite E).
    rewrite H. cbn [negb filter]. now rewrite IH.
Qed.

(** X21.  For pricing, disabling a rule is deleting it: after
    [update_pricing_rule] with [enabled = false] and after
    [delete_pricing_rule] of the same id, every price is the same. *)
Theorem disabled_rule_priced_as_deleted :
  forall (id : Z) (d : DB) (court : Court) (s e : datetime)
         (equipment : list EquipmentLine) (coach : option Coach),
    fst (compute_price court s e equipment coach
           (snd (Handlers.update_pricing_rule id
                   (mkRuleUpdate None (Some false) None None) d)))
    = fst (compute_price court s e equipment coach
             (snd (Handlers.delete_pricing_rule id d))).
Proof.
  intros id d court s e equipment coach. rewrite !compute_price_run. cbn [fst].
  apply (f_equal (fun rules => match price_with_rules rules court s e equipment coach with
                               | Ok r => Returned r
                               | Err x => Uncaught x
                               end)).
  unfold Handlers.update_pricing_rule, Handlers.delete_pricing_rule,
    bind, query, ret, raise, commit.
  destruct (get_rule id d) as [pr|] eqn:Hg; [|reflexivity].
  assert (Hid : pr_id pr = id).
  { apply find_some in Hg. destruct Hg as [_ Hg]. now apply Z.eqb_eq. }
  cbn [snd pricing_rules set_pricing_rules]. rewrite Hid.
  now rewrite enabled_after_disable_or_delete.
Qed.

Lemma find_fresh_rule (l : list PricingRule) (r : PricingRule) :
  pr_id r = next_id pr_id l ->
  find (fun x => pr_id x =? pr_id r) (l ++ [r]) = Some r.
Proof.
  intros Hid.
  assert (H : forall l', (forall x, In x l' -> pr_id x < pr_id r) ->
                         find (fun x => pr_id x =? pr_id r) (l' ++ [r]) = Some r).
  { induction l' as [|x l' IH]; intros Hlt; cbn [find app].
    - now rewrite Z.eqb_refl.
    - destruct (pr_id x =? pr_id r) eqn:E.
      + apply Z.eqb_eq in E. specialize (Hlt x (or_introl eq_refl)). lia.
      + apply IH. intros y Hy. apply Hlt. now right. }
  apply H. intros x Hx. rewrite Hid. now apply next_id_gt.
Qed.

(** X22.  A created rule can be read back.  For a payload that carries a
    name and whose other keys are either left out or hold a value,
    [create_pricing_rule] returns an id no stored rule has, the rule is
    found under it with the name of the payload, the values of the keys it
    gives and, for the keys it leaves out, enabled, priority 0 and an empty
    rule document; [list_pricing_rules] then shows the old rules followed
    by the new one. *)
Theorem created_rule_read_back :
  forall (rule : RuleCreate) (d : DB),
    exists (id : Z) (d' : DB),
      Handlers.create_pricing_rule rule d = (Returned (Created id), d') /\
      (forall r, In r (pricing_rules d) -> pr_id r < id) /\
      get_rule id d'
      = Some (mkPricingRule id (rc_name rule)
                (match rc_enabled rule with Some b => b | None => true end)
                (match rc_priority rule with Some p => p | None => 0 end)
                (match rc_rule_json rule with
                 | Some j => j
                 | None => mkRuleJson None None Missing Missing
                 end)) /\
      Handlers.list_pricing_rules d'
      = (Returned (pricing_rules d
                   ++ [mkPricingRule id (rc_name rule)
                         (match rc_enabled rule with Some b => b | None => true end)
                         (match rc_priority rule with Some p => p | None => 0 end)
                         (match rc_rule_json rule with
                          | Some j => j
                          | None => mkRuleJson None None Missing Missing
                          end)]), d').
Proof.
  intros rule d. eexists _, _. split; [reflexivity|].
  split; [intros r Hr; now apply next_id_gt|]. split; [|reflexivity].
  unfold get_rule. cbn [pricing_rules set_pricing_rules].
  apply (find_fresh_rule (pricing_rules d) (mkPricingRule _ _ _ _ _)). reflexivity.
Qed.

Lemma find_patch_rule (id j : Z) (u : RuleUpdate) (l : list PricingRule) :
  find (fun x => pr_id x =? j) (map (patch_rule id u) l)
  = option_map (patch_rule id u) (find (fun x => pr_id x =? j) l).
Proof.
  induction l as [|x l IH]; [reflexivity|]. cbn [map find].
  assert (E : pr_id (patch_rule id u x) = pr_id x)
    by (unfold patch_rule; now destruct (pr_id x =? id)).
  rewrite E. destruct (pr_id x =? j); [reflexivity | exact IH].
Qed.

Lemma find_delete_rule (id j : Z) (l : list PricingRule) :
  find (fun x => pr_id x =? j) (filter (fun r => negb (pr_id r =? id)) l)
  = if j =? id then None else find (fun x => pr_id x =? j) l.
Proof.
  induction l as [|x l IH]; [now destruct (j =? id)|]. cbn [filter find].
  destruct (pr_id x =? id) eqn:Ei; cbn [negb find].
  - rewrite IH. destruct (j =? id) eqn:Ej; [reflexivity|].
    apply Z.eqb_eq in Ei. apply Z.eqb_neq in Ej.
    assert (E : (pr_id x =? j) = false) by (apply Z.eqb_neq; lia). now rewrite E.
  - rewrite IH. destruct (pr_id x =? j) eqn:Exj; [|reflexivity].
    apply Z.eqb_eq in Exj. apply Z.eqb_neq in Ei.
    assert (E : (j =? id) = false) by (apply Z.eqb_neq; lia). now rewrite E.
Qed.

(** X23.  Updating and deleting rules by id: on an id with no rule both
    raise 404 "rule not found" and change nothing; on a stored rule, an
    update whose keys are either left out or hold a value replaces exactly
    the keys it gives on that rule, a delete removes the rule, and every
    rule with another id is left as it was. *)
Theorem rule_update_delete_lookup :
  forall (id : Z) (d : DB),
    (get_rule id d = None ->
     (forall u, Handlers.update_pricing_rule id u d
                = (Raised (mkHTTPException 404 "rule not found"), d)) /\
     Handlers.delete_pricing_rule id d
     = (Raised (mkHTTPException 404 "rule not found"), d)) /\
    (forall r, get_rule id d = Some r ->
       (forall u,
          fst (Handlers.update_pricing_rule id u d) = Returned (Updated id) /\
          forall j, get_rule j (snd (Handlers.update_pricing_rule id u d))
                    = if j =? id
                      then Some (mkPricingRule id
                             (match ru_name u with Some n => n | None => pr_name r end)
                             (match ru_enabled u with Some b => b | None => pr_enabled r end)
                             (match ru_priority u with Some p => p | None => pr_priority r end)
                             (match ru_rule_json u with
                              | Some x => x
                              | None => pr_rule_json r
                              end))
                      else get_rule j d) /\
       fst (Handlers.delete_pricing_rule id d) = Returned Deleted /\
       forall j, get_rule j (snd (Handlers.delete_pricing_rule id d))
                 = if j =? id then None else get_rule j d).
Proof.
  intros id d. split.
  - intros Hn. unfold Handlers.update_pricing_rule, Handlers.delete_pricing_rule,
      bind, query, raise. rewrite Hn. split; reflexivity.
  - intros r Hr.
    assert (Hid : pr_id r = id).
    { apply find_some in Hr. destruct Hr as [_ Hr]. now apply Z.eqb_eq. }
    unfold Handlers.update_pricing_rule, Handlers.delete_pricing_rule,
      bind, query, raise, ret, commit. rewrite Hr, Hid. cbn [fst snd].
    split; [|split; [reflexivity|]].
    + intros u. split; [reflexivity|]. intros j.
      unfold get_rule at 1. cbn [pricing_rules set_pricing_rules].
      rewrite find_patch_rule. fold (get_rule j d).
      destruct (j =? id) eqn:Ej.
      * apply Z.eqb_eq in Ej. subst j. rewrite Hr. cbn [option_map].
        unfold patch_rule. now rewrite Hid, Z.eqb_refl.
      * destruct (get_rule j d) as [x|] eqn:Hx; [|reflexivity]. cbn [option_map].
        assert (Hxj : pr_id x = j).
        { apply find_some in Hx. destruct Hx as [_ Hx]. now apply Z.eqb_eq. }
        unfold patch_rule. rewrite Hxj, Ej. reflexivity.
    + intros j. unfold get_rule at 1. cbn [pricing_rules set_pricing_rules].
      apply find_delete_rule.
Qed.

(** On the seeded rules: raising the peak surcharge to 50%, and deleting the
    weekend rule. *)
Lemma rule_update_delete_lookup_witness :
  option_map (fun r => modifier_value (pr_rule_json r))
    (get_rule 1 (snd (Handlers.update_pricing_rule 1
                        (mkRuleUpdate None None None
                           (Some (mkRuleJson (rj_match (pr_rule_json rule_peak)) None
                                             (pct 50) (Val "additive"))))
                        seed_db)))
  = Some (Some (PInt 50)) /\
  get_rule 2 (snd (Handlers.delete_pricing_rule 2 seed_db)) = None /\
  Handlers.delete_pricing_rule 9 seed_db
  = (Raised (mkHTTPException 404 "rule not found"), seed_db).
Proof.
  split; [|split].
  - destruct (rule_update_delete_lookup 1 seed_db) as [_ H].
    destruct (H rule_peak eq_refl) as [Hu _].
    destruct (Hu (mkRuleUpdate None None None
                    (Some (mkRuleJson (rj_match (pr_rule_json rule_peak)) None
                                      (pct 50) (Val "additive"))))) as [_ Hj].
    rewrite (Hj 1). reflexivity.
  - destruct (rule_update_delete_lookup 2 seed_db) as [_ H].
    destruct (H rule_weekend eq_refl) as (_ & _ & Hj).
    rewrite (Hj 2). reflexivity.
  - destruct (rule_update_delete_lookup 9 seed_db) as [H _].
    destruct (H eq_refl) as [_ Hd]. exact Hd.
Defined.

Lemma find_delete_court (id : Z) (l : list Court) :
  find (fun c => c_id c =? id) (filter (fun x => negb (c_id x =? id)) l) = None.
Proof.
  induction l as [|x l IH]; [reflexivity|]. cbn [filter].
  destruct (c_id x =? id) eqn:E; cbn [negb find]; [exact IH|]. now rewrite E.
Qed.

(** X24.  After [delete_court], whatever it returned, every booking request
    for that court is rejected with 400 "court unavailable" and writes no
    booking, allocation or waitlist entry, while the bookings and
    allocations made for the court before stay in the store. *)
Theorem deleted_court_rejects_requests :
  forall (court_id : Z) (d : DB) (now : datetime) (req : BookingRequest),
    req_court_id req = court_id ->
    let d' := snd (Handlers.delete_court court_id d) in
    bookings d' = bookings d /\ booking_allocations d' = booking_allocations d /\
    fst (create_booking now req d') = Raised (mkHTTPException 400 "court unavailable") /\
    bookings (snd (create_booking now req d')) = bookings d /\
    booking_allocations (snd (create_booking now req d')) = booking_allocations d /\
    waitlist_entries (snd (create_booking now req d')) = waitlist_entries d.
Proof.
  intros court_id d now req Hreq d'.
  assert (Hd : bookings d' = bookings d /\ booking_allocations d' = booking_allocations d /\
               waitlist_entries d' = waitlist_entries d /\ get_court court_id d' = None).
  { subst d'. unfold Handlers.delete_court, bind, query, raise, ret, commit.
    destruct (get_court court_id d) as [c|] eqn:Hc; cbn [snd]; [|repeat split; exact Hc].
    assert (Hid : c_id c = court_id).
    { apply find_some in Hc. destruct Hc as [_ Hc]. now apply Z.eqb_eq. }
    repeat split. unfold get_court. cbn [courts set_courts]. rewrite Hid.
    apply find_delete_court. }
  destruct Hd as (Eb & Ea & Ew & Hnone).
  destruct (ensure_user_returns (req_user_email req) d') as (u & f & Hu).
  rewrite (create_booking_no_court now req d' u f Hu) by (left; now rewrite Hreq).
  cbn [fst snd bookings booking_allocations waitlist_entries set_users].
  repeat split; assumption.
Qed.

(** Court 3 is deleted while user3's booking is confirmed on it. *)
Lemma deleted_court_rejects_requests_witness :
  fst (create_booking (at_ monday 9 5) req_b (snd (Handlers.delete_court 3 booked_db)))
  = Raised (mkHTTPException 400 "court unavailable") /\
  bookings (snd (Handlers.delete_court 3 booked_db)) = bookings booked_db.
Proof.
  destruct (deleted_court_rejects_requests 3 booked_db (at_ monday 9 5) req_b eq_refl)
    as (Hb & _ & Hr & _).
  split; [exact Hr | exact Hb].
Defined.

(** Booking, then any changes that leave bookings and allocations alone,
    then cancelling: the overlapping allocations of every interval are what
    they were before the booking. *)
Lemma book_cancel_allocations_later (now : datetime) (req : BookingRequest) (d d1 d2 : DB)
  (id : Z) (t : float) (p : PriceResult) (s e : datetime) :
  create_booking now req d = (Returned (Confirmed id t p), d1) ->
  bookings d2 = bookings d1 -> booking_allocations d2 = booking_allocations d1 ->
  overlapping_allocations s e (snd (cancel_booking id d2)) = overlapping_allocations s e d.
Proof.
  intros Hc Eb2 Ea2.
  rewrite <- (book_cancel_allocations now req d d1 id t p s e Hc).
  destruct (cancel_booking_tables id d2) as (Eb & Ea & _).
  destruct (cancel_booking_tables id d1) as (Eb' & Ea' & _).
  unfold get_booking in Eb, Eb'. rewrite Eb2 in Eb.
  unfold overlapping_allocations, overlapping_bookings, allocations_of.
  rewrite Eb, Ea, Eb', Ea', Ea2.
  now destruct (find _ (bookings d1)); rewrite ?Eb2.
Qed.

(** A price that can be worked out with equipment and coach can be worked
    out without them: the rule fold is the same. *)
Lemma price_without_addons (rules : list PricingRule) (court : Court) (s e : datetime)
  (equipment : list EquipmentLine) (coach : option Coach) (p : PriceResult) :
  price_with_rules rules court s e equipment coach = Ok p ->
  exists p', price_with_rules rules court s e [] None = Ok p'.
Proof.
  rewrite !price_with_rules_steps.
  destruct (fold_result apply_rule _ _) as [[t1 bd]|x]; [|discriminate].
  intros _. cbn [fold_result]. eexists. reflexivity.
Qed.

(** X25.  The waitlisted caller's retry.  When one request is confirmed, a
    second is waitlisted and the first booking is cancelled, a new request
    for the confirmed court and interval, without equipment or coach, is
    confirmed. *)
Theorem retry_after_cancel_confirmed :
  forall (now now' now'' : datetime) (req req' retry : BookingRequest) (d d1 d2 : DB)
         (id w : Z) (t : float) (p : PriceResult),
    create_booking now req d = (Returned (Confirmed id t p), d1) ->
    create_booking now' req' d1 = (Returned (Waitlisted w), d2) ->
    req_court_id retry = req_court_id req ->
    req_start_ts retry = req_start_ts req -> req_end_ts retry = req_end_ts req ->
    req_equipment retry = [] -> truthy_id (req_coach_id retry) = None ->
    exists (id' : Z) (t' : float) (p' : PriceResult) (d4 : DB),
      create_booking now'' retry (snd (cancel_booking id d2))
      = (Returned (Confirmed id' t' p'), d4).
Proof.
  intros now now' now'' req req' retry d d1 d2 id w t p Hc Hw Ec Es Ee Heq Hco.
  destruct (create_booking_waitlisted_inv _ _ _ _ _ Hw) as (u' & f' & _ & _ & Ed2).
  assert (Eb2 : bookings d2 = bookings d1) by now rewrite Ed2.
  assert (Ea2 : booking_allocations d2 = booking_allocations d1) by now rewrite Ed2.
  assert (Ec2 : courts d2 = courts d1) by now rewrite Ed2.
  pose proof (book_cancel_allocations_later now req d d1 d2 id t p
                (req_start_ts req) (req_end_ts req) Hc Eb2 Ea2) as Hallocs.
  assert (Er2 : pricing_rules d2 = pricing_rules d1) by now rewrite Ed2.
  destruct (create_booking_confirmed_inv _ _ _ _ _ _ _ Hc)
    as (u0 & f0 & court & rows & _ & Hcourt & Hen & Hfree & _ & _ & Ep & _).
  destruct (confirmed_rows _ _ _ _ _ _ _ Hc)
    as (u1 & rows1 & _ & _ & _ & _ & Ecs & Epr & _).
  destruct (cancel_booking_tables id d2)
    as (_ & _ & _ & _ & Ec3 & _ & _ & _ & Er3 & _).
  set (d3 := snd (cancel_booking id d2)) in *.
  destruct (ensure_user_returns (req_user_email retry) d3) as (u & f & Hu).
  assert (Hcourt3 : get_court (req_court_id retry) d3 = Some court).
  { unfold get_court. rewrite Ec3, Ec2, Ecs, Ec. exact Hcourt. }
  destruct (price_without_addons _ _ _ _ _ _ _ Ep) as (p3 & Hp3).
  assert (Ep3 : request_price retry court d3 = Ok p3).
  { unfold request_price, request_coach. rewrite Hco, Heq, Es, Ee, Er3, Er2, Epr.
    exact Hp3. }
  pose proof (create_booking_run now'' retry d3 u f Hu court Hcourt3 Hen) as Hrun.
  rewrite Ep3 in Hrun.
  rewrite Es, Ee, Ec, Hallocs, Hfree, Heq in Hrun. cbn [for_each ret fst] in Hrun.
  assert (Hck : forall al dd, check_coach al retry dd = (Returned tt, dd)).
  { intros al dd. unfold check_coach. now rewrite Hco. }
  rewrite Hck in Hrun. cbn [fst] in Hrun. cbv zeta in Hrun.
  unfold new_allocations in Hrun. rewrite Heq in Hrun. cbn [equipment_rows] in Hrun.
  eexists _, _, _, _. exact Hrun.
Qed.

(** user4, waitlisted behind user3, asks again after the cancellation. *)
Lemma retry_after_cancel_confirmed_witness :
  exists (id' : Z) (t' : float) (p' : PriceResult) (d4 : DB),
    create_booking (at_ monday 9 30) req_b (snd (cancel_booking 1 waitlisted_db))
    = (Returned (Confirmed id' t' p'), d4).
Proof.
  destruct scenario_confirmed as (t & p & Ha).
  exact (retry_after_cancel_confirmed (at_ monday 9 0) (at_ monday 9 5) (at_ monday 9 30)
           req_a req_b req_b seed_db booked_db waitlisted_db 1 1 t p Ha scenario_waitlisted
           eq_refl eq_refl eq_refl eq_refl eq_refl).
Defined.

Lemma booked_quantity_app (sku : option string) (l1 l2 : list BookingAllocation) :
  booked_quantity sku (l1 ++ l2) = booked_quantity sku l1 + booked_quantity sku l2.
Proof.
  unfold booked_quantity.
  assert (H : forall l acc,
            fold_left (fun a x => if is_alloc "equipment" (sku_ref sku) x
                                  then a + a_quantity x else a) l acc
            = acc + fold_left (fun a x => if is_alloc "equipment" (sku_ref sku) x
                                          then a + a_quantity x else a) l 0).
  { induction l as [|x l IH]; intros acc; cbn [fold_left]; [lia|].
    destruct (is_alloc "equipment" (sku_ref sku) x).
    - rewrite (IH (acc + a_quantity x)), (IH (0 + a_quantity x)). lia.
    - apply IH. }
  rewrite fold_left_app, H. reflexivity.
Qed.

Lemma booked_quantity_other (sku : option string) (a : BookingAllocation) :
  a_resource_type a <> "equipment" -> booked_quantity sku [a] = 0.
Proof.
  intros Ha. unfold booked_quantity, is_alloc. cbn [fold_left].
  destruct (String.eqb (a_resource_type a) "equipment") eqn:E; [|reflexivity].
  apply String.eqb_eq in E. contradiction.
Qed.

(** The quantity counted for a SKU among the equipment rows of a
    confirmation: the sum over the lines the store keeps under that text. *)
Lemma booked_quantity_rows (column : string -> option resource_ref) (k : string)
  (booking_id : Z) (l : list EquipmentLine) (next : Z) (rows : list BookingAllocation) :
  equipment_rows column booking_id next l = Some rows ->
  booked_quantity (Some k) rows
  = fold_right (fun e acc => if kept_as column k e then requested_quantity e + acc else acc)
               0 l.
Proof.
  revert next rows. induction l as [|e l IH]; intros next rows; cbn [equipment_rows].
  - intros [= <-]. reflexivity.
  - cbn [fold_right]. unfold kept_as at 1.
    destruct (stored_sku column (el_sku e)) as [r|]; [|discriminate].
    destruct (equipment_rows column booking_id (next + 1) l) as [rest|] eqn:E;
      [|discriminate].
    intros [= <-]. change (?a :: rest) with ([a] ++ rest).
    rewrite booked_quantity_app, (IH _ _ E).
    unfold booked_quantity at 1, is_alloc.
    cbn [fold_left a_resource_type a_resource_id a_quantity sku_ref].
    rewrite String.eqb_refl. cbn [andb].
    destruct (resource_ref_eqb r (RStr k)); lia.
Qed.

Lemma booked_quantity_new (column : string -> option resource_ref) (k : string)
  (first_id booking_id : Z) (req : BookingRequest) (rows : list BookingAllocation) :
  new_allocations column first_id booking_id req = Some rows ->
  booked_quantity (Some k) rows
  = fold_right (fun e acc => if kept_as column k e then requested_quantity e + acc else acc)
               0 (req_equipment req).
Proof.
  unfold new_allocations.
  destruct (equipment_rows column booking_id (first_id + 1) (req_equipment req))
    as [erows|] eqn:E; [|discriminate].
  intros [= <-]. change (?a :: erows ++ ?c) with ([a] ++ erows ++ c).
  rewrite !booked_quantity_app, (booked_quantity_rows _ _ _ _ _ _ E).
  rewrite booked_quantity_other by discriminate.
  destruct (truthy_id (req_coach_id req));
    [rewrite booked_quantity_other by discriminate|]; cbn; lia.
Qed.

(** X26.  Equipment bookkeeping.  In a store whose allocations are owned,
    a confirmation raises the quantity the equipment loop counts for a SKU
    over an interval by the quantities of the request's lines that the
    store keeps under that very text, when the confirmed interval overlaps
    it, and by nothing when it does not.  A line whose SKU the store keeps
    as anything else (an integer, for a text that reads as one in an
    integer column) adds nothing to the count of any SKU. *)
Theorem confirmed_equipment_booked :
  forall (now : datetime) (req : BookingRequest) (d d1 : DB)
         (id : Z) (t : float) (p : PriceResult) (k : string) (s e : datetime),
    allocations_owned d ->
    create_booking now req d = (Returned (Confirmed id t p), d1) ->
    booked_quantity (Some k) (overlapping_allocations s e d1)
    = booked_quantity (Some k) (overlapping_allocations s e d)
      + if (req_start_ts req <? e) && (s <? req_end_ts req)
        then fold_right (fun l acc => if kept_as (resource_id_column d) k l
                                      then requested_quantity l + acc else acc)
                        0 (req_equipment req)
        else 0.
Proof.
  intros now req d d1 id t p k s e Hown Hc.
  destruct (confirmed_rows _ _ _ _ _ _ _ Hc)
    as (u & rows & Eid & Eb & Ea & _ & _ & _ & _ & Hrows & _).
  pose proof (confirmed_allocations _ _ _ _ _ _ _ Hown Hc) as Hnew.
  rewrite Hrows in Hnew. injection Hnew as Hnew.
  assert (Hsplit : overlapping_allocations s e d1
                   = overlapping_allocations s e d
                     ++ if (req_start_ts req <? e) && (s <? req_end_ts req)
                        then rows else []).
  { unfold overlapping_allocations, overlapping_bookings, allocations_of.
    rewrite Eb, filter_app, flat_map_app. f_equal.
    - apply flat_map_ext_in. intros b Hb. apply filter_In in Hb. destruct Hb as [Hb _].
      rewrite Ea, filter_app, (filter_none _ rows); [now rewrite app_nil_r|].
      intros a Ha. apply (new_allocations_owner _ _ _ _ _ _ Hrows) in Ha. apply Z.eqb_neq.
      pose proof (next_id_gt b_id (bookings d) b Hb). lia.
    - cbn [filter b_start_ts b_end_ts b_status]. rewrite String.eqb_refl, andb_true_r.
      destruct ((req_start_ts req <? e) && (s <? req_end_ts req)); [|reflexivity].
      cbn [flat_map b_id]. rewrite Hnew. apply app_nil_r. }
  rewrite Hsplit, booked_quantity_app. f_equal.
  destruct ((req_start_ts req <? e) && (s <? req_end_ts req)); [|reflexivity].
  exact (booked_quantity_new _ _ _ _ _ _ Hrows).
Qed.

(** After user3's booking with two rackets, two rackets are counted over
    16:30-17:30 and none over 17:00-18:00; after user3's booking with three
    units of "42", none is counted. *)
Lemma confirmed_equipment_booked_witness :
  booked_quantity (Some "racket")
    (overlapping_allocations (at_ monday 16 30) (at_ monday 17 30) booked_db) = 2 /\
  booked_quantity (Some "racket")
    (overlapping_allocations (at_ monday 17 0) (at_ monday 18 0) booked_db) = 0 /\
  booked_quantity (Some "42")
    (overlapping_allocations (at_ monday 10 0) (at_ monday 11 0)
       (snd (create_booking (at_ monday 9 0) req_g numeric_db))) = 0.
Proof.
  destruct scenario_confirmed as (t & p & Ha).
  assert (Hown : allocations_owned seed_db) by (intros a []).
  assert (Hown' : allocations_owned numeric_db) by (intros a []).
  assert (Hg : exists t p, create_booking (at_ monday 9 0) req_g numeric_db
                           = (Returned (Confirmed 1 t p),
                              snd (create_booking (at_ monday 9 0) req_g numeric_db))).
  { eexists _, _. rewrite (surjective_pairing (create_booking _ _ _)) at 1.
    f_equal. vm_compute. reflexivity. }
  destruct Hg as (tg & pg & Hg).
  split; [|split].
  - rewrite (confirmed_equipment_booked _ _ _ _ _ _ _ "racket"
               (at_ monday 16 30) (at_ monday 17 30) Hown Ha). reflexivity.
  - rewrite (confirmed_equipment_booked _ _ _ _ _ _ _ "racket"
               (at_ monday 17 0) (at_ monday 18 0) Hown Ha). reflexivity.
  - rewrite (confirmed_equipment_booked _ _ _ _ _ _ _ "42"
               (at_ monday 10 0) (at_ monday 11 0) Hown' Hg). reflexivity.
Defined.

(** X29.  A SKU that reads as an integer is never counted.  On a store
    whose integer column gives "42" back as the integer 42, with five units
    of "42" in the catalogue, two requests for three units each over the
    same hour are both confirmed: the rows hold the integer, the equipment
    loop compares them with the text, and it counts nothing as booked. *)
Theorem numeric_sku_overbooked :
  exists (t1 t2 : float) (p1 p2 : PriceResult) (d1 d2 : DB),
    create_booking (at_ monday 9 0) req_g numeric_db = (Returned (Confirmed 1 t1 p1), d1) /\
    create_booking (at_ monday 9 5) req_h d1 = (Returned (Confirmed 2 t2 p2), d2) /\
    find_equipment (Some "42") d2 = Some (mkEquipmentItem 3 "42" 5 true) /\
    map (fun a => (a_resource_id a, a_quantity a))
        (filter (fun a => String.eqb (a_resource_type a) "equipment")
                (overlapping_allocations (at_ monday 10 0) (at_ monday 11 0) d2))
    = [(RInt 42, 3); (RInt 42, 3)] /\
    booked_quantity (Some "42")
      (overlapping_allocations (at_ monday 10 0) (at_ monday 11 0) d2) = 0.
Proof.
  eexists _, _, _, _, _, _.
  split; [vm_compute; reflexivity|].
  split; [vm_compute; reflexivity|].
  repeat split; vm_compute; reflexivity.
Qed.

(** X30.  The price comes first.  For a known, enabled court,
    [create_booking] works out the price before it looks for conflicts: when
    the price engine raises, the request fails with that exception, whether
    the court is free or taken, and nothing but the caller's user row is
    written. *)
Theorem unpriced_request_fails :
  forall (now : datetime) (req : BookingRequest) (d : DB) (court : Court) (x : exn),
    get_court (req_court_id req) d = Some court -> c_enabled court = true ->
    request_price req court d = Err x ->
    create_booking now req d = (Uncaught x, snd (ensure_user (req_user_email req) d)).
Proof.
  intros now req d court x Hc He Hp.
  destruct (ensure_user_returns (req_user_email req) d) as (u & f & Hu).
  rewrite (create_booking_run now req d u f Hu court Hc He), Hp, Hu. reflexivity.
Qed.

(** A racket line with a null quantity on the court user3 holds: TypeError,
    and no waitlist entry. *)
Lemma unpriced_request_fails_witness :
  court_conflict req_null booked_db /\
  fst (create_booking (at_ monday 9 5) req_null booked_db) = Uncaught TypeError /\
  waitlist_entries (snd (create_booking (at_ monday 9 5) req_null booked_db)) = [].
Proof.
  rewrite (unpriced_request_fails (at_ monday 9 5) req_null booked_db court_3 TypeError
             eq_refl eq_refl eq_refl).
  split; [apply conflict_found; vm_compute; reflexivity|].
  split; reflexivity.
Defined.


(* ================================================================== *)
(** ** Slots and booking history *)
(* ================================================================== *)

(** The loop, given enough turns, lists the half hours from [current] up to
    [end_]. *)
Lemma slots_loop_spec (n : nat) (turns : nat) (current end_ : datetime) :
  (n < turns)%nat ->
  current + Z.of_nat n * (30 * us_per_minute) >= end_ ->
  (n = 0%nat \/ current + (Z.of_nat n - 1) * (30 * us_per_minute) < end_) ->
  Handlers.slots_loop turns current end_
  = map (fun k => (current + Z.of_nat k * (30 * us_per_minute),
                   current + (Z.of_nat k + 1) * (30 * us_per_minute)))
        (seq 0 n).
Proof.
  assert (Hstep : 30 * us_per_minute > 0) by (vm_compute; reflexivity).
  set (step := 30 * us_per_minute) in *.
  revert turns current. induction n as [|n IH]; intros turns current Hlt Hge Hlast.
  - destruct turns as [|turns]; [lia|]. cbn [Handlers.slots_loop seq map].
    assert (E : (current <? end_) = false) by (apply Z.ltb_ge; lia). now rewrite E.
  - destruct turns as [|turns]; [lia|]. cbn [Handlers.slots_loop].
    assert (E : (current <? end_) = true).
    { apply Z.ltb_lt. destruct Hlast as [Hz | Hl]; [discriminate|]. nia. }
    rewrite E. cbv zeta. change (30 * us_per_minute) with step.
    rewrite (IH turns (current + step)).
    + cbn [seq map]. f_equal; [f_equal; lia|].
      rewrite <- seq_shift, map_map. apply map_ext. intros k. f_equal; lia.
    + lia.
    + lia.
    + destruct n as [|n]; [now left|]. right. destruct Hlast as [Hz | Hl]; [discriminate|].
      lia.
Qed.

(** X27.  [get_slots_for_date] only reads; an unreadable date gives 400;
    for a date it lists the 26 half hours from 08:00 to 21:00 of that day,
    each slot starting where the one before ends, together with every
    enabled court and every active coach, whatever is booked. *)
Theorem get_slots_for_date_half_hours :
  forall d : DB,
    Handlers.get_slots_for_date None d
    = (Raised (mkHTTPException 400 "Invalid date format (use ISO)"), d) /\
    forall day : Z,
    exists v : SlotsView,
      Handlers.get_slots_for_date (Some day) d = (Returned v, d) /\
      sv_slots v
      = map (fun k => (mk_datetime day 8 0 0 + Z.of_nat k * (30 * us_per_minute),
                       mk_datetime day 8 0 0 + (Z.of_nat k + 1) * (30 * us_per_minute)))
            (seq 0 26) /\
      sv_courts v = map court_view_id (filter c_enabled (courts d)) /\
      map (fun c => fst (fst c)) (sv_coaches v) = map co_id (filter co_active (coaches d)).
Proof.
  intros d. split; [reflexivity|]. intros day. eexists. split; [reflexivity|].
  cbn [sv_slots sv_courts sv_coaches]. split; [|split; [reflexivity|]].
  - assert (E : mk_datetime day 21 0 0 = mk_datetime day 8 0 0 + 26 * (30 * us_per_minute)).
    { cbv [mk_datetime us_per_minute us_per_hour us_per_day us_per_second]. lia. }
    rewrite E.
    replace (mk_datetime day 8 0 0 + 26 * (30 * us_per_minute) - mk_datetime day 8 0 0)
      with (26 * (30 * us_per_minute)) by lia.
    rewrite Z.div_mul by (vm_compute; discriminate).
    apply slots_loop_spec.
    + vm_compute. lia.
    + change (Z.of_nat 26) with 26. lia.
    + right. change (Z.of_nat 26) with 26.
      assert (30 * us_per_minute > 0) by (vm_compute; reflexivity). lia.
  - rewrite map_map. reflexivity.
Qed.

Lemma insert_created_perm (x : Booking) (l : list Booking) :
  Permutation (insert_created x l) (x :: l).
Proof.
  induction l as [|y l IH]; cbn [insert_created]; [reflexivity|].
  destruct (b_created_at x <? b_created_at y); [|reflexivity].
  rewrite IH. apply perm_swap.
Qed.

Lemma sort_created_desc_perm (l : list Booking) : Permutation (sort_created_desc l) l.
Proof.
  induction l as [|x l IH]; [reflexivity|].
  change (sort_created_desc (x :: l)) with (insert_created x (sort_created_desc l)).
  rewrite insert_created_perm. now constructor.
Qed.

Lemma insert_created_sorted (x : Booking) (l : list Booking) :
  Sorted created_ge l -> Sorted created_ge (insert_created x l).
Proof.
  induction 1 as [|y l Hs IH Hhd]; cbn [insert_created].
  - repeat constructor.
  - destruct (b_created_at x <? b_created_at y) eqn:E.
    + apply Z.ltb_lt in E. constructor; [exact IH|].
      destruct l as [|z l]; cbn [insert_created].
      * constructor. unfold created_ge. lia.
      * destruct (b_created_at x <? b_created_at z); constructor;
          [now inversion Hhd | unfold created_ge; lia].
    + apply Z.ltb_ge in E. constructor; [now constructor|].
      constructor. unfold created_ge. lia.
Qed.

Lemma sort_created_desc_sorted (l : list Booking) :
  StronglySorted created_ge (sort_created_desc l).
Proof.
  apply Sorted_StronglySorted.
  - intros a b c. unfold created_ge. lia.
  - induction l as [|x l IH]; [constructor|].
    change (sort_created_desc (x :: l)) with (insert_created x (sort_created_desc l)).
    now apply insert_created_sorted.
Qed.

(** X28.  [list_bookings] only reads.  Its [total] counts the bookings that
    pass the filters (the owner when an e-mail is given, the status when one
    is given), whatever the paging; the page holds the views of the
    bookings from position [skip] on, at most [limit] of them, of the
    matching bookings ordered by creation time, latest first. *)
Theorem list_bookings_page :
  forall (user_email status : option string) (skip limit : N) (d : DB),
    exists (r : BookingList) (sorted : list Booking),
      Handlers.list_bookings user_email status skip limit d = (Returned r, d) /\
      bl_total r = Z.of_nat (List.length (filter (listed user_email status d) (bookings d))) /\
      Permutation sorted (filter (listed user_email status d) (bookings d)) /\
      StronglySorted created_ge sorted /\
      bl_bookings r
      = map (booking_view d) (firstn (N.to_nat limit) (skipn (N.to_nat skip) sorted)) /\
      List.length (bl_bookings r)
      = Nat.min (N.to_nat limit)
                (List.length (filter (listed user_email status d) (bookings d))
                 - N.to_nat skip).
Proof.
  intros user_email status skip limit d.
  assert (Hlen : forall q, Datatypes.length
            (map (booking_view d)
               (firstn (N.to_nat limit) (skipn (N.to_nat skip) (sort_created_desc q))))
            = Nat.min (N.to_nat limit) (Datatypes.length q - N.to_nat skip)).
  { intros q. rewrite length_map, length_firstn, length_skipn.
    now rewrite (Permutation_length (sort_created_desc_perm q)). }
  unfold Handlers.list_bookings, bind, query, ret, listed.
  destruct (truthy_str user_email).
  - destruct (find _ (users d)) as [u|].
    + destruct (truthy_str status).
      * rewrite filter_filter.
        eexists _, (sort_created_desc _). split; [reflexivity|].
        cbn [bl_total bl_bookings]. split; [reflexivity|].
        split; [apply sort_created_desc_perm|].
        split; [apply sort_created_desc_sorted|]. split; [reflexivity | apply Hlen].
      * eexists _, (sort_created_desc _). split; [reflexivity|].
        cbn [bl_total bl_bookings].
        rewrite (filter_ext (fun b => (b_user_id b =? u_id u) && true)
                            (fun b => b_user_id b =? u_id u))
          by (intros; apply andb_true_r).
        split; [reflexivity|]. split; [apply sort_created_desc_perm|].
        split; [apply sort_created_desc_sorted|]. split; [reflexivity | apply Hlen].
    + exists (mkBookingList [] 0 None), []. split; [reflexivity|].
      rewrite (filter_none _ (bookings d)) by reflexivity.
      cbn [bl_total bl_bookings List.length].
      rewrite skipn_nil, firstn_nil. repeat split; try constructor.
      cbn. now rewrite Nat.min_0_r.
  - destruct (truthy_str status).
    + eexists _, (sort_created_desc _). split; [reflexivity|].
      cbn [bl_total bl_bookings andb].
      split; [reflexivity|]. split; [apply sort_created_desc_perm|].
      split; [apply sort_created_desc_sorted|]. split; [reflexivity | apply Hlen].
    + eexists _, (sort_created_desc _). split; [reflexivity|].
      cbn [bl_total bl_bookings andb].
      assert (Eall : filter (fun _ : Booking => true) (bookings d) = bookings d).
      { apply forallb_filter_id. now apply forallb_forall. }
      rewrite Eall.
      split; [reflexivity|]. split; [apply sort_created_desc_perm|].
      split; [apply sort_created_desc_sorted|]. split; [reflexivity | apply Hlen].
Qed.
